(** * Retrieval-and-answer orchestration of the chat backend

    A shallow embedding of [services/chat_service.py] (class [ChatService]):
    the query analyzer, the retrieval cache, the confidence evaluator, the
    relevance gate, the context assembler, the fallback answer and the
    orchestrator [get_response], followed by the properties proved of them.

    Conventions of the embedding.
    - A Python [str] is a [string] whose characters are the code points
      U+0000..U+00FF; [lower], [strip], [split] and [in] follow CPython on
      that range.
    - A Python [float] is a binary64 primitive float; literals such as [0.8]
      denote the nearest binary64 value, as in Python.
    - A dict read with [.get(key, default)] is a record of [option] fields.
    - An insertion-ordered [dict] used as a queue is an association list.
    - Exceptions are the instances of [Exception]; effects are threaded
      through a state-and-exception monad. *)

From Stdlib Require Import List String Ascii Bool Arith ZArith Lia Permutation.
From Stdlib Require Import Floats Uint63 DecimalString DecimalPos DecimalZ.
Import ListNotations.

Set Warnings "-inexact-float".
Open Scope string_scope.
Open Scope nat_scope.

(* ================================================================= *)
(** ** Python built-ins used by the service *)

Module Py.

(** [str.isspace] on one character: TAB..CR, FS..US, SPACE, NEL, NBSP. *)
Definition isspace (c : ascii) : bool :=
  let n := nat_of_ascii c in
  ((9 <=? n) && (n <=? 13)) || ((28 <=? n) && (n <=? 32))
  || (n =? 133) || (n =? 160).

(** [str.lower] on one character: A-Z and the Latin-1 capitals
    U+00C0..U+00DE (the multiplication sign U+00D7 excepted). *)
Definition lower_char (c : ascii) : ascii :=
  let n := nat_of_ascii c in
  if ((65 <=? n) && (n <=? 90))
     || ((192 <=? n) && (n <=? 222) && negb (n =? 215))
  then ascii_of_nat (n + 32) else c.

Fixpoint lower (s : string) : string :=
  match s with
  | EmptyString => EmptyString
  | String c s' => String (lower_char c) (lower s')
  end.

(** Generic strip of the characters satisfying [p] at both ends. *)
Fixpoint lstrip_by (p : ascii -> bool) (s : string) : string :=
  match s with
  | EmptyString => EmptyString
  | String c s' => if p c then lstrip_by p s' else s
  end.

Fixpoint rstrip_by (p : ascii -> bool) (s : string) : string :=
  match s with
  | EmptyString => EmptyString
  | String c s' =>
      match rstrip_by p s' with
      | EmptyString => if p c then EmptyString else String c EmptyString
      | r => String c r
      end
  end.

Definition strip_by (p : ascii -> bool) (s : string) : string :=
  rstrip_by p (lstrip_by p s).

(** [s.strip()] *)
Definition strip (s : string) : string := strip_by isspace s.

Fixpoint mem_char (c : ascii) (chars : string) : bool :=
  match chars with
  | EmptyString => false
  | String d chars' => Ascii.eqb c d || mem_char c chars'
  end.

(** [s.strip(chars)] *)
Definition strip_chars (chars s : string) : string :=
  strip_by (fun c => mem_char c chars) s.

(** [s.split()]: the maximal runs of non-whitespace characters; [w] is
    the run being read. *)
Fixpoint split_from (w s : string) : list string :=
  match s with
  | EmptyString => match w with EmptyString => [] | _ => [w] end
  | String c s' =>
      if isspace c
      then match w with
           | EmptyString => split_from EmptyString s'
           | _ => w :: split_from EmptyString s'
           end
      else split_from (w ++ String c EmptyString) s'
  end.

Definition split (s : string) : list string := split_from EmptyString s.

(** [s.split(sep)] for a one-character separator. *)
Fixpoint split_on (sep : ascii) (s : string) : list string :=
  match s with
  | EmptyString => [EmptyString]
  | String c s' =>
      if Ascii.eqb c sep then EmptyString :: split_on sep s'
      else match split_on sep s' with
           | w :: ws => String c w :: ws
           | [] => [String c EmptyString]
           end
  end.

(** [sep.join(parts)] *)
Definition join (sep : string) (parts : list string) : string :=
  String.concat sep parts.

(** [needle in hay] *)
Fixpoint contains (needle hay : string) : bool :=
  String.prefix needle hay
  || match hay with
     | EmptyString => false
     | String _ hay' => contains needle hay'
     end.

(** [s[:n]] *)
Definition take (n : nat) (s : string) : string := substring 0 n s.

(** [l[:n]] and [l[-n:]] on lists. *)
Definition ltake {A} (n : nat) (l : list A) : list A := firstn n l.
Definition llast {A} (n : nat) (l : list A) : list A :=
  skipn (List.length l - n) l.

(** [str(n)] for a non-negative and for an arbitrary [int]. *)
Definition str_of_nat (n : nat) : string :=
  NilZero.string_of_uint (Nat.to_uint n).
Definition str_of_int (z : Z) : string :=
  NilZero.string_of_int (Z.to_int z).

(** Truthiness of a [str] and of an optional [str]. *)
Definition truthy (s : string) : bool :=
  match s with EmptyString => false | _ => true end.
Definition truthy_opt (o : option string) : bool :=
  match o with Some s => truthy s | None => false end.

(** [float(n)] for a length or a count. *)
Definition float_of_nat (n : nat) : float :=
  PrimFloat.of_uint63 (Uint63.of_Z (Z.of_nat n)).

(** [sum(xs)] over floats: left to right from [0]. (Interpreters that
    compensate the rounding of [sum] differ in the last bits only; the
    properties below do not depend on them.) *)
Definition sum_float (xs : list float) : float :=
  fold_left PrimFloat.add xs 0%float.

(** [sum(ns)] over ints. *)
Definition sum_nat (ns : list nat) : nat := fold_left Nat.add ns 0.

(** [a >= b] and [a > b] on floats. *)
Definition fge (a b : float) : bool := PrimFloat.leb b a.
Definition fgt (a b : float) : bool := PrimFloat.ltb b a.

(** The line feed. *)
Definition LF : ascii := ascii_of_nat 10.
Definition nl : string := String LF EmptyString.

End Py.

(* ================================================================= *)
(** ** Data model *)

(** The [metadata] dict of a retrieved chunk. *)
Record Metadata := {
  filename : option string;
  source : option string;
  upload_time : option string
}.

(** A retrieved chunk, as [search] and [search_agent] build it; every key
    is read with [.get]. *)
Record Chunk := {
  text : option string;
  metadata : option Metadata;
  similarity_score : option float;
  rank : option nat
}.

(** [chunk.get('similarity_score', 0)] *)
Definition score_of (c : Chunk) : float :=
  match similarity_score c with Some x => x | None => 0%float end.

(** [chunk.get('text', '')] *)
Definition text_of (c : Chunk) : string :=
  match text c with Some t => t | None => EmptyString end.

(** The dict returned by [_analyze_query_complexity]. *)
Record QueryAnalysis := {
  complexity : string;
  optimal_chunks : Z;
  technical_score : nat;
  specificity_score : nat;
  word_count : nat
}.

(** The dict returned by [_evaluate_kb_confidence]; the last three keys
    are absent from the dict of the empty case. *)
Record Confidence := {
  confidence : float;
  should_search_web : bool;
  reason : string;
  avg_similarity : option float;
  high_confidence_chunks : option nat;
  total_context_length : option nat
}.

(* ================================================================= *)
(** ** Query analyzer: [_analyze_query_complexity] *)

Definition technical_keywords : list string :=
  ["how"; "why"; "what"; "when"; "where"; "troubleshoot"; "error";
   "problem"; "issue"; "configure"; "install"; "setup"].

Definition specific_terms : list string :=
  ["api"; "database"; "server"; "configuration"; "authentication";
   "deployment"; "integration"].

(** [sum(1 for k in keywords if k in s)] *)
Definition count_in (keywords : list string) (s : string) : nat :=
  List.length (filter (fun k => Py.contains k s) keywords).

Definition _analyze_query_complexity (query : string) : QueryAnalysis :=
  let query_lower := Py.strip (Py.lower query) in
  let technical_score := count_in technical_keywords query_lower in
  let specificity_score := count_in specific_terms query_lower in
  let word_count := List.length (Py.split query) in
  let '(complexity, optimal_chunks) :=
    if (word_count <=? 3) && (technical_score =? 0) then ("simple", 3%Z)
    else if (word_count <=? 8) && (technical_score <=? 2) then ("moderate", 5%Z)
    else ("complex", 8%Z) in
  {| complexity := complexity;
     optimal_chunks := optimal_chunks;
     technical_score := technical_score;
     specificity_score := specificity_score;
     word_count := word_count |}.

(* ================================================================= *)
(** ** Confidence evaluator: [_evaluate_kb_confidence] *)

Definition mean_similarity (chunks : list Chunk) : float :=
  PrimFloat.div (Py.sum_float (map score_of chunks))
                (Py.float_of_nat (List.length chunks)).

Definition high_confidence (chunks : list Chunk) : list Chunk :=
  filter (fun c => Py.fge (score_of c) 0.8%float) chunks.

Definition total_text_length (chunks : list Chunk) : nat :=
  Py.sum_nat (map (fun c => String.length (text_of c)) chunks).

Definition _evaluate_kb_confidence (chunks : list Chunk) (query : string)
  : Confidence :=
  match chunks with
  | [] =>
      {| confidence := 0.0%float; should_search_web := true;
         reason := "no_kb_results";
         avg_similarity := None; high_confidence_chunks := None;
         total_context_length := None |}
  | _ =>
      let avg := mean_similarity chunks in
      let high := high_confidence chunks in
      let total := total_text_length chunks in
      let '(conf, web, why) :=
        if Py.fge avg 0.8%float && (2 <=? List.length high)
        then (0.9%float, false, "high_confidence_kb_match")
        else if Py.fge avg 0.6%float && (500 <=? total)
        then (0.7%float, false, "sufficient_kb_context")
        else if Py.fge avg 0.4%float
        then (0.5%float, true, "moderate_kb_match_needs_web")
        else (0.2%float, true, "low_kb_confidence") in
      {| confidence := conf; should_search_web := web; reason := why;
         avg_similarity := Some avg;
         high_confidence_chunks := Some (List.length high);
         total_context_length := Some total |}
  end.

(* ================================================================= *)
(** ** Exceptions, collaborators and the effect monad *)

(** An instance of [Exception] with its message. *)
Inductive exn := Exception (msg : string).

(** The outcome of a call that may raise. *)
Inductive result (A : Type) := Ok (a : A) | Raise (e : exn).
Arguments Ok {A} a.
Arguments Raise {A} e.

(** A row of the [messages] table. *)
Record MessageRow := {
  sender : option string;
  row_text : option string
}.

(** One entry of [conversation_history]: [{'message': m, 'response': r}]. *)
Record Exchange := {
  ex_message : string;
  ex_response : string
}.

(** The agent dict returned by [AgentService.get_agent]. *)
Record Agent := {
  extra_instructions : option string
}.

(** A link dict built by [_parse_web_results]. *)
Record Link := {
  title : string;
  url : string;
  snippet : string
}.

(** The dict handled as [web_results]; [{}] has both keys absent. *)
Record WebResults := {
  web_text : option string;
  links : option (list Link)
}.

(** The JSON answer of the web search provider. *)
Record Organic := {
  o_title : option string;
  o_link : option string;
  o_snippet : option string
}.

Record AnswerBox := {
  ab_answer : option string;
  ab_link : option string
}.

Record KnowledgeGraph := {
  kg_title : option string;
  kg_description : option string;
  kg_website : option string
}.

Record RawResults := {
  organic : option (list Organic);
  answerBox : option AnswerBox;
  knowledgeGraph : option KnowledgeGraph
}.

(** The helper calls of [get_response] that sit outside any local
    [try]/[except]. Their embeddings below are total functions of typed
    records; the Python helpers can still raise (on a value of the wrong
    type, on exhaustion). [fault] of the environment says which of them
    raises during a call, if any. *)
Inductive Step :=
| StepHistory      (* converting the stored rows, lines 438-445 *)
| StepKbContext    (* _build_context(chunks), line 449 *)
| StepConfidence   (* _evaluate_kb_confidence, line 454 *)
| StepWebLinks     (* trimming and gating the links, lines 466-473 *)
| StepContext      (* _build_context(chunks, web_results), line 485 *)
| StepPrompt       (* building the prompt, lines 506-559 *)
| StepFallback     (* _generate_fallback_response *)
| StepSources      (* _extract_sources *)
| StepResponse.    (* ChatResponse(...) *)

(** What the collaborators answer during one call of the service. A
    collaborator that is not configured is [None]. *)
Record Env := {
  search_agent : string -> string -> Z -> option string -> result (list Chunk);
  kb_search : string -> Z -> result (list Chunk);
  messages_of : string -> result (list MessageRow);
  web_search_tool : option (string -> result RawResults);
  get_agent : string -> result (option Agent);
  llm : option (string -> result string);
  fault : Step -> option exn
}.

(** A call made to a collaborator, with its arguments. *)
Inductive Call :=
| CallSearchAgent (agent_id query : string) (top_k : Z) (user_id : option string)
| CallKbSearch (query : string) (top_k : Z)
| CallMessages (conversation_id : string)
| CallWebSearch (search_query : string)
| CallGetAgent (agent_id : string)
| CallLlm (prompt : string).

(** [self._query_cache]: keys in insertion order. *)
Definition Cache := list (string * list Chunk).

(** The mutable state of the service and the log of collaborator calls. *)
Record World := {
  _query_cache : Cache;
  trace : list Call
}.

(** [ChatService.__init__]: an empty cache; nothing called yet. *)
Definition init_world : World := {| _query_cache := []; trace := [] |}.

Definition _cache_max_size : nat := 100.

Module M.

Definition t (A : Type) : Type := World -> result A * World.

Definition ret {A} (a : A) : t A := fun w => (Ok a, w).

Definition bind {A B} (m : t A) (k : A -> t B) : t B :=
  fun w =>
    match m w with
    | (Ok a, w') => k a w'
    | (Raise e, w') => (Raise e, w')
    end.

Definition raise {A} (e : exn) : t A := fun w => (Raise e, w).

(** [try: m  except Exception as e: h e] *)
Definition try_except {A} (m : t A) (h : exn -> t A) : t A :=
  fun w =>
    match m w with
    | (Ok a, w') => (Ok a, w')
    | (Raise e, w') => h e w'
    end.

Definition get_cache : t Cache := fun w => (Ok (_query_cache w), w).

Definition set_cache (c : Cache) : t unit :=
  fun w => (Ok tt, {| _query_cache := c; trace := trace w |}).

(** Calling a collaborator: the call is logged, then it answers. *)
Definition call {A} (c : Call) (answer : result A) : t A :=
  fun w => (answer, {| _query_cache := _query_cache w;
                        trace := (trace w ++ [c])%list |}).

End M.

Notation "x <- m ;; k" := (M.bind m (fun x => k))
  (at level 61, m at next level, right associativity).
Notation "m ;;; k" := (M.bind m (fun _ => k))
  (at level 61, right associativity).

(* ================================================================= *)
(** ** The insertion-ordered dict behind the cache *)

(** [key in d] *)
Fixpoint dict_mem (key : string) (d : Cache) : bool :=
  match d with
  | [] => false
  | (k, _) :: d' => String.eqb k key || dict_mem key d'
  end.

(** [d[key]], when present *)
Fixpoint dict_get (key : string) (d : Cache) : option (list Chunk) :=
  match d with
  | [] => None
  | (k, v) :: d' => if String.eqb k key then Some v else dict_get key d'
  end.

(** [d[key] = v]: an existing key keeps its place, a new key goes last. *)
Fixpoint dict_set (key : string) (v : list Chunk) (d : Cache) : Cache :=
  match d with
  | [] => [(key, v)]
  | (k, v') :: d' =>
      if String.eqb k key then (k, v) :: d' else (k, v') :: dict_set key v d'
  end.

(** [del d[key]] *)
Fixpoint dict_del (key : string) (d : Cache) : Cache :=
  match d with
  | [] => []
  | (k, v) :: d' => if String.eqb k key then d' else (k, v) :: dict_del key d'
  end.

(** [next(iter(d))]: the earliest-inserted key still present. *)
Definition dict_first (d : Cache) : result string :=
  match d with
  | [] => Raise (Exception "StopIteration")
  | (k, _) :: _ => Ok k
  end.

Definition keys (d : Cache) : list string := map fst d.

(* ================================================================= *)
(** ** Retrieval cache: [_search_knowledge_base] and [clear_cache] *)

Definition confidence_threshold : float := 0.3%float.

(** [f"{agent_id or 'global'}:{query.lower().strip()}:{top_k}"] *)
Definition cache_key (agent_id : option string) (query : string) (top_k : Z)
  : string :=
  (if Py.truthy_opt agent_id
   then match agent_id with Some a => a | None => "global" end
   else "global")
  ++ ":" ++ Py.strip (Py.lower query) ++ ":" ++ Py.str_of_int top_k.

Section Retrieval.

Variable E : Env.

(** The depth used when the caller gives none. *)
Definition depth_of (query : string) (top_k : option Z) : Z :=
  match top_k with
  | Some k => k
  | None => optimal_chunks (_analyze_query_complexity query)
  end.

(** Lines 153-156: the vector search of the agent or the global one:
    the call made and what the collaborator answers. *)
Definition search_call (query : string) (agent_id : option string)
           (top_k : Z) (user_id : option string) : Call :=
  match agent_id with
  | Some a =>
      if Py.truthy a then CallSearchAgent a query top_k user_id
      else CallKbSearch query top_k
  | None => CallKbSearch query top_k
  end.

Definition search_answer (query : string) (agent_id : option string)
           (top_k : Z) (user_id : option string) : result (list Chunk) :=
  match agent_id with
  | Some a =>
      if Py.truthy a then search_agent E a query top_k user_id
      else kb_search E query top_k
  | None => kb_search E query top_k
  end.

Definition perform_search (query : string) (agent_id : option string)
           (top_k : Z) (user_id : option string) : M.t (list Chunk) :=
  M.call (search_call query agent_id top_k user_id)
         (search_answer query agent_id top_k user_id).

(** Lines 162-168: make room, then store. *)
Definition store (key : string) (filtered : list Chunk) : M.t unit :=
  cache <- M.get_cache ;;
  if _cache_max_size <=? List.length cache
  then match dict_first cache with
       | Ok oldest_key =>
           M.set_cache (dict_set key filtered (dict_del oldest_key cache))
       | Raise e => M.raise e
       end
  else M.set_cache (dict_set key filtered cache).

Definition _search_knowledge_base (query : string) (agent_id : option string)
           (top_k : option Z) (user_id : option string) : M.t (list Chunk) :=
  M.try_except
    (let top_k := depth_of query top_k in
     let key := cache_key agent_id query top_k in
     cache <- M.get_cache ;;
     match dict_get key cache with
     | Some cached => M.ret cached
     | None =>
         results <- perform_search query agent_id top_k user_id ;;
         let filtered_results :=
           filter (fun r => Py.fge (score_of r) confidence_threshold) results in
         store key filtered_results ;;;
         M.ret filtered_results
     end)
    (fun _ => M.ret []).

End Retrieval.

Definition clear_cache : M.t unit := M.set_cache [].

(* ================================================================= *)
(** ** Pure helpers of the orchestrator *)

Definition opt_str (o : option string) (default : string) : string :=
  match o with Some s => s | None => default end.

(** The numbered link lines
    [f"{i}. [{link['title']}]({link['url']})\n"], for [i] from [start]. *)
Fixpoint link_lines (start : nat) (ls : list Link) : string :=
  match ls with
  | [] => ""
  | l :: ls' =>
      Py.str_of_nat start ++ ". [" ++ title l ++ "](" ++ url l ++ ")" ++ Py.nl
      ++ link_lines (S start) ls'
  end.

(** A dict is truthy when it has a key. *)
Definition web_truthy (wr : WebResults) : bool :=
  match web_text wr, links wr with
  | None, None => false
  | _, _ => true
  end.

(** [web_results.get('links')] is truthy: present and non-empty. *)
Definition links_truthy (wr : WebResults) : bool :=
  match links wr with
  | Some (_ :: _) => true
  | _ => false
  end.

Definition links_of (wr : WebResults) : list Link :=
  match links wr with Some ls => ls | None => [] end.

(** *** Context assembler: [_build_context] *)

(** The loop body at [enumerate(chunks[:3], 1)]. *)
Fixpoint doc_entries (i : nat) (chunks : list Chunk) : string :=
  match chunks with
  | [] => ""
  | chunk :: rest =>
      let text := Py.strip (text_of chunk) in
      let filename :=
        match metadata chunk with
        | Some m => opt_str (filename m) "Unknown"
        | None => "Unknown"
        end in
      Py.nl ++ "[Source " ++ Py.str_of_nat i ++ ": " ++ filename ++ "]" ++ Py.nl
      ++ text ++ Py.nl ++ doc_entries (S i) rest
  end.

Definition _build_context (chunks : list Chunk) (web_results : option WebResults)
  : string :=
  let doc_part :=
    match chunks with
    | [] => []
    | _ => ["Technical Documentation:" ++ Py.nl
            ++ doc_entries 1 (Py.ltake 3 chunks)]
    end in
  let web_part :=
    match web_results with
    | Some wr =>
        if web_truthy wr && Py.truthy_opt (web_text wr)
        then ["Web Search Results:" ++ Py.nl ++ opt_str (web_text wr) ""]
        else []
    | None => []
    end in
  Py.join (Py.nl ++ Py.nl) (doc_part ++ web_part)%list.

(** *** Deterministic answer: [_generate_fallback_response] *)

Definition _generate_fallback_response (context query : string)
           (web_links : list Link) : string :=
  if Py.truthy context then
    let lines := Py.ltake 5 (Py.split_on Py.LF context) in
    let summary := Py.take 300 (Py.strip (Py.join " " lines)) in
    "Here's what I found: " ++ summary ++ "..."
    ++ match web_links with
       | [] => ""
       | _ => Py.nl ++ Py.nl ++ "**Helpful Links:**" ++ Py.nl
              ++ link_lines 1 (Py.ltake 2 web_links)
       end
    ++ Py.nl ++ "(Note: LLM service temporarily unavailable - showing raw data)"
  else
    "I couldn't find specific documentation for '" ++ query ++ "'. "
    ++ match web_links with
       | [] => "Try uploading relevant technical manuals or rephrasing your question."
       | _ => "However, I found these helpful resources:" ++ Py.nl ++ Py.nl
              ++ link_lines 1 (Py.ltake 3 web_links)
              ++ Py.nl
              ++ "Try these links or upload relevant technical manuals for more specific help."
       end.

(** *** Web result parsing: [_parse_web_results] *)

(** One organic result: its link dict and text block when both the link
    and the title are non-empty. *)
Definition organic_entry (r : Organic) : option (Link * string) :=
  let title := opt_str (o_title r) "" in
  let link := opt_str (o_link r) "" in
  let snippet := opt_str (o_snippet r) "" in
  if Py.truthy link && Py.truthy title then
    Some ({| title := title; url := link;
             snippet := if 200 <? String.length snippet
                        then Py.take 200 snippet ++ "..." else snippet |},
          "**" ++ title ++ "**" ++ Py.nl ++ snippet ++ Py.nl
          ++ "Source: " ++ link ++ Py.nl)
  else None.

Fixpoint organic_entries (rs : list Organic) : list (Link * string) :=
  match rs with
  | [] => []
  | r :: rs' =>
      match organic_entry r with
      | Some e => e :: organic_entries rs'
      | None => organic_entries rs'
      end
  end.

Definition _parse_web_results (data : RawResults) : WebResults :=
  let entries :=
    match organic data with
    | Some rs => organic_entries (Py.ltake 3 rs)
    | None => []
    end in
  let links0 := map fst entries in
  let text0 := map snd entries in
  let '(links1, text1) :=
    match answerBox data with
    | Some answer =>
        (match ab_link answer with
         | Some l => {| title := "Answer Source"; url := l;
                        snippet := Py.take 200 (opt_str (ab_answer answer) "") |}
                     :: links0
         | None => links0
         end,
         match ab_answer answer with
         | Some a => ("**Quick Answer:** " ++ a ++ Py.nl) :: text0
         | None => text0
         end)
    | None => (links0, text0)
    end in
  let '(links2, text2) :=
    match knowledgeGraph data with
    | Some kg =>
        match kg_title kg, kg_description kg with
        | Some t, Some d =>
            (match kg_website kg with
             | Some w => {| title := t; url := w; snippet := Py.take 200 d |}
                         :: links1
             | None => links1
             end,
             ("**" ++ t ++ "**" ++ Py.nl ++ d ++ Py.nl) :: text1)
        | _, _ => (links1, text1)
        end
    | None => (links1, text1)
    end in
  {| web_text := Some (Py.join (Py.nl ++ Py.nl) text2); links := Some links2 |}.

(** The dict returned when the web search is skipped or fails. *)
Definition no_web_results : WebResults :=
  {| web_text := Some ""; links := Some [] |}.

(** *** Sources *)

(** A source dict of the response: a document or a web link
    ([source_type = 'web_link'], [similarity_score = 0.0]). *)
Inductive Source :=
| DocSource (filename : string) (similarity_score : float)
            (source_type upload_time : string)
| WebSource (filename url snippet : string).

(** The answer handed to the caller. *)
Record ChatResponse := {
  response : string;
  sources : list Source;
  chunks_found : nat;
  conversation_id : option string
}.

Definition mem_string (s : string) (l : list string) : bool :=
  existsb (String.eqb s) l.

(* ================================================================= *)
(** ** Helpers that rest on library functions *)

Section Library.

(** [re.search(pattern, s, re.IGNORECASE)] is not [None]. *)
Variable re_search_ignorecase : string -> string -> bool.

(** [round(x, 3)] *)
Variable round3 : float -> float.

(** *** Relevance gate: [_should_include_web_links] *)

Definition web_keywords : list string :=
  ["search online"; "search web"; "find online"; "look up online";
   "google"; "internet"; "website"; "url"; "link"; "online";
   "current"; "latest"; "recent"; "new"; "updated"; "today";
   "official website"; "manufacturer website"; "download";
   "buy"; "purchase"; "price"; "cost"; "where to buy"].

Definition product_patterns : list string :=
  ["\b[A-Z]{2,}\d+[A-Z]*\b"; "\bmodel\s+\w+"; "\bpart\s+number";
   "\bserial\s+number"].

(** Lines 371-379: the share of the message's long words found in the
    text of the web results. *)
Definition relevance_score (message_lower : string) (wr : WebResults)
  : float :=
  let web_text := Py.lower (opt_str (web_text wr) "") in
  let message_keywords :=
    map (Py.strip_chars ".,?!")
        (filter (fun word => 3 <? String.length word)
                (Py.split message_lower)) in
  let keyword_matches :=
    List.length (filter (fun k => Py.contains k web_text) message_keywords) in
  PrimFloat.div (Py.float_of_nat keyword_matches)
                (Py.float_of_nat (Nat.max (List.length message_keywords) 1)).

Definition _should_include_web_links (message kb_context : string)
           (web_results : option WebResults) : bool :=
  match web_results with
  | None => false
  | Some wr =>
      if negb (web_truthy wr) || negb (links_truthy wr) then false
      else
        let message_lower := Py.lower message in
        if existsb (fun keyword => Py.contains keyword message_lower)
                   web_keywords
        then true
        else if negb (Py.truthy kb_context)
                || (String.length (Py.strip kb_context) <? 100)
        then true
        else if existsb (fun pattern =>
                           re_search_ignorecase pattern message
                           && (String.length (Py.strip kb_context) <? 300))
                        product_patterns
        then true
        else Py.fgt (relevance_score message_lower wr) 0.5%float
  end.

(** *** Web query: [_generate_search_query] *)

Definition stop_words : list string :=
  ["how"; "do"; "i"; "can"; "you"; "help"; "me"; "with"; "what"; "is";
   "the"; "a"; "an"; "and"; "or"; "but"; "in"; "on"; "at"; "to"; "for";
   "of"; "as"; "by"].

Definition technical_patterns : list (string * string) :=
  [("\b([A-Z]{2,}\d+[A-Z]*)\b", "model");
   ("\berror\s+code\s+(\w+)", "error code");
   ("\bpart\s+number\s+(\w+)", "part number");
   ("\bmanual\s+for\s+(\w+)", "manual");
   ("\btroubleshoot\s+(\w+)", "troubleshooting");
   ("\binstall\s+(\w+)", "installation guide");
   ("\breplace\s+(\w+)", "replacement guide")].

Definition _generate_search_query (message : string) : string :=
  let words := Py.split (Py.lower message) in
  let filtered_words :=
    map (Py.strip_chars ".,?!")
        (filter (fun word =>
                   negb (mem_string (Py.strip_chars ".,?!" word) stop_words)
                   && (2 <? String.length word))
                words) in
  let enhanced_query := Py.join " " filtered_words in
  let enhanced_query :=
    match find (fun pc => re_search_ignorecase (fst pc) message)
               technical_patterns with
    | Some (_, context) => enhanced_query ++ " " ++ context
    | None => enhanced_query
    end in
  if Py.truthy (Py.strip enhanced_query) then Py.strip enhanced_query
  else message.

(** *** Source extraction: [_extract_sources] *)

(** The loop over [chunks[:3]] with the set [seen_files]. *)
Fixpoint doc_sources (seen_files : list string) (chunks : list Chunk)
  : list Source :=
  match chunks with
  | [] => []
  | chunk :: rest =>
      let filename :=
        match metadata chunk with
        | Some m => opt_str (filename m) "Unknown"
        | None => "Unknown"
        end in
      if negb (String.eqb filename "Unknown")
         && negb (mem_string filename seen_files)
      then DocSource filename (round3 (score_of chunk))
             (match metadata chunk with
              | Some m => opt_str (source m) "document"
              | None => "document"
              end)
             (match metadata chunk with
              | Some m => opt_str (upload_time m) "unknown"
              | None => "unknown"
              end)
           :: doc_sources (filename :: seen_files) rest
      else doc_sources seen_files rest
  end.

Definition _extract_sources (chunks : list Chunk) (web_links : list Link)
  : list Source :=
  (doc_sources [] (Py.ltake 3 chunks)
   ++ map (fun link => WebSource (title link) (url link) (snippet link))
          (Py.ltake 3 web_links))%list.

End Library.

(* ================================================================= *)
(** ** Answer orchestrator: [get_response] *)

(** What steps 0-3 hand to the answer steps. *)
Record Gathered := {
  g_history : list Exchange;
  g_chunks : list Chunk;
  g_web_links : list Link;
  g_context : string
}.

Definition no_information_response : ChatResponse :=
  {| response := "I'm sorry, I couldn't find any relevant information for your query. Please upload relevant technical documentation or try rephrasing your question.";
     sources := []; chunks_found := 0; conversation_id := None |}.

(** The answer of the outermost [except]. *)
Definition apology_response : ChatResponse :=
  {| response := "I apologize, but I encountered an error while processing your request. Please try again.";
     sources := []; chunks_found := 0; conversation_id := None |}.

(** Lines 440-444: one stored row folded into the history. *)
Fixpoint set_last_response (r : string) (h : list Exchange) : list Exchange :=
  match h with
  | [] => []
  | [e] => [{| ex_message := ex_message e; ex_response := r |}]
  | e :: h' => e :: set_last_response r h'
  end.

Definition add_row (h : list Exchange) (msg : MessageRow) : list Exchange :=
  match sender msg with
  | Some s =>
      if String.eqb s "user"
      then (h ++ [{| ex_message := opt_str (row_text msg) "";
                     ex_response := "" |}])%list
      else if String.eqb s "bot"
      then match h with
           | [] => h
           | _ => set_last_response (opt_str (row_text msg) "") h
           end
      else h
  | None => h
  end.

Definition convert_history (history_data : list MessageRow) : list Exchange :=
  fold_left add_row history_data [].

(** Lines 506-513: the link block of the prompt and its guidance line. *)
Definition links_text (web_links : list Link) : string :=
  match web_links with
  | [] => ""
  | _ => Py.nl ++ Py.nl ++ "RELEVANT LINKS (include these when helpful):"
         ++ Py.nl ++ link_lines 1 (Py.ltake 3 web_links)
  end.

Definition link_guidance (web_links : list Link) : string :=
  match web_links with
  | [] => ""
  | _ => "- When you have relevant links, include them naturally in your response"
         ++ Py.nl
  end.

(** Lines 516-522: the last three exchanges that have both sides. *)
Fixpoint history_lines (i : nat) (entries : list Exchange) : string :=
  match entries with
  | [] => ""
  | entry :: rest =>
      (if Py.truthy (ex_message entry) && Py.truthy (ex_response entry)
       then "Previous Q" ++ Py.str_of_nat i ++ ": "
            ++ Py.take 100 (ex_message entry) ++ "..." ++ Py.nl
            ++ "Previous A" ++ Py.str_of_nat i ++ ": "
            ++ Py.take 100 (ex_response entry) ++ "..." ++ Py.nl ++ Py.nl
       else "")
      ++ history_lines (S i) rest
  end.

Definition history_context (conversation_history : list Exchange) : string :=
  match conversation_history with
  | [] => ""
  | _ => Py.nl ++ Py.nl ++ "CONVERSATION CONTEXT (recent exchanges):" ++ Py.nl
         ++ history_lines 1 (Py.llast 3 conversation_history)
  end.

(** Lines 502-503: the instructions of the agent, when it has some. *)
Definition instructions_of (agent : option Agent) : string :=
  match agent with
  | Some a =>
      if Py.truthy_opt (extra_instructions a)
      then Py.nl ++ Py.nl ++ "AGENT-SPECIFIC INSTRUCTIONS:" ++ Py.nl
           ++ opt_str (extra_instructions a) ""
      else ""
  | None => ""
  end.

Section Orchestrator.

Variable re_search_ignorecase : string -> string -> bool.
Variable round3 : float -> float.

(** The f-string of lines 524-554: fixed text around the context, the
    link block, the history block, the agent instructions, the message
    and the link guidance, in this order. *)
Variable prompt_template :
  string -> string -> string -> string -> string -> string -> string.

Variable E : Env.

(** A helper call that raises when the environment says so. *)
Definition at_step {A} (s : Step) (v : A) : M.t A :=
  match fault E s with
  | Some e => M.raise e
  | None => M.ret v
  end.

(** [get_conversation_history]: the rows, or [[]] when the store fails. *)
Definition get_conversation_history (conversation_id : string)
  : M.t (list MessageRow) :=
  M.try_except
    (M.call (CallMessages conversation_id) (messages_of E conversation_id))
    (fun _ => M.ret []).

(** [_search_web]: never raises. *)
Definition _search_web (query : string) : M.t WebResults :=
  match web_search_tool E with
  | None => M.ret no_web_results
  | Some results =>
      M.try_except
        (let search_query :=
           _generate_search_query re_search_ignorecase query in
         raw_results <- M.call (CallWebSearch search_query)
                               (results search_query) ;;
         M.ret (_parse_web_results raw_results))
        (fun _ => M.ret no_web_results)
  end.

(** Step 0, lines 434-445. *)
Definition load_history (conversation_id : option string)
  : M.t (list Exchange) :=
  match conversation_id with
  | Some cid =>
      if Py.truthy cid
      then history_data <- get_conversation_history cid ;;
           at_step StepHistory (convert_history history_data)
      else M.ret []
  | None => M.ret []
  end.

(** Lines 466-473: keep three links, then ask the relevance gate. *)
Definition gate_links (message kb_context : string) (web_results : WebResults)
  : option WebResults * list Link :=
  let web_results :=
    match links web_results with
    | Some ls => {| web_text := web_text web_results;
                    links := Some (Py.ltake 3 ls) |}
    | None => web_results
    end in
  let should_include_links :=
    _should_include_web_links re_search_ignorecase message kb_context
                              (Some web_results) in
  (Some web_results,
   if should_include_links then links_of web_results else []).

(** Steps 1-3 once the chunks are retrieved, lines 449-485. *)
Definition assemble (message : string) (conversation_history : list Exchange)
           (chunks : list Chunk) : M.t Gathered :=
  kb_context <- match chunks with
                | [] => M.ret ""
                | _ => at_step StepKbContext (_build_context chunks None)
                end ;;
  kb_confidence <- at_step StepConfidence
                     (_evaluate_kb_confidence chunks message) ;;
  web <- (if should_search_web kb_confidence
          then match web_search_tool E with
               | Some _ =>
                   web_results <- _search_web message ;;
                   at_step StepWebLinks
                     (gate_links message kb_context web_results)
               | None => M.ret (None, [])
               end
          else M.ret (None, [])) ;;
  context <- at_step StepContext (_build_context chunks (fst web)) ;;
  M.ret {| g_history := conversation_history; g_chunks := chunks;
           g_web_links := snd web; g_context := context |}.

(** Steps 0-3, lines 430-485. *)
Definition gather (message : string) (conversation_id agent_id user_id : option string)
  : M.t Gathered :=
  conversation_history <- load_history conversation_id ;;
  chunks <- _search_knowledge_base E message agent_id None user_id ;;
  assemble message conversation_history chunks.

(** Lines 499-503; the agent service is the one the service was
    constructed with. *)
Definition agent_instructions (agent_id : option string) : M.t string :=
  match agent_id with
  | Some a =>
      if Py.truthy a
      then agent <- M.call (CallGetAgent a) (get_agent E a) ;;
           M.ret (instructions_of agent)
      else M.ret ""
  | None => M.ret ""
  end.

Definition make_prompt (g : Gathered) (message instructions : string)
  : string :=
  prompt_template (g_context g) (links_text (g_web_links g))
                  (history_context (g_history g)) instructions message
                  (link_guidance (g_web_links g)).

(** Lines 591-598, and 578-584 with the text of the model. *)
Definition respond_with (g : Gathered) (response_text : string)
  : M.t ChatResponse :=
  sources <- at_step StepSources
               (_extract_sources round3 (g_chunks g) (g_web_links g)) ;;
  at_step StepResponse
    {| response := response_text; sources := sources;
       chunks_found := List.length (g_chunks g); conversation_id := None |}.

(** Step 4, lines 497-588: [None] when the inner [except] fell through. *)
Definition llm_answer (invoke : string -> result string) (g : Gathered)
           (message : string) (agent_id : option string)
  : M.t (option ChatResponse) :=
  M.try_except
    (instructions <- agent_instructions agent_id ;;
     prompt <- at_step StepPrompt (make_prompt g message instructions) ;;
     response_text <- M.call (CallLlm prompt) (invoke prompt) ;;
     response_text <-
       (if negb (Py.truthy response_text)
           || (String.length (Py.strip response_text) =? 0)
        then at_step StepFallback
               (_generate_fallback_response (g_context g) message
                                            (g_web_links g))
        else M.ret response_text) ;;
     r <- respond_with g response_text ;;
     M.ret (Some r))
    (fun _ => M.ret None).

(** Step 5, lines 591-598. *)
Definition fallback_answer (g : Gathered) (message : string)
  : M.t ChatResponse :=
  response_text <- at_step StepFallback
                     (_generate_fallback_response (g_context g) message
                                                  (g_web_links g)) ;;
  respond_with g response_text.

(** Lines 487-598. *)
Definition answer (g : Gathered) (message : string) (agent_id : option string)
  : M.t ChatResponse :=
  if negb (Py.truthy (g_context g)) then M.ret no_information_response
  else
    answered <- match llm E with
                | Some invoke => llm_answer invoke g message agent_id
                | None => M.ret None
                end ;;
    match answered with
    | Some r => M.ret r
    | None => fallback_answer g message
    end.

(** The body of the outer [try], lines 430-598. *)
Definition get_response_body (message : string)
           (conversation_id agent_id user_id : option string)
  : M.t ChatResponse :=
  g <- gather message conversation_id agent_id user_id ;;
  answer g message agent_id.

Definition get_response (message : string)
           (conversation_id agent_id user_id : option string)
  : M.t ChatResponse :=
  M.try_except
    (get_response_body message conversation_id agent_id user_id)
    (fun _ => M.ret apology_response).

End Orchestrator.


(* ================================================================= *)
(** ** Semantic cache helpers: [_calculate_query_similarity] and
       [_find_similar_cached_query] *)

(** [set(words)]: the distinct words; only sizes and membership are used. *)
Definition set_of (words : list string) : list string :=
  nodup string_dec words.

(** [a.intersection(b)] and [a.union(b)] on sets kept as duplicate-free
    lists. *)
Definition set_intersection (a b : list string) : list string :=
  filter (fun w => mem_string w b) a.

Definition set_union (a b : list string) : list string :=
  (a ++ filter (fun w => negb (mem_string w a)) b)%list.

Definition _semantic_cache_threshold : float := 0.85%float.

Definition _calculate_query_similarity (query1 query2 : string) : float :=
  let words1 := set_of (Py.split (Py.lower query1)) in
  let words2 := set_of (Py.split (Py.lower query2)) in
  match words1, words2 with
  | [], _ | _, [] => 0.0%float
  | _, _ =>
      let intersection := set_intersection words1 words2 in
      let union := set_union words1 words2 in
      match union with
      | [] => 0.0%float
      | _ => PrimFloat.div (Py.float_of_nat (List.length intersection))
                           (Py.float_of_nat (List.length union))
      end
  end.

(** [':'.join(parts[1:-1])] of [parts = cache_key.split(':')]. *)
Definition cached_query_of (cache_key : string) : string :=
  Py.join ":" (removelast (tl (Py.split_on ":"%char cache_key))).

(** The test of the loop body, lines 688-696. *)
Definition similar_key (query_prefix query : string) (cache_key : string)
  : bool :=
  String.prefix query_prefix cache_key
  && (3 <=? List.length (Py.split_on ":"%char cache_key))
  && Py.fge (_calculate_query_similarity (Py.strip (Py.lower query))
                                         (cached_query_of cache_key))
            _semantic_cache_threshold.

(** Reads [self._query_cache]; the keys are visited in insertion order. *)
Definition _find_similar_cached_query (cache : Cache) (query : string)
           (agent_id : option string) : option string :=
  let query_prefix :=
    (if Py.truthy_opt agent_id
     then match agent_id with Some a => a | None => "global" end
     else "global") ++ ":" in
  find (similar_key query_prefix query) (keys cache).

(* ================================================================= *)
(** ** The unused prompt builder: [_create_prompt] *)

(** A LangChain message. *)
Inductive ChatMessage :=
| SystemMessage (content : string)
| HumanMessage (content : string).

(** Lines 405-408: an exchange with both sides gives two messages. *)
Definition exchange_messages (entry : Exchange) : list ChatMessage :=
  if Py.truthy (ex_message entry) && Py.truthy (ex_response entry)
  then [HumanMessage (ex_message entry); SystemMessage (ex_response entry)]
  else [].

(** Lines 411-422. *)
Definition user_prompt (query context : string) : string :=
  if Py.truthy context then
    "Based on the following technical documentation and information, please answer the user's question:"
    ++ Py.nl ++ Py.nl ++ context ++ Py.nl ++ Py.nl
    ++ "User Question: " ++ query ++ Py.nl ++ Py.nl
    ++ "Provide a detailed, practical response based on the available information. If the context doesn't fully answer the question, mention what information is available and what might be missing."
  else
    "The user asked: " ++ query ++ Py.nl ++ Py.nl
    ++ "I don't have specific technical documentation available for this question. Please provide a helpful response and suggest uploading relevant technical manuals or documentation.".

(** [system_prompt] is [self.system_prompt]. *)
Definition _create_prompt (system_prompt query context : string)
           (conversation_history : list Exchange) : list ChatMessage :=
  (SystemMessage system_prompt
   :: flat_map exchange_messages (Py.llast 5 conversation_history)
   ++ [HumanMessage (user_prompt query context)])%list.

(* ================================================================= *)
(** ** The global vector search: [KnowledgeBaseService.search]
       ([services/knowledge_base.py]) *)

(** The metadata of a stored vector: the chunk text and the rest. *)
Record MatchMetadata := {
  mm_text : option string;
  mm_fields : Metadata
}.

(** A match of the index query. *)
Record Match := {
  match_metadata : option MatchMetadata;
  match_score : option float
}.

Definition no_fields : Metadata :=
  {| filename := None; source := None; upload_time := None |}.

Module KnowledgeBaseService.

(** The loop at [enumerate(results['matches'])]; [match['score']] raises
    [KeyError] when the score is absent. *)
Fixpoint format_matches (i : nat) (matches : list Match)
  : result (list Chunk) :=
  match matches with
  | [] => Ok []
  | m :: rest =>
      let metadata_text :=
        match match_metadata m with
        | Some md => (mm_fields md, opt_str (mm_text md) "")
        | None => (no_fields, "")
        end in
      match match_score m with
      | None => Raise (Exception "KeyError: 'score'")
      | Some score =>
          match format_matches (S i) rest with
          | Ok results =>
              Ok ({| text := Some (snd metadata_text);
                     metadata := Some (fst metadata_text);
                     similarity_score := Some score;
                     rank := Some (i + 1) |} :: results)
          | Raise e => Raise e
          end
      end
  end.

Section Search.

(** [_generate_embedding] and [self.index.query]. *)
Variable generate_embedding : string -> result (list float).
Variable index_query : list float -> Z -> result (list Match).

Definition search (query : string) (top_k : Z) : list Chunk :=
  match generate_embedding query with
  | Raise _ => []
  | Ok query_embedding =>
      match index_query query_embedding top_k with
      | Raise _ => []
      | Ok matches =>
          match format_matches 0 matches with
          | Ok search_results => search_results
          | Raise _ => []
          end
      end
  end.

End Search.

End KnowledgeBaseService.

(** The environment of a chat service whose knowledge base is
    [KnowledgeBaseService] over the given embedding and index. *)
Definition with_knowledge_base
           (generate_embedding : string -> result (list float))
           (index_query : list float -> Z -> result (list Match))
           (E : Env) : Env :=
  {| search_agent := search_agent E;
     kb_search := fun query top_k =>
       Ok (KnowledgeBaseService.search generate_embedding index_query
                                       query top_k);
     messages_of := messages_of E;
     web_search_tool := web_search_tool E;
     get_agent := get_agent E;
     llm := llm E;
     fault := fault E |}.

(* ================================================================= *)
(** ** The vector search of an agent: [AgentService.get_agent] and
       [AgentService.search_agent] ([services/agent_service.py]) *)

(** A row of the [agents] table, as far as the search and the prompt read
    it; a field that is absent or null is [None]. *)
Record AgentRow := {
  row_collection_name : option string;
  row_extra_instructions : option string
}.

Module AgentService.

(** The loop at [enumerate(results['matches'])], lines 390-396;
    [match['score']] raises [KeyError] when the score is absent. *)
Fixpoint format_matches (i : nat) (matches : list Match)
  : result (list Chunk) :=
  match matches with
  | [] => Ok []
  | m :: rest =>
      let text :=
        match match_metadata m with
        | Some md => opt_str (mm_text md) ""
        | None => ""
        end in
      let metadata :=
        match match_metadata m with
        | Some md => mm_fields md
        | None => no_fields
        end in
      match match_score m with
      | None => Raise (Exception "KeyError: 'score'")
      | Some score =>
          match format_matches (S i) rest with
          | Ok results =>
              Ok ({| text := Some text; metadata := Some metadata;
                     similarity_score := Some score;
                     rank := Some (i + 1) |} :: results)
          | Raise e => Raise e
          end
      end
  end.

Section Search.

(** The [agents] table queried by name, and by user when one is given;
    [_generate_embedding]; the index queried in a namespace. *)
Variable agents_table : string -> option string -> result (list AgentRow).
Variable generate_embedding : string -> result (list float).
Variable index_query : string -> list float -> Z -> result (list Match).

(** Lines 178-204: the first row, [None] when there is none or the query
    raises. *)
Definition get_agent (name : string) (user_id : option string)
  : option AgentRow :=
  match agents_table name user_id with
  | Ok (agent :: _) => Some agent
  | Ok [] => None
  | Raise _ => None
  end.

(** Lines 362-403: every exception, the two [ValueError]s included, ends
    in [return []]. *)
Definition search_agent (agent_name query : string) (top_k : Z)
           (user_id : option string) : list Chunk :=
  match get_agent agent_name user_id with
  | None => []
  | Some agent =>
      match row_collection_name agent with
      | None => []
      | Some namespace =>
          if negb (Py.truthy namespace) then []
          else
            match generate_embedding query with
            | Raise _ => []
            | Ok query_embedding =>
                match index_query namespace query_embedding top_k with
                | Raise _ => []
                | Ok [] => []
                | Ok matches =>
                    match format_matches 0 matches with
                    | Ok search_results => search_results
                    | Raise _ => []
                    end
                end
            end
      end
  end.

End Search.

End AgentService.

(** The environment of a chat service whose agent service is
    [AgentService] over the given table, embedding and index. *)
Definition with_agent_service
           (agents_table : string -> option string -> result (list AgentRow))
           (generate_embedding : string -> result (list float))
           (index_query : string -> list float -> Z -> result (list Match))
           (E : Env) : Env :=
  {| search_agent := fun agent_name query top_k user_id =>
       Ok (AgentService.search_agent agents_table generate_embedding
                                     index_query agent_name query top_k
                                     user_id);
     kb_search := kb_search E;
     messages_of := messages_of E;
     web_search_tool := web_search_tool E;
     get_agent := get_agent E;
     llm := llm E;
     fault := fault E |}.

(** The external systems behind the two vector searches of the
    repository. *)
Record Backends := {
  agents_table : string -> option string -> result (list AgentRow);
  agent_embedding : string -> result (list float);
  agent_index : string -> list float -> Z -> result (list Match);
  kb_embedding : string -> result (list float);
  kb_index : list float -> Z -> result (list Match)
}.

(** The environment of the chat service as [main.py] builds it: the
    vector searches are those of [AgentService] and
    [KnowledgeBaseService]. *)
Definition with_repository_search (B : Backends) (E : Env) : Env :=
  with_agent_service (agents_table B) (agent_embedding B) (agent_index B)
    (with_knowledge_base (kb_embedding B) (kb_index B) E).

(* ================================================================= *)
(** ** Conversation titles: [_generate_conversation_title]
       ([services/conversation_service.py]) *)

Definition _generate_conversation_title (first_message : string) : string :=
  let title := Py.take 50 (Py.strip first_message) in
  if 50 <? String.length first_message then title ++ "..." else title.

(* ================================================================= *)
(** ** Specification-side notions *)

(** [k] occurs in [q] up to letter case. *)
Definition occurs_ci (k q : string) : Prop :=
  exists pre mid post, q = pre ++ mid ++ post /\ Py.lower mid = k.

(** The number of maximal runs of non-whitespace characters of [s];
    [in_word] tells whether the character before [s] belongs to a run. *)
Fixpoint count_words_from (in_word : bool) (s : string) : nat :=
  match s with
  | EmptyString => 0
  | String c s' =>
      if Py.isspace c then count_words_from false s'
      else (if in_word then 0 else 1) + count_words_from true s'
  end.

Definition count_words (s : string) : nat := count_words_from false s.

(** An ordered rule list: the first rule whose condition holds decides. *)
Fixpoint first_match {A} (rules : list (bool * A)) (default : A) : A :=
  match rules with
  | [] => default
  | (cond, a) :: rules' => if cond then a else first_match rules' default
  end.

(** The classification rules of the query analyzer, as specified. *)
Definition classify (word_count technical_score : nat) : string * Z :=
  first_match
    [ ((word_count <=? 3) && (technical_score =? 0), ("simple", 3%Z));
      ((word_count <=? 8) && (technical_score <=? 2), ("moderate", 5%Z)) ]
    ("complex", 8%Z).

(** The three outputs the confidence cascade decides. *)
Record Verdict := {
  v_confidence : float;
  v_search_web : bool;
  v_reason : string
}.

Definition verdict_of (c : Confidence) : Verdict :=
  {| v_confidence := confidence c; v_search_web := should_search_web c;
     v_reason := reason c |}.

(** The similarity score of a chunk, 0 when it carries none, and the
    length of its text, 0 when it carries none. *)
Definition similarity_of (c : Chunk) : float :=
  match similarity_score c with Some x => x | None => 0%float end.

Definition text_length_of (c : Chunk) : nat :=
  match text c with Some t => String.length t | None => 0 end.

(** The mean of a list of scores: their sum, taken from the left,
    divided by their number. *)
Definition average (xs : list float) : float :=
  PrimFloat.div (fold_left PrimFloat.add xs 0%float)
                (PrimFloat.of_uint63 (Uint63.of_Z (Z.of_nat (List.length xs)))).

(** The number of scores that are at least [t]. *)
Definition count_at_least (t : float) (xs : list float) : nat :=
  List.length (filter (fun x => PrimFloat.leb t x) xs).

(** The cascade of the confidence evaluator, as specified: on the mean of
    the similarity scores, the number of scores of at least 0.8 and the
    sum of the text lengths. *)
Definition confidence_cascade (chunks : list Chunk) : Verdict :=
  match chunks with
  | [] => {| v_confidence := 0.0%float; v_search_web := true;
             v_reason := "no_kb_results" |}
  | _ =>
      let avg := average (map similarity_of chunks) in
      let count := count_at_least 0.8%float (map similarity_of chunks) in
      let total := list_sum (map text_length_of chunks) in
      first_match
        [ (PrimFloat.leb 0.8%float avg && (2 <=? count),
           {| v_confidence := 0.9%float; v_search_web := false;
              v_reason := "high_confidence_kb_match" |});
          (PrimFloat.leb 0.6%float avg && (500 <=? total),
           {| v_confidence := 0.7%float; v_search_web := false;
              v_reason := "sufficient_kb_context" |});
          (PrimFloat.leb 0.4%float avg,
           {| v_confidence := 0.5%float; v_search_web := true;
              v_reason := "moderate_kb_match_needs_web" |}) ]
        {| v_confidence := 0.2%float; v_search_web := true;
           v_reason := "low_kb_confidence" |}
  end.

(** A keyword starts with a non-whitespace character. *)
Definition starts_nonspace (k : string) : bool :=
  match k with
  | EmptyString => false
  | String a _ => negb (Py.isspace a)
  end.

(** A keyword ends with a non-whitespace character. *)
Fixpoint ends_nonspace (k : string) : bool :=
  match k with
  | EmptyString => false
  | String a EmptyString => negb (Py.isspace a)
  | String _ k' => ends_nonspace k'
  end.

(** The web results offer no link: [None], [{}], no [links] key or an
    empty [links] list. *)
Definition no_usable_links (web_results : option WebResults) : Prop :=
  match web_results with
  | None => True
  | Some wr => web_truthy wr = false \/ links wr = None \/ links wr = Some []
  end.


(** A chunk whose [similarity_score] is present and at least 0.3. *)
Definition above_threshold (c : Chunk) : Prop :=
  exists x, similarity_score c = Some x /\ PrimFloat.leb 0.3%float x = true.

(** The calls that reach the vector search. *)
Definition is_fetch (c : Call) : bool :=
  match c with
  | CallSearchAgent _ _ _ _ | CallKbSearch _ _ => true
  | _ => false
  end.

Definition fetches (t : list Call) : nat := List.length (filter is_fetch t).

(** What a miss leaves of the cache before the new entry is stored. *)
Definition evict (d : Cache) : Cache :=
  if _cache_max_size <=? List.length d then tl d else d.

(** The chunks a successful fetch leaves after the threshold. *)
Definition usable (results : list Chunk) : list Chunk :=
  filter (fun r => Py.fge (score_of r) confidence_threshold) results.

(** The invariant of the cache: distinct keys, at most 100 entries, only
    filtered lists. *)
Record cache_ok (d : Cache) : Prop := {
  ok_keys : NoDup (keys d);
  ok_size : List.length d <= _cache_max_size;
  ok_values : Forall (fun kv => Forall above_threshold (snd kv)) d
}.

(** The operations a client performs on the service. *)
Inductive Op :=
| OpSearch (E : Env) (query : string) (agent_id : option string)
           (top_k : option Z) (user_id : option string)
| OpRespond (re : string -> string -> bool) (round3 : float -> float)
            (template : string -> string -> string -> string -> string
                        -> string -> string)
            (E : Env) (message : string)
            (conversation_id agent_id user_id : option string)
| OpClear.

Definition run_op (w : World) (o : Op) : World :=
  match o with
  | OpSearch E query agent_id top_k user_id =>
      snd (_search_knowledge_base E query agent_id top_k user_id w)
  | OpRespond re round3 template E message conversation_id agent_id user_id =>
      snd (get_response re round3 template E message conversation_id
                        agent_id user_id w)
  | OpClear => snd (clear_cache w)
  end.

Definition run_ops (ops : list Op) : World := fold_left run_op ops init_world.

(** The worlds a freshly constructed service can reach. *)
Definition reachable (w : World) : Prop := exists ops, w = run_ops ops.

(** A computation keeps a property of the cache. *)
Definition keeps (P : Cache -> Prop) {A} (m : M.t A) : Prop :=
  forall w, P (_query_cache w) -> P (_query_cache (snd (m w))).

(** The helper calls of the answer steps raise nothing. *)
Definition answers_cleanly (E : Env) : Prop :=
  fault E StepPrompt = None /\ fault E StepFallback = None
  /\ fault E StepSources = None /\ fault E StepResponse = None.

(** A computation that returns in every world. *)
Definition returns {A} (m : M.t A) : Prop :=
  forall w, exists a w', m w = (Ok a, w').

(* ================================================================= *)
(** ** Sample inputs *)

Module Sample.

(** A regular-expression oracle under which no pattern matches. *)
Definition re_none (pattern s : string) : bool := false.

Definition round_id (x : float) : float := x.

Definition template (context links history instructions message guidance : string)
  : string :=
  context ++ links ++ history ++ instructions ++ message ++ guidance.

Definition pump_link : Link :=
  {| title := "Pump shop"; url := "https://example.com/pumps";
     snippet := "Pumps and spare parts" |}.

Definition web_with_link : WebResults :=
  {| web_text := Some "Pumps and spare parts"; links := Some [pump_link] |}.

Definition web_without_links : WebResults :=
  {| web_text := Some "Pumps and spare parts"; links := Some [] |}.

Definition chunk (score : float) (body file : string) : Chunk :=
  {| text := Some body;
     metadata := Some {| filename := Some file; source := None;
                         upload_time := None |};
     similarity_score := Some score; rank := None |}.

(** 500 characters of text. *)
Definition long_text : string :=
  String.concat "" (repeat "0123456789" 50).

Definition manual : list Chunk :=
  [chunk 0.9%float "Press reset" "manual.pdf";
   chunk 0.95%float "Hold 5 s" "manual.pdf";
   chunk 0.1%float "Unrelated" "other.pdf"].

Definition weak_match : list Chunk := [chunk 0.45%float long_text "a.pdf"].
Definition fair_match : list Chunk := [chunk 0.65%float long_text "a.pdf"].

Definition timeout : exn := Exception "timeout".

(** A knowledge base that answers [manual]; no web search; a language
    model given by [model]; helper faults given by [faults]. *)
Definition env (model : option (string -> result string))
           (faults : Step -> option exn) : Env :=
  {| search_agent := fun _ _ _ _ => Ok manual;
     kb_search := fun _ _ => Ok manual;
     messages_of := fun _ => Ok [];
     web_search_tool := None;
     get_agent := fun _ => Ok None;
     llm := model;
     fault := faults |}.

Definition no_fault (s : Step) : option exn := None.

Definition confidence_fault (s : Step) : option exn :=
  match s with StepConfidence => Some (Exception "TypeError") | _ => None end.

Definition model_down (prompt : string) : result string := Raise timeout.
Definition model_blank (prompt : string) : result string := Ok "  ".

(** A vector search that finds nothing, which is also what the searches
    of the repository return when they fail. *)
Definition env_search_empty : Env :=
  {| search_agent := fun _ _ _ _ => Ok [];
     kb_search := fun _ _ => Ok [];
     messages_of := fun _ => Ok [];
     web_search_tool := None;
     get_agent := fun _ => Ok None;
     llm := None;
     fault := no_fault |}.

Definition env_up : Env := env None no_fault.

(** 250 characters of text. *)
Definition half_text : string :=
  String.concat "" (repeat "0123456789" 25).

(** Three chunks with the scores 0.9, 0.7 and 0.8. *)
Definition mixed_match : list Chunk :=
  [chunk 0.9%float "Press reset" "a.pdf"; chunk 0.7%float "Hold 5 s" "b.pdf";
   chunk 0.8%float "Release" "c.pdf"].

(** Two chunks with the score 0.5 and 500 characters between them. *)
Definition two_weak : list Chunk :=
  [chunk 0.5%float half_text "a.pdf"; chunk 0.5%float half_text "b.pdf"].

(** External systems: one agent, [pumps], of user [u1]; an embedding
    service; indexes that return two matches, one of them below the
    threshold. *)
Definition matches : list Match :=
  [ {| match_metadata := Some {| mm_text := Some "Press reset";
                                 mm_fields := no_fields |};
       match_score := Some 0.9%float |};
    {| match_metadata := Some {| mm_text := Some "Unrelated";
                                 mm_fields := no_fields |};
       match_score := Some 0.1%float |} ].

Definition backends : Backends :=
  {| agents_table := fun name user_id =>
       if String.eqb name "pumps"
       then Ok [{| row_collection_name := Some "user_u1_agent_pumps";
                   row_extra_instructions := None |}]
       else Ok [];
     agent_embedding := fun _ => Ok [0.5%float; 0.25%float];
     agent_index := fun _ _ _ => Ok matches;
     kb_embedding := fun _ => Ok [0.5%float; 0.25%float];
     kb_index := fun _ _ => Ok matches |}.

(** The same systems while the embedding service is down. *)
Definition backends_down : Backends :=
  {| agents_table := agents_table backends;
     agent_embedding := fun _ => Raise timeout;
     agent_index := agent_index backends;
     kb_embedding := fun _ => Raise timeout;
     kb_index := kb_index backends |}.

(** A hundred lookups with distinct queries. *)
Definition fill : list Op :=
  map (fun n => OpSearch env_up ("pump " ++ Py.str_of_nat n) None
                         (Some 5%Z) None)
      (seq 0 100).

Definition full_world : World := run_ops fill.

(** An orchestration call on a fresh service. *)
Definition ask (E : Env) : result ChatResponse * World :=
  get_response re_none round_id template E "How do I reset the system?"
               None None None init_world.

Definition ask_body (E : Env) : result ChatResponse * World :=
  get_response_body re_none round_id template E
                    "How do I reset the system?" None None None init_world.


(** What steps 0-3 gather for that call. *)
Definition gathered : Gathered :=
  {| g_history := [];
     g_chunks := usable manual;
     g_web_links := [];
     g_context := _build_context (usable manual) None |}.

End Sample.

(* ================================================================= *)
(** ** Notions for the further properties *)

(** The web results carry a non-empty text. *)
Definition has_web_text (web_results : option WebResults) : bool :=
  match web_results with
  | Some wr => Py.truthy_opt (web_text wr)
  | None => false
  end.

(** The name under which a source is listed, and its kind. *)
Definition source_name (s : Source) : string :=
  match s with
  | DocSource filename _ _ _ => filename
  | WebSource filename _ _ => filename
  end.

Definition is_web_source (s : Source) : bool :=
  match s with
  | WebSource _ _ _ => true
  | DocSource _ _ _ _ => false
  end.

(** [chunk.get('metadata', {}).get('filename', 'Unknown')] *)
Definition filename_of (c : Chunk) : string :=
  match metadata c with
  | Some m => opt_str (filename m) "Unknown"
  | None => "Unknown"
  end.

(** The texts of the rows sent by the user, in order. *)
Definition user_texts (rows : list MessageRow) : list string :=
  map (fun r => opt_str (row_text r) "")
      (filter (fun r => match sender r with
                        | Some s => String.eqb s "user"
                        | None => false
                        end) rows).

(** [agent_id or 'global']: the scope a cache key starts with. *)
Definition scope_of (agent_id : option string) : string :=
  if Py.truthy_opt agent_id
  then match agent_id with Some a => a | None => "global" end
  else "global".

(** The string holds no colon. *)
Definition colon_free (s : string) : Prop := Py.mem_char ":"%char s = false.

(** The collaborators, by kind of call. *)
Inductive Kind := KMessages | KSearch | KWeb | KAgent | KLlm.

Definition kind_of (c : Call) : Kind :=
  match c with
  | CallMessages _ => KMessages
  | CallSearchAgent _ _ _ _ | CallKbSearch _ _ => KSearch
  | CallWebSearch _ => KWeb
  | CallGetAgent _ => KAgent
  | CallLlm _ => KLlm
  end.

(** [l] is [p] with some elements left out. *)
Inductive Subseq {A} : list A -> list A -> Prop :=
| Subseq_nil : Subseq [] []
| Subseq_skip (x : A) (l p : list A) : Subseq l p -> Subseq l (x :: p)
| Subseq_take (x : A) (l p : list A) : Subseq l p -> Subseq (x :: l) (x :: p).

(** The calls a computation makes, in order, are among the kinds [p], in
    the order of [p], each at most once per occurrence in [p]. *)
Definition calls_within (p : list Kind) {A} (m : M.t A) : Prop :=
  forall w, exists t,
    trace (snd (m w)) = (trace w ++ t)%list /\ Subseq (map kind_of t) p.

(** The order in which one orchestration call may reach its
    collaborators. *)
Definition call_order : list Kind := [KMessages; KSearch; KWeb; KAgent; KLlm].

(** The number of calls of kind [k] in a trace. *)
Definition calls_of_kind (k : Kind) (t : list Call) : nat :=
  List.length (filter (fun c => match kind_of c, k with
                                | KMessages, KMessages | KSearch, KSearch
                                | KWeb, KWeb | KAgent, KAgent | KLlm, KLlm => true
                                | _, _ => false
                                end) t).

(** No helper call raises. *)
Definition no_faults (E : Env) : Prop := forall s, fault E s = None.

(** What a computation returns, when it returns, satisfies [Q]. *)
Definition yields {A} (Q : A -> Prop) (m : M.t A) : Prop :=
  forall w, match fst (m w) with Ok a => Q a | Raise _ => True end.

(** The documents and the web links among the sources of a response. *)
Definition document_sources (r : ChatResponse) : list Source :=
  filter (fun s => negb (is_web_source s)) (sources r).

Definition web_sources (r : ChatResponse) : list Source :=
  filter is_web_source (sources r).

(** A response a client can show: a text that is not blank, at most
    three documents and no more than chunks were found, at most three web
    links; the conversation is left to the endpoint. *)
Record well_formed (r : ChatResponse) : Prop := {
  wf_text : Py.strip (response r) <> "";
  wf_conversation : conversation_id r = None;
  wf_documents : List.length (document_sources r) <= Nat.min 3 (chunks_found r);
  wf_web : List.length (web_sources r) <= 3
}.

(** What [answer] makes of the gathered material: one of the two fixed
    responses without sources, or a text with the extracted sources. *)
Definition answers_from (round3 : float -> float) (g : Gathered)
           (r : ChatResponse) : Prop :=
  Py.strip (response r) <> ""
  /\ conversation_id r = None
  /\ ((sources r = [] /\ chunks_found r = 0)
      \/ (sources r = _extract_sources round3 (g_chunks g) (g_web_links g)
          /\ chunks_found r = List.length (g_chunks g))).

(** The lookup one orchestration call performs in world [w]: the history
    is loaded first. *)
Definition lookup_of (E : Env) (message : string)
           (conversation_id agent_id user_id : option string) (w : World)
  : result (list Chunk) * World :=
  _search_knowledge_base E message agent_id None user_id
                         (snd (load_history E conversation_id w)).

(** [match.get('metadata', {}).get('text', '')]: the text stored with a
    match. *)
Definition match_text (m : Match) : string :=
  match match_metadata m with
  | Some md => opt_str (mm_text md) ""
  | None => ""
  end.

(** The embedding or the index query raises. *)
Definition knowledge_base_down
           (generate_embedding : string -> result (list float))
           (index_query : list float -> Z -> result (list Match))
           (query : string) (top_k : Z) : Prop :=
  (exists e, generate_embedding query = Raise e)
  \/ (exists embedding e, generate_embedding query = Ok embedding
                          /\ index_query embedding top_k = Raise e).

(** Sample inputs for the knowledge base. *)
Definition embedding_down (query : string) : result (list float) :=
  Raise Sample.timeout.

Definition index_empty (embedding : list float) (top_k : Z)
  : result (list Match) := Ok [].

Definition user_row (message : string) : MessageRow :=
  {| sender := Some "user"; row_text := Some message |}.

Definition bot_row (message : string) : MessageRow :=
  {| sender := Some "bot"; row_text := Some message |}.

Definition embedding_up (query : string) : result (list float) :=
  Ok [0.5%float; 0.25%float].

Definition scored_match (body : string) (score : float) : Match :=
  {| match_metadata := Some {| mm_text := Some body; mm_fields := no_fields |};
     match_score := Some score |}.

Definition index_two (embedding : list float) (top_k : Z)
  : result (list Match) :=
  Ok [scored_match "Press reset" 0.9%float; scored_match "Hold 5 s" 0.4%float].

(** The sender of a row is [who]. *)
Definition sent_by (who : string) (r : MessageRow) : bool :=
  match sender r with Some s => String.eqb s who | None => false end.

(** The reply to a message, read from the rows that follow it: the text
    of the last row of the bot before the next row of the user, [default]
    when there is none. *)
Fixpoint reply_in (rows : list MessageRow) (default : string) : string :=
  match rows with
  | [] => default
  | r :: rest =>
      if sent_by "user" r then default
      else if sent_by "bot" r then reply_in rest (opt_str (row_text r) "")
      else reply_in rest default
  end.

(** One exchange per row of the user: its text, and the reply that
    follows it. *)
Fixpoint exchanges_of (rows : list MessageRow) : list Exchange :=
  match rows with
  | [] => []
  | r :: rest =>
      if sent_by "user" r
      then {| ex_message := opt_str (row_text r) "";
              ex_response := reply_in rest "" |} :: exchanges_of rest
      else exchanges_of rest
  end.

(** An exchange with a question and an answer, both non-empty. *)
Definition answered (e : Exchange) : bool :=
  negb (String.eqb (ex_message e) "") && negb (String.eqb (ex_response e) "").

(* ================================================================= *)
(** ** Facts about the string built-ins *)

Lemma append_assoc (a b c : string) : (a ++ b) ++ c = a ++ (b ++ c).
Proof. induction a; simpl; congruence. Qed.

Lemma prefix_spec (k s : string) :
  String.prefix k s = true <-> exists post, s = k ++ post.
Proof.
  revert s; induction k as [|a k IH]; intros s.
  - split; [intros _; exists s; reflexivity | intros _; destruct s; reflexivity].
  - destruct s as [|b s]; simpl.
    + split; [discriminate | intros [p Hp]; discriminate].
    + destruct (ascii_dec a b) as [->|Hab].
      * rewrite IH. split; intros [p Hp]; exists p; congruence.
      * split; [discriminate | intros [p Hp]; congruence].
Qed.

Lemma contains_unfold (k : string) (c : ascii) (s : string) :
  Py.contains k (String c s) = String.prefix k (String c s) || Py.contains k s.
Proof. reflexivity. Qed.

Lemma contains_spec (k s : string) :
  Py.contains k s = true <-> exists pre post, s = pre ++ k ++ post.
Proof.
  induction s as [|c s IH].
  - destruct k as [|a k]; simpl.
    + split; [intros _; exists "", ""; reflexivity | reflexivity].
    + split; [discriminate|].
      intros [pre [post H]]. destruct pre; discriminate.
  - rewrite contains_unfold, orb_true_iff, prefix_spec, IH. split.
    + intros [[p Hp] | [pre [post H]]].
      * exists "", p; exact Hp.
      * exists (String c pre), post; simpl; congruence.
    + intros [pre [post H]]. destruct pre as [|d pre]; simpl in H.
      * left; exists post; exact H.
      * right; exists pre, post; congruence.
Qed.

Lemma lower_app (a b : string) : Py.lower (a ++ b) = Py.lower a ++ Py.lower b.
Proof. induction a; simpl; congruence. Qed.

Lemma lower_split (s a b : string) :
  Py.lower s = a ++ b ->
  exists a0 b0, s = a0 ++ b0 /\ Py.lower a0 = a /\ Py.lower b0 = b.
Proof.
  revert s; induction a as [|x a IH]; intros s H; simpl in H.
  - exists "", s; auto.
  - destruct s as [|c s]; simpl in H; [discriminate|].
    injection H as Hc Hs. destruct (IH _ Hs) as [a0 [b0 [-> [Ha Hb]]]].
    exists (String c a0), b0; simpl; repeat split; congruence.
Qed.

Lemma occurs_ci_contains (k q : string) :
  occurs_ci k q <-> Py.contains k (Py.lower q) = true.
Proof.
  rewrite contains_spec. split.
  - intros [pre [mid [post [-> Hm]]]].
    exists (Py.lower pre), (Py.lower post). now rewrite !lower_app, Hm.
  - intros [pre [post H]].
    destruct (lower_split _ _ _ H) as [p0 [r0 [-> [Hp Hr]]]].
    destruct (lower_split _ _ _ Hr) as [m0 [t0 [-> [Hm Ht]]]].
    exists p0, m0, t0; auto.
Qed.

Lemma lstrip_contains (k s : string) :
  starts_nonspace k = true ->
  Py.contains k (Py.lstrip_by Py.isspace s) = Py.contains k s.
Proof.
  intros Hk. destruct k as [|a k]; [discriminate|]. simpl in Hk.
  induction s as [|c s IH]; [reflexivity|].
  simpl Py.lstrip_by. destruct (Py.isspace c) eqn:Hc; [|reflexivity].
  rewrite IH, contains_unfold. simpl.
  destruct (ascii_dec a c) as [->|_]; [|reflexivity].
  rewrite Hc in Hk; discriminate.
Qed.

Lemma rstrip_cons (p : ascii -> bool) (c : ascii) (s : string) :
  (Py.rstrip_by p (String c s) = "" /\ p c = true /\ Py.rstrip_by p s = "")
  \/ Py.rstrip_by p (String c s) = String c (Py.rstrip_by p s).
Proof.
  simpl. destruct (Py.rstrip_by p s); [destruct (p c)|]; auto.
Qed.

Lemma prefix_nil_l (s : string) : String.prefix "" s = true.
Proof. destruct s; reflexivity. Qed.

Lemma prefix_nil_r (k : string) : k <> "" -> String.prefix k "" = false.
Proof. destruct k; [congruence | reflexivity]. Qed.

Lemma ends_nonspace_cons (a : ascii) (k : string) :
  ends_nonspace (String a k) = true ->
  (k = "" /\ Py.isspace a = false) \/ (k <> "" /\ ends_nonspace k = true).
Proof.
  simpl. destruct k.
  - intros H; left; split; [reflexivity|]. now destruct (Py.isspace a).
  - intros H; right; split; [discriminate | exact H].
Qed.

Lemma rstrip_prefix (k s : string) :
  ends_nonspace k = true ->
  String.prefix k (Py.rstrip_by Py.isspace s) = String.prefix k s.
Proof.
  revert s; induction k as [|a k IH]; intros s Hk; [discriminate|].
  destruct s as [|c s]; [reflexivity|].
  destruct (ends_nonspace_cons _ _ Hk) as [[-> Ha] | [Hne Hk']].
  - destruct (rstrip_cons Py.isspace c s) as [[-> [Hc _]] | ->]; simpl.
    + destruct (ascii_dec a c) as [->|_]; [congruence | reflexivity].
    + destruct (ascii_dec a c); [|reflexivity].
      now rewrite !prefix_nil_l.
  - specialize (IH s Hk').
    destruct (rstrip_cons Py.isspace c s) as [[-> [Hc Hr]] | ->]; simpl.
    + rewrite Hr, prefix_nil_r in IH by assumption.
      rewrite <- IH. destruct k; [congruence|]. now destruct (ascii_dec a c).
    + now rewrite IH.
Qed.

Lemma rstrip_contains (k s : string) :
  ends_nonspace k = true ->
  Py.contains k (Py.rstrip_by Py.isspace s) = Py.contains k s.
Proof.
  intros Hk. assert (Hne : k <> "") by (destruct k; [discriminate | congruence]).
  induction s as [|c s IH]; [reflexivity|].
  rewrite contains_unfold, <- IH, <- (rstrip_prefix k (String c s) Hk).
  destruct (rstrip_cons Py.isspace c s) as [[-> [_ ->]] | ->].
  - now rewrite prefix_nil_r.
  - now rewrite contains_unfold.
Qed.

Lemma strip_contains (k s : string) :
  starts_nonspace k = true -> ends_nonspace k = true ->
  Py.contains k (Py.strip s) = Py.contains k s.
Proof.
  intros H1 H2. unfold Py.strip, Py.strip_by.
  now rewrite rstrip_contains, lstrip_contains.
Qed.

Lemma split_from_length (w s : string) :
  List.length (Py.split_from w s)
  = (if Py.truthy w then 1 else 0) + count_words_from (Py.truthy w) s.
Proof.
  revert w; induction s as [|c s IH]; intros w; simpl.
  - destruct w; reflexivity.
  - destruct (Py.isspace c).
    + destruct w; simpl; rewrite IH; reflexivity.
    + rewrite IH. destruct w; reflexivity.
Qed.

Lemma fold_left_add (l : list nat) (a : nat) :
  fold_left Nat.add l a = a + list_sum l.
Proof.
  revert a; induction l as [|x l IH]; intros a; simpl; [lia|].
  rewrite IH; lia.
Qed.

Lemma sum_nat_list_sum (l : list nat) : Py.sum_nat l = list_sum l.
Proof. unfold Py.sum_nat. now rewrite fold_left_add. Qed.

Lemma technical_keywords_edges :
  Forall (fun k => starts_nonspace k = true /\ ends_nonspace k = true)
         technical_keywords.
Proof. repeat constructor. Qed.

Lemma technical_keywords_nodup : NoDup technical_keywords.
Proof.
  unfold technical_keywords.
  repeat (constructor; [simpl; intuition discriminate|]). constructor.
Qed.

(* ================================================================= *)
(** ** The query analyzer *)

Lemma analyze_fields (query : string) :
  _analyze_query_complexity query =
  let wc := List.length (Py.split query) in
  let ts := count_in technical_keywords (Py.strip (Py.lower query)) in
  let verdict :=
    if (wc <=? 3) && (ts =? 0) then ("simple", 3%Z)
    else if (wc <=? 8) && (ts <=? 2) then ("moderate", 5%Z)
    else ("complex", 8%Z) in
  {| complexity := fst verdict; optimal_chunks := snd verdict;
     technical_score := ts;
     specificity_score := count_in specific_terms (Py.strip (Py.lower query));
     word_count := wc |}.
Proof.
  unfold _analyze_query_complexity. cbv zeta.
  destruct (_ && _); [|destruct (_ && _)]; reflexivity.
Qed.

(** C2. For every query, [_analyze_query_complexity] counts the words as
    the maximal runs of non-whitespace characters, scores the keywords
    among how, why, what, when, where, troubleshoot, error, problem,
    issue, configure, install and setup that occur in the query up to
    letter case, each once, and classifies by the first matching rule: at
    most 3 words and no keyword is simple with 3 chunks, else at most 8
    words and at most 2 keywords is moderate with 5, otherwise complex
    with 8. *)
Theorem analyzer_classifies (query : string) :
  let r := _analyze_query_complexity query in
  word_count r = count_words query
  /\ (exists matched,
        technical_score r = List.length matched
        /\ NoDup matched
        /\ forall k, In k matched <->
                     In k ["how"; "why"; "what"; "when"; "where";
                           "troubleshoot"; "error"; "problem"; "issue";
                           "configure"; "install"; "setup"]
                     /\ occurs_ci k query)
  /\ (complexity r, optimal_chunks r)
     = classify (word_count r) (technical_score r).
Proof.
  cbv zeta. rewrite !analyze_fields. cbn [complexity optimal_chunks
    technical_score word_count]. split; [|split].
  - unfold Py.split. now rewrite split_from_length.
  - exists (filter (fun k => Py.contains k (Py.strip (Py.lower query)))
                   technical_keywords).
    split; [reflexivity|split].
    + apply NoDup_filter, technical_keywords_nodup.
    + intros k. rewrite filter_In.
      change ["how"; "why"; "what"; "when"; "where"; "troubleshoot"; "error";
              "problem"; "issue"; "configure"; "install"; "setup"]
        with technical_keywords.
      split; intros [Hin Hk]; split; auto;
        pose proof (proj1 (Forall_forall _ _) technical_keywords_edges k Hin)
          as [H1 H2].
      * rewrite strip_contains in Hk by assumption.
        now apply occurs_ci_contains.
      * rewrite strip_contains by assumption.
        now apply occurs_ci_contains.
  - unfold classify, first_match.
    destruct (_ && _); [|destruct (_ && _)]; reflexivity.
Qed.

Lemma analyzer_classifies_witness :
  exists matched,
    technical_score
      (_analyze_query_complexity "How do I Troubleshoot this ERROR") = 3
    /\ List.length matched = 3
    /\ In "how" matched /\ In "troubleshoot" matched /\ In "error" matched
    /\ ~ In "do" matched
    /\ word_count
         (_analyze_query_complexity "How do I Troubleshoot this ERROR") = 6
    /\ complexity
         (_analyze_query_complexity "How do I Troubleshoot this ERROR")
       = "complex"
    /\ optimal_chunks
         (_analyze_query_complexity "How do I Troubleshoot this ERROR") = 8%Z.
Proof.
  destruct (analyzer_classifies "How do I Troubleshoot this ERROR")
    as [_ [[matched [Hlen [_ Hin]]] _]].
  exists matched. split; [reflexivity|]. split; [rewrite <- Hlen; reflexivity|].
  split.
  { apply Hin. split; [simpl; tauto|].
    now exists "", "How", " do I Troubleshoot this ERROR". }
  split.
  { apply Hin. split; [simpl; tauto|].
    now exists "How do I ", "Troubleshoot", " this ERROR". }
  split.
  { apply Hin. split; [simpl; tauto|].
    now exists "How do I Troubleshoot this ", "ERROR", "". }
  split.
  { intros H. apply Hin in H. destruct H as [H _]. simpl in H.
    intuition discriminate. }
  repeat split.
Defined.

Lemma isspace_lower_char (c : ascii) :
  Py.isspace (Py.lower_char c) = Py.isspace c.
Proof.
  destruct c as [b0 b1 b2 b3 b4 b5 b6 b7].
  destruct b0, b1, b2, b3, b4, b5, b6, b7; reflexivity.
Qed.

Lemma count_words_lower (b : bool) (s : string) :
  count_words_from b (Py.lower s) = count_words_from b s.
Proof.
  revert b; induction s as [|c s IH]; intros b; simpl; [reflexivity|].
  rewrite isspace_lower_char. now rewrite !IH.
Qed.

Lemma count_words_lstrip (s : string) :
  count_words_from false (Py.lstrip_by Py.isspace s) = count_words_from false s.
Proof.
  induction s as [|c s IH]; [reflexivity|].
  simpl. destruct (Py.isspace c) eqn:Hc; [exact IH|].
  simpl. now rewrite Hc.
Qed.

Lemma count_words_rstrip (b : bool) (s : string) :
  count_words_from b (Py.rstrip_by Py.isspace s) = count_words_from b s.
Proof.
  revert b; induction s as [|c s IH]; intros b; [reflexivity|].
  destruct (rstrip_cons Py.isspace c s) as [[-> [Hc Hr]] | ->].
  - simpl. rewrite Hc, <- IH, Hr. reflexivity.
  - simpl. now rewrite !IH.
Qed.

Lemma count_words_normalized (s : string) :
  count_words (Py.strip (Py.lower s)) = count_words s.
Proof.
  unfold count_words, Py.strip, Py.strip_by.
  now rewrite count_words_rstrip, count_words_lstrip, count_words_lower.
Qed.

(** The analysis of a query depends on its normalized text only, so two
    lookups that leave the depth to the analyzer and agree on the
    normalized query agree on the depth and on the cache key. *)
Lemma default_depth_normalized (q1 q2 : string) :
  Py.strip (Py.lower q1) = Py.strip (Py.lower q2) ->
  _analyze_query_complexity q1 = _analyze_query_complexity q2
  /\ depth_of q1 None = depth_of q2 None.
Proof.
  intros H.
  assert (Hw : List.length (Py.split q1) = List.length (Py.split q2)).
  { unfold Py.split. rewrite !split_from_length. cbn [Py.truthy Nat.add].
    change (count_words q1 = count_words q2).
    now rewrite <- (count_words_normalized q1), <- (count_words_normalized q2), H. }
  assert (Ha : _analyze_query_complexity q1 = _analyze_query_complexity q2).
  { rewrite !analyze_fields. cbv zeta. now rewrite H, Hw. }
  split; [exact Ha|]. unfold depth_of. now rewrite Ha.
Qed.

Lemma default_depth_normalized_witness :
  Py.strip (Py.lower "  Reset the PUMP ") = Py.strip (Py.lower "reset THE pump")
  /\ depth_of "  Reset the PUMP " None = 3%Z
  /\ depth_of "reset THE pump" None = 3%Z.
Proof.
  split; [reflexivity|]. split; [reflexivity|].
  rewrite <- (proj2 (default_depth_normalized "  Reset the PUMP "
                       "reset THE pump" eq_refl)).
  reflexivity.
Defined.

(* ================================================================= *)
(** ** The confidence evaluator *)

Lemma mean_similarity_average (chunks : list Chunk) :
  mean_similarity chunks = average (map similarity_of chunks).
Proof.
  unfold mean_similarity, average, Py.sum_float, Py.float_of_nat.
  now rewrite length_map.
Qed.

Lemma high_confidence_count (chunks : list Chunk) :
  List.length (high_confidence chunks)
  = count_at_least 0.8%float (map similarity_of chunks).
Proof.
  unfold high_confidence, count_at_least.
  induction chunks as [|c chunks IH]; [reflexivity|]. cbn [filter map].
  change (Py.fge (score_of c) 0.8%float)
    with (PrimFloat.leb 0.8%float (similarity_of c)).
  destruct (PrimFloat.leb 0.8%float (similarity_of c)); cbn [List.length];
    now rewrite IH.
Qed.

Lemma total_text_length_sum (chunks : list Chunk) :
  total_text_length chunks = list_sum (map text_length_of chunks).
Proof.
  unfold total_text_length. rewrite sum_nat_list_sum. f_equal.
  apply map_ext. intros c. unfold text_of, text_length_of.
  now destruct (text c).
Qed.

(** C1. For every chunk list, the confidence, the web-search decision and
    the reason returned by [_evaluate_kb_confidence] are those of the first
    matching rule of the fixed cascade: empty list; mean similarity score
    (the sum of the scores divided by their number) at least 0.8 with at
    least two scores of 0.8 or more; mean at least 0.6 with at least 500
    characters of text in total; mean at least 0.4; otherwise low
    confidence. For a non-empty list the result also reports that mean,
    that number of high scores and that total text length. *)
Theorem evaluator_follows_cascade (chunks : list Chunk) (query : string) :
  verdict_of (_evaluate_kb_confidence chunks query) = confidence_cascade chunks
  /\ (chunks <> [] ->
      avg_similarity (_evaluate_kb_confidence chunks query)
      = Some (average (map similarity_of chunks))
      /\ high_confidence_chunks (_evaluate_kb_confidence chunks query)
         = Some (count_at_least 0.8%float (map similarity_of chunks))
      /\ total_context_length (_evaluate_kb_confidence chunks query)
         = Some (list_sum (map text_length_of chunks))).
Proof.
  destruct chunks as [|c chunks]; [split; [reflexivity | congruence]|].
  unfold _evaluate_kb_confidence, confidence_cascade, first_match.
  cbv zeta.
  rewrite <- mean_similarity_average, <- high_confidence_count,
    <- total_text_length_sum.
  change (PrimFloat.leb 0.8%float (mean_similarity (c :: chunks)))
    with (Py.fge (mean_similarity (c :: chunks)) 0.8%float).
  change (PrimFloat.leb 0.6%float (mean_similarity (c :: chunks)))
    with (Py.fge (mean_similarity (c :: chunks)) 0.6%float).
  change (PrimFloat.leb 0.4%float (mean_similarity (c :: chunks)))
    with (Py.fge (mean_similarity (c :: chunks)) 0.4%float).
  destruct (Py.fge _ 0.8%float && _); [repeat split|].
  destruct (Py.fge _ 0.6%float && _); [repeat split|].
  destruct (Py.fge _ 0.4%float); repeat split.
Qed.

Lemma evaluator_follows_cascade_witness :
  Sample.mixed_match <> []
  /\ average (map similarity_of Sample.mixed_match) = 0.8000000000000002%float
  /\ avg_similarity (_evaluate_kb_confidence Sample.mixed_match "reset")
     = Some 0.8000000000000002%float
  /\ verdict_of (_evaluate_kb_confidence Sample.mixed_match "reset")
     = {| v_confidence := 0.9%float; v_search_web := false;
          v_reason := "high_confidence_kb_match" |}
  /\ high_confidence_chunks (_evaluate_kb_confidence Sample.mixed_match "reset")
     = Some 2
  /\ total_context_length (_evaluate_kb_confidence Sample.mixed_match "reset")
     = Some 26.
Proof.
  assert (Hne : Sample.mixed_match <> []) by discriminate.
  destruct (evaluator_follows_cascade Sample.mixed_match "reset")
    as [Hv Hfields].
  destruct (Hfields Hne) as [Ha [Hh Ht]].
  split; [exact Hne|]. split; [vm_compute; reflexivity|].
  split; [rewrite Ha; vm_compute; reflexivity|].
  split; [rewrite Hv; vm_compute; reflexivity|].
  split; [rewrite Hh; reflexivity | rewrite Ht; reflexivity].
Defined.

(* ================================================================= *)
(** ** The relevance gate *)

Lemma links_truthy_web_truthy (wr : WebResults) :
  links_truthy wr = true -> web_truthy wr = true.
Proof.
  unfold links_truthy, web_truthy.
  destruct (links wr) as [[|l ls]|]; try discriminate.
  now destruct (web_text wr).
Qed.

Lemma web_keyword_gate re (message kb_context keyword : string) (wr : WebResults) :
  In keyword web_keywords ->
  links_truthy wr = true ->
  occurs_ci keyword message ->
  _should_include_web_links re message kb_context (Some wr) = true.
Proof.
  intros Hin Hl Hocc. unfold _should_include_web_links.
  rewrite Hl, (links_truthy_web_truthy _ Hl). cbn [negb orb].
  replace (existsb _ web_keywords) with true; [reflexivity|].
  symmetry. apply existsb_exists. exists keyword. split; [exact Hin|].
  now apply occurs_ci_contains.
Qed.

(** C9, as the code has it. For every message that contains "buy" or
    "latest" up to letter case and every [kb_context], the relevance gate
    returns true provided the web results carry at least one link. *)
Theorem web_intent_includes_links re (message kb_context : string)
        (wr : WebResults) :
  links_truthy wr = true ->
  occurs_ci "buy" message \/ occurs_ci "latest" message ->
  _should_include_web_links re message kb_context (Some wr) = true.
Proof.
  intros Hl [H | H].
  - apply web_keyword_gate with (keyword := "buy"); auto.
    unfold web_keywords; simpl; tauto.
  - apply web_keyword_gate with (keyword := "latest"); auto.
    unfold web_keywords; simpl; tauto.
Qed.

Lemma web_intent_includes_links_witness :
  links_truthy Sample.web_with_link = true
  /\ (occurs_ci "buy" "Where can I BUY a pump?"
      \/ occurs_ci "latest" "Where can I BUY a pump?")
  /\ _should_include_web_links Sample.re_none "Where can I BUY a pump?"
       "" (Some Sample.web_with_link) = true.
Proof.
  assert (H : occurs_ci "buy" "Where can I BUY a pump?").
  { exists "Where can I ", "BUY", " a pump?". split; reflexivity. }
  split; [reflexivity|]. split; [left; exact H|].
  apply (web_intent_includes_links Sample.re_none "Where can I BUY a pump?" ""
           Sample.web_with_link); [reflexivity | left; exact H].
Defined.

(** C9 as stated fails: a message containing "buy" with web results that
    carry no link, or with no web results at all, is answered false. *)
Lemma web_intent_without_links :
  occurs_ci "buy" "Where can I BUY a pump?"
  /\ _should_include_web_links Sample.re_none "Where can I BUY a pump?" ""
       (Some Sample.web_without_links) = false
  /\ _should_include_web_links Sample.re_none "Where can I BUY a pump?" ""
       None = false.
Proof.
  split; [|split; reflexivity].
  exists "Where can I ", "BUY", " a pump?". split; reflexivity.
Qed.

(** C10. For every message and [kb_context], when the web results are
    [None], empty, or carry no link, the relevance gate returns false,
    whatever the keyword, context-length and pattern rules would say. *)
Theorem guard_precedes_rules re (message kb_context : string)
        (web_results : option WebResults) :
  no_usable_links web_results ->
  _should_include_web_links re message kb_context web_results = false.
Proof.
  destruct web_results as [wr|]; [|reflexivity].
  unfold no_usable_links, _should_include_web_links, links_truthy.
  intros [H | [H | H]]; rewrite H; [reflexivity | |];
    now rewrite orb_true_r.
Qed.

Lemma guard_precedes_rules_witness :
  no_usable_links (Some Sample.web_without_links)
  /\ occurs_ci "latest" "latest price"
  /\ _should_include_web_links Sample.re_none "latest price" ""
       (Some Sample.web_without_links) = false.
Proof.
  assert (H : no_usable_links (Some Sample.web_without_links)).
  { right; right; reflexivity. }
  split; [exact H|]. split.
  - exists "", "latest", " price". split; reflexivity.
  - exact (guard_precedes_rules Sample.re_none "latest price" ""
             (Some Sample.web_without_links) H).
Defined.

(* ================================================================= *)
(** ** Order of binary64 values *)

Lemma SFleb_trans (x y z : spec_float) :
  SFleb x y = true -> SFleb y z = true -> SFleb x z = true.
Proof.
  unfold SFleb, SFcompare.
  destruct x as [sx|sx| |sx mx ex], y as [sy|sy| |sy my ey],
           z as [sz|sz| |sz mz ez];
    try destruct sx; try destruct sy; try destruct sz; simpl; try easy;
    change (Pos.compare_cont Eq) with Pos.compare;
    repeat match goal with
      | |- context [Z.compare ?a ?b] => destruct (Z.compare_spec a b)
      | |- context [Pos.compare ?a ?b] => destruct (Pos.compare_spec a b)
      end; simpl; try easy; try lia.
Qed.

Lemma leb_trans (x y z : float) :
  PrimFloat.leb x y = true -> PrimFloat.leb y z = true ->
  PrimFloat.leb x z = true.
Proof. rewrite !FloatAxioms.leb_spec. apply SFleb_trans. Qed.

Lemma fge_mono (a b t : float) :
  PrimFloat.leb a b = true -> Py.fge a t = true -> Py.fge b t = true.
Proof. unfold Py.fge. intros Hab Hta. exact (leb_trans t a b Hta Hab). Qed.

(** C6. For two non-empty chunk lists with the same number of similarity
    scores of 0.8 or more and the same total text length, an average
    similarity score (the sum of the scores divided by their number) of
    the first that is at most the average of the second gives a confidence
    for the first that is at most the confidence for the second. *)
Theorem evaluator_monotone (c1 c2 : list Chunk) (q1 q2 : string) :
  c1 <> [] -> c2 <> [] ->
  count_at_least 0.8%float (map similarity_of c1)
  = count_at_least 0.8%float (map similarity_of c2) ->
  list_sum (map text_length_of c1) = list_sum (map text_length_of c2) ->
  PrimFloat.leb (average (map similarity_of c1))
                (average (map similarity_of c2)) = true ->
  PrimFloat.leb (confidence (_evaluate_kb_confidence c1 q1))
                (confidence (_evaluate_kb_confidence c2 q2)) = true.
Proof.
  rewrite <- !mean_similarity_average, <- !high_confidence_count,
    <- !total_text_length_sum.
  intros N1 N2 Hn Ht Hle.
  destruct c1 as [|x1 c1]; [congruence|]. destruct c2 as [|x2 c2]; [congruence|].
  unfold _evaluate_kb_confidence. cbv zeta. rewrite <- Hn, <- Ht.
  pose proof (fge_mono _ _ 0.8%float Hle) as M8.
  pose proof (fge_mono _ _ 0.6%float Hle) as M6.
  pose proof (fge_mono _ _ 0.4%float Hle) as M4.
  destruct (Py.fge (mean_similarity (x1 :: c1)) 0.8%float);
    [rewrite (M8 eq_refl)|];
    (destruct (Py.fge (mean_similarity (x1 :: c1)) 0.6%float);
     [rewrite (M6 eq_refl)|]);
    (destruct (Py.fge (mean_similarity (x1 :: c1)) 0.4%float);
     [rewrite (M4 eq_refl)|]);
    destruct (2 <=? _); destruct (500 <=? _); cbn [andb confidence];
    repeat match goal with
      | |- context [Py.fge ?a ?t] => destruct (Py.fge a t); cbn [andb confidence]
      end; reflexivity.
Qed.

Lemma evaluator_monotone_witness :
  average (map similarity_of Sample.two_weak) = 0.5%float
  /\ average (map similarity_of Sample.fair_match) = 0.65%float
  /\ fold_left PrimFloat.add (map similarity_of Sample.two_weak) 0%float
     = 1%float
  /\ list_sum (map text_length_of Sample.two_weak) = 500
  /\ list_sum (map text_length_of Sample.fair_match) = 500
  /\ confidence (_evaluate_kb_confidence Sample.two_weak "q") = 0.5%float
  /\ confidence (_evaluate_kb_confidence Sample.fair_match "q") = 0.7%float
  /\ PrimFloat.leb
       (confidence (_evaluate_kb_confidence Sample.two_weak "q"))
       (confidence (_evaluate_kb_confidence Sample.fair_match "q")) = true.
Proof.
  do 7 (split; [vm_compute; reflexivity|]).
  apply (evaluator_monotone Sample.two_weak Sample.fair_match "q" "q").
  - discriminate.
  - discriminate.
  - vm_compute; reflexivity.
  - vm_compute; reflexivity.
  - vm_compute; reflexivity.
Defined.

(* ================================================================= *)
(** ** The insertion-ordered dict *)

Lemma dict_mem_get (key : string) (d : Cache) :
  dict_mem key d = match dict_get key d with Some _ => true | None => false end.
Proof.
  induction d as [|[k v] d IH]; simpl; [reflexivity|].
  destruct (String.eqb k key); simpl; auto.
Qed.

Lemma dict_mem_In (key : string) (d : Cache) :
  dict_mem key d = true <-> In key (keys d).
Proof.
  induction d as [|[k v] d IH]; simpl; [split; [discriminate | tauto]|].
  rewrite orb_true_iff, IH, String.eqb_eq. tauto.
Qed.

Lemma dict_get_None_In (key : string) (d : Cache) :
  dict_get key d = None <-> ~ In key (keys d).
Proof.
  rewrite <- dict_mem_In, dict_mem_get.
  destruct (dict_get key d); split; congruence.
Qed.

Lemma dict_get_set (key : string) (v : list Chunk) (d : Cache) :
  dict_get key (dict_set key v d) = Some v.
Proof.
  induction d as [|[k v'] d IH]; simpl.
  - now rewrite String.eqb_refl.
  - destruct (String.eqb k key) eqn:Hk; simpl; now rewrite Hk.
Qed.

Lemma dict_set_new (key : string) (v : list Chunk) (d : Cache) :
  ~ In key (keys d) -> dict_set key v d = (d ++ [(key, v)])%list.
Proof.
  induction d as [|[k v'] d IH]; simpl; intros H; [reflexivity|].
  destruct (String.eqb_spec k key) as [->|_]; [tauto|].
  rewrite IH; tauto.
Qed.

Lemma dict_del_head (k : string) (v : list Chunk) (d : Cache) :
  dict_del k ((k, v) :: d) = d.
Proof. simpl. now rewrite String.eqb_refl. Qed.

Lemma evict_keys_incl (d : Cache) (k : string) :
  In k (keys (evict d)) -> In k (keys d).
Proof.
  unfold evict. destruct (_ <=? _); [|auto].
  destruct d; simpl; auto.
Qed.

Lemma evict_length (d : Cache) :
  List.length d <= _cache_max_size -> List.length (evict d) < _cache_max_size.
Proof.
  unfold evict, _cache_max_size. intros H.
  destruct (100 <=? List.length d) eqn:Hc.
  - apply Nat.leb_le in Hc. destruct d; simpl in *; lia.
  - apply Nat.leb_gt in Hc. lia.
Qed.

Lemma evict_ok (d : Cache) : cache_ok d -> cache_ok (evict d).
Proof.
  intros [Hk Hs Hv]. unfold evict. destruct (_ <=? _); [|now split].
  destruct d as [|kv d]; [now split|]. simpl in *. split.
  - now inversion Hk.
  - lia.
  - now inversion Hv.
Qed.

Lemma cache_ok_store (key : string) (v : list Chunk) (d : Cache) :
  cache_ok d -> ~ In key (keys d) -> Forall above_threshold v ->
  cache_ok (dict_set key v (evict d)).
Proof.
  intros Hd Hnew Hv.
  assert (Hnew' : ~ In key (keys (evict d)))
    by (intros H; apply Hnew, evict_keys_incl, H).
  rewrite dict_set_new by exact Hnew'.
  pose proof (evict_length d (ok_size _ Hd)) as Hlen.
  destruct (evict_ok d Hd) as [Hk Hs Hvs]. split.
  - unfold keys in *. rewrite map_app. simpl.
    apply NoDup_app; [exact Hk | repeat constructor; simpl; tauto |].
    intros a Ha [<- | []]. exact (Hnew' Ha).
  - rewrite length_app. simpl. lia.
  - apply Forall_app. split; [exact Hvs | repeat constructor; exact Hv].
Qed.

Lemma usable_above (results : list Chunk) :
  Forall above_threshold (usable results).
Proof.
  unfold usable. apply Forall_forall. intros c Hc.
  apply filter_In in Hc. destruct Hc as [_ Hc].
  unfold score_of, Py.fge, confidence_threshold in Hc. unfold above_threshold.
  destruct (similarity_score c) as [x|]; [exists x; auto | discriminate].
Qed.

(* ================================================================= *)
(** ** [_search_knowledge_base], case by case *)

Section SearchCases.

Variables (E : Env) (query : string) (agent_id : option string)
          (top_k : option Z) (user_id : option string) (w : World).

Lemma search_hit (cached : list Chunk) :
  dict_get (cache_key agent_id query (depth_of query top_k)) (_query_cache w)
  = Some cached ->
  _search_knowledge_base E query agent_id top_k user_id w = (Ok cached, w).
Proof.
  intros H. unfold _search_knowledge_base, M.try_except, M.bind, M.get_cache.
  cbv zeta. now rewrite H.
Qed.

Lemma search_miss_raise (e : exn) :
  dict_get (cache_key agent_id query (depth_of query top_k)) (_query_cache w)
  = None ->
  search_answer E query agent_id (depth_of query top_k) user_id = Raise e ->
  _search_knowledge_base E query agent_id top_k user_id w
  = (Ok [],
     {| _query_cache := _query_cache w;
        trace := (trace w
                  ++ [search_call query agent_id (depth_of query top_k)
                                  user_id])%list |}).
Proof.
  intros H He.
  unfold _search_knowledge_base, M.try_except, M.bind, M.get_cache,
    perform_search, M.call, M.ret.
  cbv zeta. now rewrite H, He.
Qed.

Lemma search_miss_ok (results : list Chunk) :
  dict_get (cache_key agent_id query (depth_of query top_k)) (_query_cache w)
  = None ->
  search_answer E query agent_id (depth_of query top_k) user_id = Ok results ->
  _search_knowledge_base E query agent_id top_k user_id w
  = (Ok (usable results),
     {| _query_cache :=
          dict_set (cache_key agent_id query (depth_of query top_k))
                   (usable results) (evict (_query_cache w));
        trace := (trace w
                  ++ [search_call query agent_id (depth_of query top_k)
                                  user_id])%list |}).
Proof.
  intros H He.
  unfold _search_knowledge_base, perform_search, store.
  unfold M.try_except, M.bind, M.get_cache, M.call, M.ret, M.set_cache,
    M.raise, evict, usable.
  cbv zeta. rewrite H, He. cbn [_query_cache trace].
  destruct (_cache_max_size <=? List.length (_query_cache w)) eqn:Hc;
    [|reflexivity].
  destruct (_query_cache w) as [|[k v] d] eqn:Hd.
  - apply Nat.leb_le in Hc. unfold _cache_max_size in Hc. simpl in Hc. lia.
  - cbn [dict_first tl]. now rewrite dict_del_head.
Qed.

(** The three cases are all there is: a hit, a search that raises, a
    search that answers. *)
Lemma search_cases :
  (exists cached,
      dict_get (cache_key agent_id query (depth_of query top_k))
               (_query_cache w) = Some cached
      /\ _search_knowledge_base E query agent_id top_k user_id w
         = (Ok cached, w))
  \/ (exists e,
      dict_get (cache_key agent_id query (depth_of query top_k))
               (_query_cache w) = None
      /\ search_answer E query agent_id (depth_of query top_k) user_id
         = Raise e
      /\ _search_knowledge_base E query agent_id top_k user_id w
         = (Ok [],
            {| _query_cache := _query_cache w;
               trace := (trace w
                         ++ [search_call query agent_id
                                         (depth_of query top_k) user_id])%list |}))
  \/ (exists results,
      dict_get (cache_key agent_id query (depth_of query top_k))
               (_query_cache w) = None
      /\ search_answer E query agent_id (depth_of query top_k) user_id
         = Ok results
      /\ _search_knowledge_base E query agent_id top_k user_id w
         = (Ok (usable results),
            {| _query_cache :=
                 dict_set (cache_key agent_id query (depth_of query top_k))
                          (usable results) (evict (_query_cache w));
               trace := (trace w
                         ++ [search_call query agent_id
                                         (depth_of query top_k) user_id])%list |})).
Proof.
  destruct (dict_get (cache_key agent_id query (depth_of query top_k))
                     (_query_cache w)) as [cached|] eqn:H.
  - left. exists cached. split; [reflexivity | now apply search_hit].
  - right.
    destruct (search_answer E query agent_id (depth_of query top_k) user_id)
      as [results|e] eqn:He.
    + right. exists results. repeat split; auto. now apply search_miss_ok.
    + left. exists e. repeat split; auto. now apply (search_miss_raise e).
Qed.

End SearchCases.

(* ================================================================= *)
(** ** What the computations keep of the cache *)

Section Keeps.

Variable P : Cache -> Prop.

Lemma keeps_ret {A} (a : A) : keeps P (M.ret a).
Proof. intros w H; exact H. Qed.

Lemma keeps_raise {A} (e : exn) : keeps P (@M.raise A e).
Proof. intros w H; exact H. Qed.

Lemma keeps_call {A} (c : Call) (r : result A) : keeps P (M.call c r).
Proof. intros w H; exact H. Qed.

Lemma keeps_get_cache : keeps P M.get_cache.
Proof. intros w H; exact H. Qed.

Lemma keeps_bind {A B} (m : M.t A) (k : A -> M.t B) :
  keeps P m -> (forall a, keeps P (k a)) -> keeps P (M.bind m k).
Proof.
  intros Hm Hk w H. unfold M.bind. specialize (Hm w H).
  destruct (m w) as [[a|e] w']; simpl in *; [now apply Hk | exact Hm].
Qed.

Lemma keeps_try {A} (m : M.t A) (h : exn -> M.t A) :
  keeps P m -> (forall e, keeps P (h e)) -> keeps P (M.try_except m h).
Proof.
  intros Hm Hh w H. unfold M.try_except. specialize (Hm w H).
  destruct (m w) as [[a|e] w']; simpl in *; [exact Hm | now apply Hh].
Qed.

Lemma keeps_at_step {A} (E : Env) (s : Step) (v : A) :
  keeps P (at_step E s v).
Proof. unfold at_step. destruct (fault E s); intros w H; exact H. Qed.

End Keeps.

Ltac keeps_step :=
  first
    [ apply keeps_ret | apply keeps_raise | apply keeps_call
    | apply keeps_get_cache | apply keeps_at_step
    | apply keeps_bind; [|intros ?]
    | apply keeps_try; [|intros ?]
    | match goal with
      | |- keeps _ (match ?x with _ => _ end) => destruct x
      | |- keeps _ (if ?b then _ else _) => destruct b
      end ].

Lemma search_keeps_ok E query agent_id top_k user_id :
  keeps cache_ok (_search_knowledge_base E query agent_id top_k user_id).
Proof.
  intros w H.
  destruct (search_cases E query agent_id top_k user_id w)
    as [[c [_ ->]] | [[e [_ [_ ->]]] | [r [Hn [_ ->]]]]]; simpl; auto.
  apply cache_ok_store; [exact H | now apply dict_get_None_In | apply usable_above].
Qed.

Lemma load_history_keeps P E conversation_id :
  keeps P (load_history E conversation_id).
Proof.
  unfold load_history, get_conversation_history. repeat keeps_step.
Qed.

Lemma search_web_keeps P re E query : keeps P (_search_web re E query).
Proof. unfold _search_web. repeat keeps_step. Qed.

Lemma assemble_keeps P re E message history chunks :
  keeps P (assemble re E message history chunks).
Proof.
  unfold assemble.
  repeat first [apply search_web_keeps | keeps_step].
Qed.

Lemma answer_keeps P round3 template E g message agent_id :
  keeps P (answer round3 template E g message agent_id).
Proof.
  unfold answer, llm_answer, fallback_answer, respond_with, agent_instructions.
  repeat keeps_step.
Qed.

Lemma get_response_keeps_ok re round3 template E message
      conversation_id agent_id user_id :
  keeps cache_ok
        (get_response re round3 template E message conversation_id agent_id
                      user_id).
Proof.
  unfold get_response, get_response_body, gather.
  repeat first [ apply load_history_keeps | apply search_keeps_ok
               | apply assemble_keeps | apply answer_keeps | keeps_step ].
Qed.

Lemma init_ok : cache_ok (_query_cache init_world).
Proof. split; simpl; [constructor | unfold _cache_max_size; lia | constructor]. Qed.

Lemma run_op_ok (w : World) (o : Op) :
  cache_ok (_query_cache w) -> cache_ok (_query_cache (run_op w o)).
Proof.
  destruct o; simpl.
  - apply search_keeps_ok.
  - apply get_response_keeps_ok.
  - intros _. apply init_ok.
Qed.

Lemma fold_run_ok (ops : list Op) (w : World) :
  cache_ok (_query_cache w) -> cache_ok (_query_cache (fold_left run_op ops w)).
Proof.
  revert w; induction ops as [|o ops IH]; intros w H; simpl; [exact H|].
  apply IH, run_op_ok, H.
Qed.

Lemma reachable_ok (w : World) : reachable w -> cache_ok (_query_cache w).
Proof. intros [ops ->]. apply fold_run_ok, init_ok. Qed.

(* ================================================================= *)
(** ** The retrieval cache *)

Lemma cache_key_normalized (agent_id : option string) (q1 q2 : string) (k : Z) :
  Py.strip (Py.lower q1) = Py.strip (Py.lower q2) ->
  cache_key agent_id q1 k = cache_key agent_id q2 k.
Proof. unfold cache_key. now intros ->. Qed.

Lemma fetches_app (t1 t2 : list Call) :
  fetches (t1 ++ t2) = fetches t1 + fetches t2.
Proof. unfold fetches. now rewrite filter_app, length_app. Qed.

Lemma search_call_is_fetch query agent_id top_k user_id :
  is_fetch (search_call query agent_id top_k user_id) = true.
Proof.
  unfold search_call. destruct agent_id as [a|]; [destruct (Py.truthy a)|];
    reflexivity.
Qed.

Lemma fetches_search_call query agent_id top_k user_id :
  fetches [search_call query agent_id top_k user_id] = 1.
Proof.
  unfold fetches. cbn [filter]. now rewrite search_call_is_fetch.
Qed.

(** Two consecutive lookups with the same scope, the same normalized
    query and the same depth, the first of which is answered by the vector
    search: the second is a hit that returns the list the first returned,
    and the vector search is called once when the key was not cached
    before, and not at all when it was. *)
Lemma answered_lookup_then_hit
        (E1 E2 : Env) (agent_id : option string) (q1 q2 : string)
        (k1 k2 : option Z) (u1 u2 : option string) (results : list Chunk)
        (w0 w1 w2 : World) (r1 r2 : result (list Chunk)) :
  Py.strip (Py.lower q1) = Py.strip (Py.lower q2) ->
  depth_of q1 k1 = depth_of q2 k2 ->
  search_answer E1 q1 agent_id (depth_of q1 k1) u1 = Ok results ->
  _search_knowledge_base E1 q1 agent_id k1 u1 w0 = (r1, w1) ->
  _search_knowledge_base E2 q2 agent_id k2 u2 w1 = (r2, w2) ->
  let key := cache_key agent_id q1 (depth_of q1 k1) in
  exists chunks,
    r1 = Ok chunks /\ r2 = Ok chunks /\ w2 = w1
    /\ dict_get key (_query_cache w1) = Some chunks
    /\ fetches (trace w2)
       = fetches (trace w0) + (if dict_mem key (_query_cache w0) then 0 else 1)
    /\ (dict_mem key (_query_cache w0) = false -> chunks = usable results).
Proof.
  intros Hq Hk Hok H1 H2 key.
  assert (Hkey : cache_key agent_id q2 (depth_of q2 k2) = key).
  { unfold key. rewrite <- Hk. symmetry. now apply cache_key_normalized. }
  assert (Hsecond : forall chunks,
             dict_get key (_query_cache w1) = Some chunks ->
             r2 = Ok chunks /\ w2 = w1).
  { intros chunks Hget. rewrite <- Hkey in Hget.
    rewrite (search_hit E2 q2 agent_id k2 u2 w1 chunks Hget) in H2.
    now inversion H2. }
  subst key. clear Hkey H2.
  destruct (search_cases E1 q1 agent_id k1 u1 w0)
    as [[c [Hget Hrun]] | [[e [_ [He _]]] | [r [Hget [Hr Hrun]]]]].
  - rewrite Hrun in H1. inversion H1; subst r1 w1.
    destruct (Hsecond c Hget) as [-> ->].
    exists c. rewrite dict_mem_get, Hget.
    repeat split; auto; try lia; discriminate.
  - congruence.
  - rewrite Hrun in H1. inversion H1; subst r1 w1. clear H1.
    assert (r = results) by congruence. subst r.
    cbn [_query_cache trace] in *.
    destruct (Hsecond (usable results) (dict_get_set _ _ _)) as [-> ->].
    exists (usable results). rewrite dict_mem_get, Hget.
    cbn [_query_cache trace]. rewrite fetches_app, fetches_search_call.
    repeat split; auto using dict_get_set.
Qed.

Lemma repository_search_answers (B : Backends) (E : Env) (query : string)
      (agent_id : option string) (top_k : Z) (user_id : option string) :
  exists results,
    search_answer (with_repository_search B E) query agent_id top_k user_id
    = Ok results.
Proof.
  unfold search_answer, with_repository_search, with_agent_service,
    with_knowledge_base. cbn [search_agent kb_search].
  destruct agent_id as [a|]; [destruct (Py.truthy a)|]; eexists; reflexivity.
Qed.

(** C3. Two consecutive lookups with the same scope, the same normalized
    (lower-cased, trimmed) query and the same depth, the first of which
    finds its key not yet cached, on a service whose vector searches are
    those of the repository ([AgentService.search_agent],
    [KnowledgeBaseService.search]): the vector search is called exactly
    once, by the first lookup; that lookup stores the filtered list under
    the key, and the second lookup is a cache hit that returns the same
    list and calls no collaborator. *)
Theorem repeated_lookup_hits_cache
        (B : Backends) (E1 E2 : Env) (agent_id : option string)
        (q1 q2 : string) (k1 k2 : option Z) (u1 u2 : option string)
        (w0 : World) :
  Py.strip (Py.lower q1) = Py.strip (Py.lower q2) ->
  depth_of q1 k1 = depth_of q2 k2 ->
  dict_mem (cache_key agent_id q1 (depth_of q1 k1)) (_query_cache w0)
  = false ->
  exists chunks w1 w2,
    _search_knowledge_base (with_repository_search B E1) q1 agent_id k1 u1 w0
    = (Ok chunks, w1)
    /\ _search_knowledge_base E2 q2 agent_id k2 u2 w1 = (Ok chunks, w2)
    /\ trace w1
       = (trace w0 ++ [search_call q1 agent_id (depth_of q1 k1) u1])%list
    /\ trace w2 = trace w1
    /\ fetches (trace w2) = fetches (trace w0) + 1
    /\ dict_get (cache_key agent_id q1 (depth_of q1 k1)) (_query_cache w1)
       = Some chunks
    /\ Forall above_threshold chunks
    /\ exists results,
         search_answer (with_repository_search B E1) q1 agent_id
                       (depth_of q1 k1) u1 = Ok results
         /\ chunks
            = filter (fun r => PrimFloat.leb 0.3%float (similarity_of r))
                     results.
Proof.
  intros Hq Hk Hmem.
  destruct (repository_search_answers B E1 q1 agent_id (depth_of q1 k1) u1)
    as [results Hr].
  assert (Hmiss : dict_get (cache_key agent_id q1 (depth_of q1 k1))
                           (_query_cache w0) = None).
  { rewrite dict_mem_get in Hmem.
    now destruct (dict_get (cache_key agent_id q1 (depth_of q1 k1))
                           (_query_cache w0)). }
  pose proof (search_miss_ok (with_repository_search B E1) q1 agent_id k1 u1
                             w0 results Hmiss Hr) as H1.
  eexists. eexists. eexists. split; [exact H1|].
  cbn [_query_cache trace]. split.
  { apply search_hit. cbn [_query_cache].
    rewrite <- Hk, <- (cache_key_normalized agent_id q1 q2 _ Hq).
    apply dict_get_set. }
  cbn [_query_cache trace].
  split; [reflexivity|]. split; [reflexivity|]. split.
  { now rewrite fetches_app, fetches_search_call. }
  split; [apply dict_get_set|]. split; [apply usable_above|].
  exists results. split; [exact Hr | reflexivity].
Qed.

Lemma repeated_lookup_hits_cache_witness :
  Py.strip (Py.lower " Reset PUMP") = Py.strip (Py.lower "reset pump  ")
  /\ depth_of " Reset PUMP" None = depth_of "reset pump  " (Some 3%Z)
  /\ exists chunks w1 w2,
       _search_knowledge_base
         (with_repository_search Sample.backends Sample.env_up)
         " Reset PUMP" (Some "pumps") None (Some "u1") init_world
       = (Ok chunks, w1)
       /\ _search_knowledge_base
            (with_repository_search Sample.backends_down Sample.env_up)
            "reset pump  " (Some "pumps") (Some 3%Z) (Some "u1") w1
          = (Ok chunks, w2)
       /\ List.length chunks = 1
       /\ trace w2 = [CallSearchAgent "pumps" " Reset PUMP" 3%Z (Some "u1")]
       /\ fetches (trace w2) = 1.
Proof.
  split; [reflexivity|]. split; [reflexivity|].
  destruct (repeated_lookup_hits_cache
              Sample.backends Sample.env_up
              (with_repository_search Sample.backends_down Sample.env_up)
              (Some "pumps") " Reset PUMP" "reset pump  " None (Some 3%Z)
              (Some "u1") (Some "u1") init_world eq_refl eq_refl eq_refl)
    as [chunks [w1 [w2 [H1 [H2 [Ht1 [Ht2 [Hf [_ [_ [results [Hr Hc]]]]]]]]]]]].
  exists chunks, w1, w2. split; [exact H1|]. split; [exact H2|].
  split.
  { rewrite Hc. vm_compute in Hr. injection Hr as <-. reflexivity. }
  split; [rewrite Ht2, Ht1; reflexivity|].
  rewrite Hf. reflexivity.
Defined.

(** C4. The cache of a service never holds more than 100 entries; and in
    every cache state of exactly 100 entries, a lookup that inserts a key
    not yet present removes the earliest-inserted entry, and only it, and
    stores the new entry last, the other entries keeping their values and
    their order. *)
Theorem cache_bounded_fifo :
  (forall w, reachable w -> List.length (_query_cache w) <= 100)
  /\ (forall E query agent_id top_k user_id results w oldest old_value rest,
        let key := cache_key agent_id query (depth_of query top_k) in
        _query_cache w = (oldest, old_value) :: rest ->
        NoDup (keys (_query_cache w)) ->
        List.length (_query_cache w) = 100 ->
        ~ In key (keys (_query_cache w)) ->
        search_answer E query agent_id (depth_of query top_k) user_id
        = Ok results ->
        let w' := snd (_search_knowledge_base E query agent_id top_k user_id w) in
        _query_cache w' = (rest ++ [(key, usable results)])%list
        /\ ~ In oldest (keys (_query_cache w'))
        /\ List.length (_query_cache w') = 100).
Proof.
  split.
  - intros w Hw. exact (ok_size _ (reachable_ok w Hw)).
  - intros E query agent_id top_k user_id results w oldest old_value rest key
           Hd Hnd Hlen Hnew Hok w'.
    assert (Hc : _query_cache w' = (rest ++ [(key, usable results)])%list).
    { unfold w'.
      rewrite (search_miss_ok E query agent_id top_k user_id w results);
        [|now apply dict_get_None_In | exact Hok].
      cbn [snd _query_cache]. unfold evict, _cache_max_size.
      rewrite Hlen, Nat.leb_refl, Hd. cbn [tl].
      apply dict_set_new. intros H. apply Hnew. rewrite Hd. simpl. now right. }
    rewrite Hc. rewrite Hd in Hnd, Hlen, Hnew. simpl in Hnd, Hlen, Hnew.
    split; [reflexivity|]. split.
    + unfold keys. rewrite map_app, in_app_iff. simpl.
      inversion Hnd; subst. intros [H | [H | []]]; [now auto|].
      apply Hnew. now left.
    + rewrite length_app. simpl. lia.
Qed.

Lemma cache_bounded_fifo_witness :
  List.length (_query_cache Sample.full_world) = 100
  /\ hd_error (keys (_query_cache Sample.full_world)) = Some "global:pump 0:5"
  /\ (let w' := snd (_search_knowledge_base Sample.env_up "valve" None
                       (Some 5%Z) None Sample.full_world) in
      _query_cache w'
      = (tl (_query_cache Sample.full_world)
         ++ [("global:valve:5", usable Sample.manual)])%list
      /\ ~ In "global:pump 0:5" (keys (_query_cache w'))
      /\ List.length (_query_cache w') = 100).
Proof.
  assert (Hr : reachable Sample.full_world) by (exists Sample.fill; reflexivity).
  split; [vm_compute; reflexivity|]. split; [vm_compute; reflexivity|].
  apply (proj2 cache_bounded_fifo Sample.env_up "valve" None (Some 5%Z) None
           Sample.manual Sample.full_world "global:pump 0:5"
           (usable Sample.manual) (tl (_query_cache Sample.full_world))).
  - vm_compute; reflexivity.
  - exact (ok_keys _ (reachable_ok _ Hr)).
  - vm_compute; reflexivity.
  - apply dict_get_None_In. vm_compute; reflexivity.
  - reflexivity.
Defined.

(** C7. In every world a service can reach, each lookup returns a list
    whose chunks all carry a similarity score of at least 0.3, from the
    cache or from a fresh search; and an orchestration call runs its
    confidence evaluation, context assembly and source extraction on the
    list its lookup returned. *)
Theorem retrieved_chunks_above_threshold (w : World) :
  reachable w ->
  (forall E query agent_id top_k user_id,
      exists chunks,
        fst (_search_knowledge_base E query agent_id top_k user_id w) = Ok chunks
        /\ Forall above_threshold chunks)
  /\ (forall re E message conversation_id agent_id user_id history w1,
        load_history E conversation_id w = (Ok history, w1) ->
        exists chunks w2,
          _search_knowledge_base E message agent_id None user_id w1
          = (Ok chunks, w2)
          /\ Forall above_threshold chunks
          /\ gather re E message conversation_id agent_id user_id w
             = assemble re E message history chunks w2
          /\ forall g w3,
               assemble re E message history chunks w2 = (Ok g, w3) ->
               g_chunks g = chunks).
Proof.
  intros Hw. pose proof (reachable_ok w Hw) as Hok.
  assert (Hsearch : forall E query agent_id top_k user_id w0,
             cache_ok (_query_cache w0) ->
             exists chunks w',
               _search_knowledge_base E query agent_id top_k user_id w0
               = (Ok chunks, w')
               /\ Forall above_threshold chunks).
  { intros E query agent_id top_k user_id w0 H0.
    destruct (search_cases E query agent_id top_k user_id w0)
      as [[c [Hget ->]] | [[e [_ [_ ->]]] | [r [_ [_ ->]]]]].
    - exists c, w0. split; [reflexivity|].
      assert (Hin : In (cache_key agent_id query (depth_of query top_k), c)
                       (_query_cache w0)).
      { clear H0. induction (_query_cache w0) as [|[k v] d IH];
          simpl in *; [discriminate|].
        destruct (String.eqb_spec k (cache_key agent_id query
                                               (depth_of query top_k)));
          [left; congruence | right; auto]. }
      exact (proj1 (Forall_forall _ _) (ok_values _ H0) _ Hin).
    - eexists _, _. split; [reflexivity | constructor].
    - eexists _, _. split; [reflexivity | apply usable_above]. }
  split.
  - intros E query agent_id top_k user_id.
    destruct (Hsearch E query agent_id top_k user_id w Hok)
      as [chunks [w' [-> H]]].
    exists chunks. auto.
  - intros re E message conversation_id agent_id user_id history w1 Hh.
    assert (H1 : cache_ok (_query_cache w1)).
    { pose proof (load_history_keeps cache_ok E conversation_id w Hok) as H.
      now rewrite Hh in H. }
    destruct (Hsearch E message agent_id None user_id w1 H1)
      as [chunks [w2 [Hs Hall]]].
    exists chunks, w2. split; [exact Hs|]. split; [exact Hall|]. split.
    + unfold gather, M.bind. now rewrite Hh, Hs.
    + intros g w3. unfold assemble, M.bind, M.ret.
      repeat match goal with
        | |- context [match ?x with _ => _ end] => destruct x
        end; intros H; inversion H; reflexivity.
Qed.

Lemma retrieved_chunks_above_threshold_witness :
  reachable Sample.full_world
  /\ exists chunks,
       fst (_search_knowledge_base Sample.env_up "valve" None None None
                                   Sample.full_world) = Ok chunks
       /\ Forall above_threshold chunks.
Proof.
  assert (Hr : reachable Sample.full_world) by (exists Sample.fill; reflexivity).
  split; [exact Hr|].
  exact (proj1 (retrieved_chunks_above_threshold Sample.full_world Hr)
           Sample.env_up "valve" None None None).
Defined.

(* ================================================================= *)
(** ** The orchestrator *)

Section Returns.

Lemma returns_ret {A} (a : A) : returns (M.ret a).
Proof. intros w; now exists a, w. Qed.

Lemma returns_bind {A B} (m : M.t A) (k : A -> M.t B) :
  returns m -> (forall a, returns (k a)) -> returns (M.bind m k).
Proof.
  intros Hm Hk w. unfold M.bind.
  destruct (Hm w) as [a [w' ->]]. apply Hk.
Qed.

(** A handler that returns makes the whole [try] return. *)
Lemma returns_try {A} (m : M.t A) (h : exn -> M.t A) :
  (forall e, returns (h e)) -> returns (M.try_except m h).
Proof.
  intros Hh w. unfold M.try_except.
  destruct (m w) as [[a|e] w']; [now exists a, w' | apply Hh].
Qed.

Lemma returns_at_step {A} (E : Env) (s : Step) (v : A) :
  fault E s = None -> returns (at_step E s v).
Proof. intros H w. unfold at_step. rewrite H. now exists v, w. Qed.

End Returns.

Ltac returns_step H :=
  first
    [ apply returns_ret
    | apply returns_at_step; apply H
    | apply returns_try; intros ?
    | apply returns_bind; [|intros ?]
    | match goal with
      | |- returns (match ?x with _ => _ end) => destruct x
      | |- returns (if ?b then _ else _) => destruct b
      end ].

Lemma body_returns re round3 template E message conversation_id agent_id
      user_id :
  (forall s, fault E s = None) ->
  returns (get_response_body re round3 template E message conversation_id
                             agent_id user_id).
Proof.
  intros H.
  unfold get_response_body, gather, load_history, get_conversation_history,
    _search_knowledge_base, assemble, _search_web, answer, llm_answer,
    fallback_answer, respond_with.
  repeat returns_step H.
Qed.

Lemma truthy_nonempty (s : string) : s <> "" -> Py.truthy s = true.
Proof. destruct s; [congruence | reflexivity]. Qed.

(** The answer steps when the language model raises or returns a blank
    text: the fallback text with the extracted sources. *)
Lemma fallback_after_model re round3 template E message conversation_id
      agent_id user_id (w w1 w2 : World) (g : Gathered)
      (invoke : string -> result string) (instructions : string) :
  answers_cleanly E ->
  gather re E message conversation_id agent_id user_id w = (Ok g, w1) ->
  g_context g <> "" ->
  llm E = Some invoke ->
  agent_instructions E agent_id w1 = (Ok instructions, w2) ->
  (exists e, invoke (make_prompt template g message instructions) = Raise e)
  \/ (exists completion,
        invoke (make_prompt template g message instructions) = Ok completion
        /\ Py.strip completion = "") ->
  exists w',
    get_response_body re round3 template E message conversation_id agent_id
                      user_id w
    = (Ok {| response := _generate_fallback_response (g_context g) message
                                                     (g_web_links g);
             sources := _extract_sources round3 (g_chunks g) (g_web_links g);
             chunks_found := List.length (g_chunks g);
             conversation_id := None |}, w').
Proof.
  intros [Hp [Hf [Hs Hr]]] Hg Hctx Hllm Hinstr Hinv.
  unfold get_response_body, M.bind at 1.
  rewrite Hg. unfold answer. rewrite (truthy_nonempty _ Hctx), Hllm.
  cbn [negb]. unfold M.bind at 1, llm_answer, M.try_except at 1, M.bind at 1.
  rewrite Hinstr. unfold M.bind at 1, at_step at 1. rewrite Hp.
  unfold M.ret at 1, M.bind at 1, M.call at 1.
  destruct Hinv as [[e ->] | [completion [-> Hblank]]].
  - unfold M.ret at 1, fallback_answer, M.bind at 1, at_step at 1.
    rewrite Hf. unfold M.ret at 1, respond_with, M.bind at 1, at_step.
    rewrite Hs, Hr. unfold M.ret. eexists; reflexivity.
  - rewrite Hblank. cbn [String.length Nat.eqb]. rewrite orb_true_r.
    unfold M.bind at 1, at_step at 1. rewrite Hf.
    unfold M.ret at 1, M.bind at 1, respond_with, M.bind at 1, at_step.
    rewrite Hs, Hr. unfold M.ret. eexists; reflexivity.
Qed.

(** C5, as the code has it. [get_response] always returns a response and
    never raises. An exception that escapes the body of its outer [try] is
    answered by the apology, with no sources and [chunks_found] 0; a
    response produced by the body is returned as it is. Exceptions of the
    collaborators do not escape the body: when no helper call raises, the
    body returns whatever the message store, the vector search, the web
    search, the agent registry and the language model do; and when the
    language model raises on a non-empty context, the response is the
    fallback text with the extracted sources and
    [chunks_found = len(chunks)]. *)
Theorem orchestrator_absorbs_exceptions re round3 template E message
        conversation_id agent_id user_id (w : World) :
  exists r w',
    get_response re round3 template E message conversation_id agent_id
                 user_id w = (Ok r, w')
    /\ (forall e w1,
          get_response_body re round3 template E message conversation_id
                            agent_id user_id w = (Raise e, w1) ->
          r = apology_response /\ sources r = [] /\ chunks_found r = 0
          /\ w' = w1)
    /\ (forall r0 w1,
          get_response_body re round3 template E message conversation_id
                            agent_id user_id w = (Ok r0, w1) ->
          r = r0 /\ w' = w1)
    /\ ((forall s, fault E s = None) ->
        exists r0 w1,
          get_response_body re round3 template E message conversation_id
                            agent_id user_id w = (Ok r0, w1))
    /\ (forall g w1 w2 invoke instructions e,
          answers_cleanly E ->
          gather re E message conversation_id agent_id user_id w = (Ok g, w1) ->
          g_context g <> "" ->
          llm E = Some invoke ->
          agent_instructions E agent_id w1 = (Ok instructions, w2) ->
          invoke (make_prompt template g message instructions) = Raise e ->
          r = {| response := _generate_fallback_response (g_context g) message
                                                         (g_web_links g);
                 sources := _extract_sources round3 (g_chunks g)
                                             (g_web_links g);
                 chunks_found := List.length (g_chunks g);
                 conversation_id := None |}).
Proof.
  pose proof (body_returns re round3 template E message conversation_id
                agent_id user_id) as Hret.
  pose proof (fallback_after_model re round3 template E message
                conversation_id agent_id user_id w) as Hfb.
  unfold get_response, M.try_except.
  destruct (get_response_body re round3 template E message conversation_id
                              agent_id user_id w) as [[r0|e] w1] eqn:Hb.
  - exists r0, w1. repeat split; try congruence.
    + intros _. now exists r0, w1.
    + intros g w2 w3 invoke instructions e Hc Hg Hctx Hllm Hi He.
      destruct (Hfb w2 w3 g invoke instructions Hc Hg Hctx Hllm Hi)
        as [w' H]; [left; now exists e | congruence].
  - exists apology_response, w1. repeat split; try congruence.
    + intros H. destruct (Hret H w) as [r0 [w2 Hr]]. congruence.
    + intros g w2 w3 invoke instructions e' Hc Hg Hctx Hllm Hi He.
      destruct (Hfb w2 w3 g invoke instructions Hc Hg Hctx Hllm Hi)
        as [w' H]; [left; now exists e' | congruence].
Qed.

Lemma orchestrator_absorbs_exceptions_witness :
  Sample.ask_body (Sample.env (Some Sample.model_blank) Sample.confidence_fault)
  = (Raise (Exception "TypeError"),
     snd (Sample.ask (Sample.env (Some Sample.model_blank)
                                 Sample.confidence_fault)))
  /\ fst (Sample.ask (Sample.env (Some Sample.model_blank)
                                 Sample.confidence_fault))
     = Ok apology_response.
Proof.
  destruct (orchestrator_absorbs_exceptions
              Sample.re_none Sample.round_id Sample.template
              (Sample.env (Some Sample.model_blank) Sample.confidence_fault)
              "How do I reset the system?" None None None init_world)
    as [r [w' [H [Hraise _]]]].
  split; [vm_compute; reflexivity|].
  unfold Sample.ask. rewrite H.
  destruct (Hraise (Exception "TypeError")
                   (snd (Sample.ask (Sample.env (Some Sample.model_blank)
                                                Sample.confidence_fault))))
    as [-> _]; [vm_compute; reflexivity | reflexivity].
Defined.

(** C5 as stated fails: an exception raised by the language model is
    handled inside the body, and the caller receives the fallback answer
    with its source and two chunks found, not the apology. *)
Lemma model_failure_gets_fallback :
  (forall prompt, Sample.model_down prompt = Raise Sample.timeout)
  /\ exists r w',
       Sample.ask (Sample.env (Some Sample.model_down) Sample.no_fault)
       = (Ok r, w')
       /\ (exists prompt, In (CallLlm prompt) (trace w'))
       /\ response r = _generate_fallback_response
                         (g_context Sample.gathered)
                         "How do I reset the system?" []
       /\ sources r = [DocSource "manual.pdf" 0.9%float "document" "unknown"]
       /\ chunks_found r = 2
       /\ r <> apology_response.
Proof.
  split; [reflexivity|].
  eexists _, _. split; [vm_compute; reflexivity|].
  split; [eexists; right; left; reflexivity|].
  split; [vm_compute; reflexivity|].
  split; [reflexivity|]. split; [reflexivity|]. discriminate.
Qed.

Lemma contains_prefix (k s : string) : Py.contains k (k ++ s) = true.
Proof. apply contains_spec. now exists "", s. Qed.

Lemma contains_app_r (k a b : string) :
  Py.contains k b = true -> Py.contains k (a ++ b) = true.
Proof.
  rewrite !contains_spec. intros [pre [post ->]].
  exists (a ++ pre), post. now rewrite append_assoc.
Qed.



(* ================================================================= *)
(** * Further properties of the service *)

(** ** Strings and slices *)

Lemma length_append (a b : string) :
  String.length (a ++ b) = String.length a + String.length b.
Proof. induction a; simpl; congruence. Qed.

Lemma length_take (n : nat) (s : string) : String.length (Py.take n s) <= n.
Proof.
  unfold Py.take. revert s; induction n as [|n IH]; intros s.
  - destruct s; simpl; lia.
  - destruct s as [|c s]; simpl; [lia|]. specialize (IH s). lia.
Qed.

Lemma take_all (n : nat) (s : string) :
  String.length s <= n -> Py.take n s = s.
Proof.
  unfold Py.take. revert s; induction n as [|n IH]; intros s H.
  - destruct s; simpl in *; [reflexivity | lia].
  - destruct s as [|c s]; simpl in *; [reflexivity|]. rewrite IH; [reflexivity | lia].
Qed.

Lemma append_nonempty_l (a b : string) : a <> "" -> a ++ b <> "".
Proof. destruct a; [congruence | discriminate]. Qed.

Lemma join_nonempty (sep a : string) (l : list string) :
  a <> "" -> Py.join sep (a :: l) <> "".
Proof.
  intros H. unfold Py.join. simpl. destruct l; [exact H|].
  now apply append_nonempty_l.
Qed.

(* ================================================================= *)
(** ** The context assembler *)

(** X2. [_build_context] returns the empty string exactly when there is
    no chunk and the web results carry no non-empty text. *)
Theorem context_empty_iff (chunks : list Chunk) (web_results : option WebResults) :
  _build_context chunks web_results = ""
  <-> chunks = [] /\ has_web_text web_results = false.
Proof.
  unfold _build_context, has_web_text.
  assert (Hweb : forall wr, web_truthy wr && Py.truthy_opt (web_text wr)
                            = Py.truthy_opt (web_text wr)).
  { intros wr. unfold web_truthy.
    destruct (web_text wr), (links wr); reflexivity. }
  destruct chunks as [|c chunks].
  - destruct web_results as [wr|]; [|split; auto].
    rewrite Hweb. destruct (Py.truthy_opt (web_text wr)) eqn:Ht.
    + split; [|intros [_ H]; discriminate].
      intros H. exfalso. revert H. cbn [app]. apply join_nonempty. discriminate.
    + split; auto.
  - split; [|intros [H _]; discriminate].
    intros H. exfalso. revert H. cbn [app]. apply join_nonempty. discriminate.
Qed.

(* ================================================================= *)
(** ** Source extraction *)

Lemma mem_string_In (s : string) (l : list string) :
  mem_string s l = true <-> In s l.
Proof.
  unfold mem_string. rewrite existsb_exists. split.
  - intros [x [Hin Hx]]. apply String.eqb_eq in Hx. now subst.
  - intros H. exists s. split; [exact H | apply String.eqb_refl].
Qed.

Lemma doc_sources_spec round3 (seen : list string) (chunks : list Chunk) :
  List.length (doc_sources round3 seen chunks) <= List.length chunks
  /\ Forall (fun s => is_web_source s = false) (doc_sources round3 seen chunks)
  /\ NoDup (map source_name (doc_sources round3 seen chunks))
  /\ forall n, In n (map source_name (doc_sources round3 seen chunks)) ->
               n <> "Unknown" /\ ~ In n seen
               /\ exists c, In c chunks /\ n = filename_of c.
Proof.
  revert seen; induction chunks as [|c chunks IH]; intros seen.
  - simpl. repeat split; try constructor; try lia; intros n [].
  - cbn [doc_sources]. fold (filename_of c).
    destruct (negb (String.eqb (filename_of c) "Unknown")
              && negb (mem_string (filename_of c) seen)) eqn:Hnew.
    + apply andb_true_iff in Hnew. destruct Hnew as [Hu Hs].
      apply negb_true_iff in Hu, Hs. apply String.eqb_neq in Hu.
      assert (Hs' : ~ In (filename_of c) seen).
      { intros H. apply mem_string_In in H. congruence. }
      destruct (IH (filename_of c :: seen)) as [Hl [Hd [Hn Hall]]].
      cbn [List.length map source_name]. repeat split.
      * lia.
      * constructor; [reflexivity | exact Hd].
      * constructor; [|exact Hn].
        intros H. destruct (Hall _ H) as [_ [Hns _]]. apply Hns. now left.
      * destruct H as [<- | H]; [exact Hu | exact (proj1 (Hall _ H))].
      * destruct H as [<- | H]; [exact Hs'|].
        destruct (Hall _ H) as [_ [Hns _]]. intros Hin. apply Hns. now right.
      * destruct H as [<- | H]; [exists c; split; [now left | reflexivity]|].
        destruct (Hall _ H) as [_ [_ [c' [Hc' ->]]]].
        exists c'. split; [now right | reflexivity].
    + destruct (IH seen) as [Hl [Hd [Hn Hall]]]. repeat split; auto.
      * cbn [List.length]. lia.
      * exact (proj1 (Hall _ H)).
      * exact (proj1 (proj2 (Hall _ H))).
      * destruct (Hall _ H) as [_ [_ [c' [Hc' ->]]]].
        exists c'. split; [now right | reflexivity].
Qed.

(** X3. [_extract_sources] lists at most three document sources, taken
    from the first three chunks, with pairwise distinct file names none of
    which is "Unknown", followed by the first three web links in their
    order: never more than six sources. *)
Theorem sources_bounded_and_distinct round3 (chunks : list Chunk)
        (web_links : list Link) :
  exists docs,
    _extract_sources round3 chunks web_links
    = (docs ++ map (fun l => WebSource (title l) (url l) (snippet l))
                   (firstn 3 web_links))%list
    /\ List.length docs <= Nat.min 3 (List.length chunks)
    /\ Forall (fun s => is_web_source s = false) docs
    /\ NoDup (map source_name docs)
    /\ ~ In "Unknown" (map source_name docs)
    /\ (forall s, In s docs ->
                  exists c, In c (firstn 3 chunks)
                            /\ source_name s = filename_of c)
    /\ List.length (_extract_sources round3 chunks web_links) <= 6.
Proof.
  destruct (doc_sources_spec round3 [] (Py.ltake 3 chunks))
    as [Hl [Hd [Hn Hall]]].
  unfold Py.ltake in *. rewrite length_firstn in Hl.
  exists (doc_sources round3 [] (firstn 3 chunks)). repeat split; auto.
  - intros H. exact (proj1 (Hall _ H) eq_refl).
  - intros s Hs. destruct (Hall (source_name s) (in_map _ _ _ Hs))
      as [_ [_ [c [Hc ->]]]]. now exists c.
  - unfold _extract_sources, Py.ltake.
    rewrite length_app, length_map, length_firstn. lia.
Qed.

(* ================================================================= *)
(** ** Web result parsing *)

Lemma organic_entry_spec (r : Organic) (l : Link) (t : string) :
  organic_entry r = Some (l, t) ->
  String.length (snippet l) <= 203 /\ title l <> "" /\ url l <> "".
Proof.
  unfold organic_entry.
  destruct (Py.truthy (opt_str (o_link r) "")) eqn:Hl; [|discriminate].
  destruct (Py.truthy (opt_str (o_title r) "")) eqn:Ht; [|discriminate].
  cbn [andb]. intros H. inversion H; subst; clear H. cbn [snippet title url].
  split; [|split].
  - destruct (200 <? String.length (opt_str (o_snippet r) "")) eqn:Hs.
    + rewrite length_append. pose proof (length_take 200 (opt_str (o_snippet r) "")).
      simpl. lia.
    + apply Nat.ltb_ge in Hs. lia.
  - intros H. rewrite H in Ht. discriminate.
  - intros H. rewrite H in Hl. discriminate.
Qed.

Lemma organic_entries_spec (rs : list Organic) :
  List.length (organic_entries rs) <= List.length rs
  /\ Forall (fun l => String.length (snippet l) <= 203
                      /\ title l <> "" /\ url l <> "")
            (map fst (organic_entries rs)).
Proof.
  induction rs as [|r rs [IHl IHf]]; [split; [simpl; lia | constructor]|].
  cbn [organic_entries]. destruct (organic_entry r) as [[l t]|] eqn:Hr.
  - split; [simpl; lia|]. constructor; [|exact IHf].
    exact (organic_entry_spec r l t Hr).
  - split; [simpl; lia | exact IHf].
Qed.

(** X4. [_parse_web_results] always returns both keys; it keeps at most
    five links (three organic results, the answer box, the knowledge
    graph), each with a snippet of at most 203 characters; without answer
    box and knowledge graph there are at most three links, each with a
    non-empty title and a non-empty URL. *)
Theorem parsed_links_bounded (data : RawResults) :
  exists ls t,
    links (_parse_web_results data) = Some ls
    /\ web_text (_parse_web_results data) = Some t
    /\ List.length ls <= 5
    /\ Forall (fun l => String.length (snippet l) <= 203) ls
    /\ (answerBox data = None -> knowledgeGraph data = None ->
        List.length ls <= 3
        /\ Forall (fun l => title l <> "" /\ url l <> "") ls).
Proof.
  unfold _parse_web_results.
  set (entries := match organic data with
                  | Some rs => organic_entries (Py.ltake 3 rs)
                  | None => []
                  end).
  assert (He : List.length (map fst entries) <= 3
               /\ Forall (fun l => String.length (snippet l) <= 203
                                   /\ title l <> "" /\ url l <> "")
                         (map fst entries)).
  { unfold entries. destruct (organic data) as [rs|]; [|split; [simpl; lia | constructor]].
    destruct (organic_entries_spec (Py.ltake 3 rs)) as [Hl Hf].
    unfold Py.ltake in *. rewrite length_firstn in Hl.
    rewrite length_map. split; [lia | exact Hf]. }
  destruct He as [Hlen Hall].
  assert (Hsn : Forall (fun l => String.length (snippet l) <= 203)
                       (map fst entries)).
  { eapply Forall_impl; [|exact Hall]. intros l H; exact (proj1 H). }
  assert (Hnm : Forall (fun l => title l <> "" /\ url l <> "")
                       (map fst entries)).
  { eapply Forall_impl; [|exact Hall]. intros l H; exact (proj2 H). }
  assert (Htake : forall s, String.length (Py.take 200 s) <= 203).
  { intros s. pose proof (length_take 200 s). lia. }
  destruct (answerBox data) as [answer|]; destruct (knowledgeGraph data) as [kg|];
    repeat match goal with
      | |- context [match ?x with _ => _ end] =>
          match x with
          | ab_link _ => destruct x
          | ab_answer _ => destruct x
          | kg_title _ => destruct x
          | kg_description _ => destruct x
          | kg_website _ => destruct x
          end
      end;
    eexists _, _; (split; [reflexivity|]); (split; [reflexivity|]);
    (split; [cbn [List.length]; lia|]);
    (split; [repeat (constructor; [cbn [snippet]; apply Htake|]); exact Hsn|]);
    try (intros; discriminate); intros _ _; split; [exact Hlen | exact Hnm].
Qed.

(* ================================================================= *)
(** ** Conversation history *)

Lemma set_last_response_messages (r : string) (h : list Exchange) :
  map ex_message (set_last_response r h) = map ex_message h.
Proof.
  induction h as [|e h IH]; [reflexivity|].
  destruct h as [|e' h]; [reflexivity|].
  change (set_last_response r (e :: e' :: h))
    with (e :: set_last_response r (e' :: h)).
  cbn [map] in *. now rewrite IH.
Qed.

Lemma add_row_messages (h : list Exchange) (row : MessageRow) :
  map ex_message (add_row h row) = (map ex_message h ++ user_texts [row])%list.
Proof.
  unfold add_row, user_texts. cbn [filter].
  destruct (sender row) as [s|]; [|cbn; now rewrite app_nil_r].
  destruct (String.eqb s "user") eqn:Hu.
  - rewrite map_app. reflexivity.
  - cbn [map]. rewrite app_nil_r.
    destruct (String.eqb s "bot"); [|reflexivity].
    destruct h; [reflexivity | apply set_last_response_messages].
Qed.

Lemma user_texts_app (a b : list MessageRow) :
  user_texts (a ++ b) = (user_texts a ++ user_texts b)%list.
Proof. unfold user_texts. now rewrite filter_app, map_app. Qed.

Lemma fold_add_row_messages (rows : list MessageRow) (h : list Exchange) :
  map ex_message (fold_left add_row rows h)
  = (map ex_message h ++ user_texts rows)%list.
Proof.
  revert h; induction rows as [|row rows IH]; intros h.
  - cbn. now rewrite app_nil_r.
  - cbn [fold_left]. rewrite IH, add_row_messages, <- app_assoc.
    now rewrite <- user_texts_app.
Qed.

Lemma set_last_response_snoc (r : string) (h : list Exchange) (e : Exchange) :
  set_last_response r (h ++ [e])
  = (h ++ [{| ex_message := ex_message e; ex_response := r |}])%list.
Proof.
  induction h as [|x h IH]; [reflexivity|].
  cbn [app]. destruct (h ++ [e])%list as [|y l] eqn:Hl.
  - destruct h; discriminate.
  - change (set_last_response r (x :: y :: l))
      with (x :: set_last_response r (y :: l)).
    now rewrite IH.
Qed.

Lemma fold_add_row_pending (rows : list MessageRow) (h : list Exchange)
      (e : Exchange) :
  fold_left add_row rows (h ++ [e])%list
  = (h ++ {| ex_message := ex_message e;
             ex_response := reply_in rows (ex_response e) |}
       :: exchanges_of rows)%list.
Proof.
  revert h e; induction rows as [|r rows IH]; intros h e.
  - destruct e; reflexivity.
  - cbn [fold_left reply_in exchanges_of]. unfold add_row at 2, sent_by.
    destruct (sender r) as [s|].
    + destruct (String.eqb s "user").
      * rewrite IH, <- app_assoc. destruct e; reflexivity.
      * destruct (String.eqb s "bot"); [|apply IH].
        destruct (h ++ [e])%list as [|y l] eqn:Hl;
          [destruct h; discriminate|].
        rewrite <- Hl, set_last_response_snoc. now rewrite IH.
    + apply IH.
Qed.

Lemma convert_history_exchanges (rows : list MessageRow) :
  convert_history rows = exchanges_of rows.
Proof.
  unfold convert_history. induction rows as [|r rows IH]; [reflexivity|].
  cbn [fold_left exchanges_of]. unfold add_row at 2, sent_by.
  destruct (sender r) as [s|]; [|exact IH].
  destruct (String.eqb s "user").
  - exact (fold_add_row_pending rows [] _).
  - destruct (String.eqb s "bot"); exact IH.
Qed.

(** X5. The history built from the stored rows has one exchange per user
    row, in order, with that row's text as its message; its response is
    the text of the last row of the bot that follows before the next user
    row, and empty when there is none. A bot row that precedes every user
    row is dropped, and rows of any other sender are ignored. *)
Theorem history_has_one_exchange_per_user_row (rows : list MessageRow) :
  convert_history rows = exchanges_of rows
  /\ map ex_message (convert_history rows) = user_texts rows
  /\ List.length (convert_history rows) = List.length (user_texts rows).
Proof.
  assert (H : map ex_message (convert_history rows) = user_texts rows).
  { unfold convert_history. now rewrite fold_add_row_messages. }
  split; [apply convert_history_exchanges|].
  split; [exact H|]. rewrite <- H. now rewrite length_map.
Qed.

Lemma history_has_one_exchange_per_user_row_witness :
  convert_history
    [bot_row "Welcome"; user_row "q1"; bot_row "draft"; bot_row "a1";
     {| sender := Some "system"; row_text := Some "note" |};
     user_row "q2"; user_row "q3"; bot_row "a3"]
  = [{| ex_message := "q1"; ex_response := "a1" |};
     {| ex_message := "q2"; ex_response := "" |};
     {| ex_message := "q3"; ex_response := "a3" |}].
Proof.
  rewrite (proj1 (history_has_one_exchange_per_user_row _)). reflexivity.
Defined.

(* ================================================================= *)
(** ** Conversation titles *)

Lemma length_lstrip (p : ascii -> bool) (s : string) :
  String.length (Py.lstrip_by p s) <= String.length s.
Proof.
  induction s as [|c s IH]; simpl; [lia|]. destruct (p c); simpl; lia.
Qed.

Lemma length_rstrip (p : ascii -> bool) (s : string) :
  String.length (Py.rstrip_by p s) <= String.length s.
Proof.
  induction s as [|c s IH]; [simpl; lia|].
  destruct (rstrip_cons p c s) as [[-> _] | ->]; simpl; lia.
Qed.

Lemma length_strip (s : string) :
  String.length (Py.strip s) <= String.length s.
Proof.
  unfold Py.strip, Py.strip_by.
  pose proof (length_rstrip Py.isspace (Py.lstrip_by Py.isspace s)).
  pose proof (length_lstrip Py.isspace s). lia.
Qed.

Lemma length_take_exact (n : nat) (s : string) :
  n <= String.length s -> String.length (Py.take n s) = n.
Proof.
  unfold Py.take. revert s; induction n as [|n IH]; intros s H.
  - destruct s; reflexivity.
  - destruct s as [|c s]; simpl in *; [lia|]. rewrite IH; [reflexivity | lia].
Qed.

(** X6. A conversation title has at most 53 characters. A first message
    of at most 50 characters gives its stripped text as the title. A
    longer one whose stripped text still has more than 50 characters gives
    the first 50 characters of the stripped text followed by "...", 53
    characters in all; and a longer one whose stripped text fits gives the
    stripped text followed by "...": the dots follow the length of the
    message as typed. *)
Theorem title_is_bounded (first_message : string) :
  String.length (_generate_conversation_title first_message) <= 53
  /\ (String.length first_message <= 50 ->
      _generate_conversation_title first_message = Py.strip first_message)
  /\ (50 < String.length first_message ->
      String.length (Py.strip first_message) <= 50 ->
      _generate_conversation_title first_message
      = Py.strip first_message ++ "...")
  /\ (50 < String.length (Py.strip first_message) ->
      _generate_conversation_title first_message
      = substring 0 50 (Py.strip first_message) ++ "..."
      /\ String.length (_generate_conversation_title first_message) = 53).
Proof.
  unfold _generate_conversation_title.
  pose proof (length_take 50 (Py.strip first_message)) as Ht.
  pose proof (length_strip first_message) as Hs.
  split; [|split; [|split]].
  - destruct (50 <? String.length first_message);
      [rewrite length_append; simpl; lia | lia].
  - intros H. apply Nat.ltb_ge in H. cbv zeta. rewrite H.
    apply take_all. apply Nat.ltb_ge in H. lia.
  - intros H Hfit. apply Nat.ltb_lt in H. cbv zeta. rewrite H.
    now rewrite take_all.
  - intros H. assert (Hl : (50 <? String.length first_message) = true)
      by (apply Nat.ltb_lt; lia).
    cbv zeta. rewrite Hl. split; [reflexivity|].
    rewrite length_append, length_take_exact by lia. reflexivity.
Qed.

Lemma title_is_bounded_witness :
  _generate_conversation_title "  How do I reset the pump?  "
  = "How do I reset the pump?"
  /\ _generate_conversation_title
       "hi                                                  "
     = "hi..."
  /\ _generate_conversation_title
       "  How do I replace the hydraulic filter on the old press machine?"
     = "How do I replace the hydraulic filter on the old p..."
  /\ String.length
       (_generate_conversation_title
          "  How do I replace the hydraulic filter on the old press machine?")
     = 53.
Proof.
  destruct (title_is_bounded "  How do I reset the pump?  ") as [_ [H1 _]].
  destruct (title_is_bounded
              "hi                                                  ")
    as [_ [_ [H2 _]]].
  destruct (title_is_bounded
              "  How do I replace the hydraulic filter on the old press machine?")
    as [_ [_ [_ H3]]].
  split; [rewrite H1; [reflexivity | simpl; lia]|].
  split; [rewrite H2; [reflexivity | simpl; lia | simpl; lia]|].
  assert (H : 50 < String.length
                     (Py.strip "  How do I replace the hydraulic filter on the old press machine?"))
    by (vm_compute; lia).
  destruct (H3 H) as [H4 H5].
  split; [rewrite H4; reflexivity | exact H5].
Defined.

(* ================================================================= *)
(** ** The confidence evaluator, continued *)

Lemma length_filter_le {A} (f : A -> bool) (l : list A) :
  List.length (filter f l) <= List.length l.
Proof.
  induction l as [|a l IH]; simpl; [lia|]. destruct (f a); simpl; lia.
Qed.

(** X7. [_evaluate_kb_confidence] asks for a web search exactly when the
    confidence it returns is below 0.7; and with fewer than two chunks and
    less than 500 characters of text in total it always asks for one. *)
Theorem web_search_iff_low_confidence (chunks : list Chunk) (query : string) :
  should_search_web (_evaluate_kb_confidence chunks query)
  = negb (Py.fge (confidence (_evaluate_kb_confidence chunks query)) 0.7%float)
  /\ (List.length chunks < 2 -> total_text_length chunks < 500 ->
      should_search_web (_evaluate_kb_confidence chunks query) = true).
Proof.
  destruct chunks as [|c chunks]; [split; reflexivity|].
  unfold _evaluate_kb_confidence. cbv zeta.
  pose proof (length_filter_le (fun c => Py.fge (score_of c) 0.8%float)
                               (c :: chunks)) as Hh.
  fold (high_confidence (c :: chunks)) in Hh.
  split.
  - destruct (Py.fge _ 0.8%float && _); [reflexivity|].
    destruct (Py.fge _ 0.6%float && _); [reflexivity|].
    destruct (Py.fge _ 0.4%float); reflexivity.
  - intros Hn Ht.
    replace (2 <=? List.length (high_confidence (c :: chunks))) with false
      by (symmetry; apply Nat.leb_gt; lia).
    replace (500 <=? total_text_length (c :: chunks)) with false
      by (symmetry; apply Nat.leb_gt; lia).
    rewrite !andb_false_r.
    destruct (Py.fge _ 0.4%float); reflexivity.
Qed.

Lemma web_search_iff_low_confidence_witness :
  should_search_web
    (_evaluate_kb_confidence [Sample.chunk 0.95%float "Press reset" "m.pdf"]
                             "reset") = true.
Proof.
  apply (proj2 (web_search_iff_low_confidence
                  [Sample.chunk 0.95%float "Press reset" "m.pdf"] "reset"));
    [simpl; lia | vm_compute; lia].
Defined.

(* ================================================================= *)
(** ** Splitting and joining *)

Lemma split_on_nonempty (sep : ascii) (s : string) : Py.split_on sep s <> [].
Proof.
  destruct s as [|c s]; simpl; [discriminate|].
  destruct (Ascii.eqb c sep); [discriminate|].
  destruct (Py.split_on sep s); discriminate.
Qed.

Lemma split_on_app (sep : ascii) (a b : string) :
  Py.split_on sep (a ++ String sep b)
  = (Py.split_on sep a ++ Py.split_on sep b)%list.
Proof.
  induction a as [|c a IH]; simpl.
  - now rewrite Ascii.eqb_refl.
  - destruct (Ascii.eqb c sep); [now rewrite IH|].
    rewrite IH. pose proof (split_on_nonempty sep a) as Hne.
    destruct (Py.split_on sep a) as [|w ws]; [congruence | reflexivity].
Qed.

Lemma split_on_free (sep : ascii) (s : string) :
  Py.mem_char sep s = false -> Py.split_on sep s = [s].
Proof.
  induction s as [|c s IH]; simpl; [reflexivity|].
  rewrite Ascii.eqb_sym. destruct (Ascii.eqb c sep); simpl; [discriminate|].
  intros H. now rewrite (IH H).
Qed.

Lemma concat_cons (sep a : string) (l : list string) :
  l <> [] -> concat sep (a :: l) = a ++ sep ++ concat sep l.
Proof. destruct l; [congruence | reflexivity]. Qed.

Lemma join_split_on (sep : ascii) (s : string) :
  Py.join (String sep "") (Py.split_on sep s) = s.
Proof.
  unfold Py.join. induction s as [|c s IH]; [reflexivity|].
  pose proof (split_on_nonempty sep s) as Hne.
  cbn [Py.split_on]. destruct (Ascii.eqb_spec c sep) as [->|_].
  - rewrite concat_cons by exact Hne. now rewrite IH.
  - destruct (Py.split_on sep s) as [|w ws]; [congruence|].
    destruct ws as [|w' ws].
    + cbn [concat] in *. now rewrite IH.
    + rewrite concat_cons by discriminate.
      rewrite concat_cons in IH by discriminate.
      rewrite <- IH. reflexivity.
Qed.

Lemma uint_colon_free (d : Decimal.uint) :
  colon_free (NilEmpty.string_of_uint d).
Proof. unfold colon_free. induction d; simpl; auto. Qed.

Lemma str_of_int_colon_free (z : Z) : colon_free (Py.str_of_int z).
Proof.
  unfold Py.str_of_int, NilZero.string_of_int, NilZero.string_of_uint, colon_free.
  destruct (Z.to_int z) as [d|d]; destruct d; simpl; auto;
    apply uint_colon_free.
Qed.

Lemma str_of_int_inj (z1 z2 : Z) :
  Py.str_of_int z1 = Py.str_of_int z2 -> z1 = z2.
Proof.
  unfold Py.str_of_int. intros H.
  assert (Hn : forall z, Z.to_int z <> Decimal.Pos Decimal.Nil
                         /\ Z.to_int z <> Decimal.Neg Decimal.Nil).
  { intros [|p|p]; simpl; split; try discriminate;
      intros E; injection E; apply DecimalPos.Unsigned.to_uint_nonnil. }
  assert (E : Some (Z.to_int z1) = Some (Z.to_int z2)).
  { rewrite <- (NilZero.isi (Z.to_int z1)) by apply Hn.
    rewrite <- (NilZero.isi (Z.to_int z2)) by apply Hn. now rewrite H. }
  injection E as E.
  rewrite <- (DecimalZ.of_to z1), <- (DecimalZ.of_to z2). now rewrite E.
Qed.

(* ================================================================= *)
(** ** Cache keys *)

Lemma cache_key_parts (agent_id : option string) (query : string) (top_k : Z) :
  colon_free (scope_of agent_id) ->
  Py.split_on ":"%char (cache_key agent_id query top_k)
  = (scope_of agent_id
     :: Py.split_on ":"%char (Py.strip (Py.lower query))
     ++ [Py.str_of_int top_k])%list.
Proof.
  intros Hs. unfold cache_key. fold (scope_of agent_id).
  change (scope_of agent_id ++ ":" ++ Py.strip (Py.lower query) ++ ":"
          ++ Py.str_of_int top_k)
    with (scope_of agent_id
          ++ String ":" (Py.strip (Py.lower query)
                         ++ String ":" (Py.str_of_int top_k))).
  rewrite !split_on_app, (split_on_free _ _ Hs),
    (split_on_free _ _ (str_of_int_colon_free top_k)).
  reflexivity.
Qed.

Lemma cached_query_round_trip_parts (agent_id : option string)
      (query : string) (top_k : Z) :
  colon_free (scope_of agent_id) ->
  cached_query_of (cache_key agent_id query top_k) = Py.strip (Py.lower query)
  /\ 3 <= List.length (Py.split_on ":"%char (cache_key agent_id query top_k)).
Proof.
  intros Hs. split.
  - unfold cached_query_of. rewrite (cache_key_parts _ _ _ Hs).
    cbn [tl]. rewrite removelast_last. apply join_split_on.
  - rewrite (cache_key_parts _ _ _ Hs). cbn [List.length].
    rewrite length_app. cbn [List.length].
    pose proof (split_on_nonempty ":"%char (Py.strip (Py.lower query))) as H.
    destruct (Py.split_on ":"%char (Py.strip (Py.lower query)));
      [congruence | simpl; lia].
Qed.

(** X8. For a scope without a colon, the query that
    [_find_similar_cached_query] reads back from a cache key is the
    normalized query the key was built from, colons included, and the key
    starts with the scope prefix and splits into at least three parts. *)
Theorem cached_query_round_trip (agent_id : option string) (query : string)
        (top_k : Z) :
  colon_free (scope_of agent_id) ->
  cached_query_of (cache_key agent_id query top_k) = Py.strip (Py.lower query)
  /\ String.prefix (scope_of agent_id ++ ":")
                   (cache_key agent_id query top_k) = true
  /\ 3 <= List.length (Py.split_on ":"%char (cache_key agent_id query top_k)).
Proof.
  intros Hs.
  destruct (cached_query_round_trip_parts agent_id query top_k Hs) as [H1 H3].
  split; [exact H1|]. split; [|exact H3].
  apply prefix_spec. unfold cache_key. fold (scope_of agent_id).
  exists (Py.strip (Py.lower query) ++ ":" ++ Py.str_of_int top_k).
  now rewrite !append_assoc.
Qed.

Lemma cached_query_round_trip_witness :
  cached_query_of (cache_key (Some "pumps") " Error E:12 on Start " 5%Z)
  = "error e:12 on start".
Proof.
  rewrite (proj1 (cached_query_round_trip (Some "pumps")
                    " Error E:12 on Start " 5%Z eq_refl)).
  reflexivity.
Defined.

(** X9. Cache keys of colon-free scopes never collide: two keys are equal
    only if the scopes, the normalized queries and the depths are equal. *)
Theorem cache_key_injective (a1 a2 : option string) (q1 q2 : string)
        (k1 k2 : Z) :
  colon_free (scope_of a1) -> colon_free (scope_of a2) ->
  cache_key a1 q1 k1 = cache_key a2 q2 k2 ->
  scope_of a1 = scope_of a2
  /\ Py.strip (Py.lower q1) = Py.strip (Py.lower q2)
  /\ k1 = k2.
Proof.
  intros H1 H2 Hk.
  pose proof (cache_key_parts a1 q1 k1 H1) as P1.
  pose proof (cache_key_parts a2 q2 k2 H2) as P2.
  rewrite Hk, P2 in P1. injection P1 as Hs Hrest.
  apply app_inj_tail in Hrest. destruct Hrest as [Hq Hd].
  split; [auto|]. split.
  - rewrite <- (join_split_on ":"%char (Py.strip (Py.lower q1))),
      <- (join_split_on ":"%char (Py.strip (Py.lower q2))). now rewrite Hq.
  - apply str_of_int_inj. auto.
Qed.

Lemma cache_key_injective_witness :
  cache_key None "Reset pump" 3%Z = cache_key (Some "") " reset PUMP " 3%Z
  /\ scope_of None = scope_of (Some "").
Proof.
  assert (H : cache_key None "Reset pump" 3%Z
              = cache_key (Some "") " reset PUMP " 3%Z) by reflexivity.
  split; [exact H|].
  exact (proj1 (cache_key_injective None (Some "") "Reset pump" " reset PUMP "
                  3%Z 3%Z eq_refl eq_refl H)).
Defined.

(* ================================================================= *)
(** ** The semantic cache helpers *)

Lemma set_intersection_length (a b : list string) :
  NoDup a -> NoDup b ->
  List.length (set_intersection a b) = List.length (set_intersection b a).
Proof.
  intros Ha Hb. apply Permutation_length, NoDup_Permutation.
  - now apply NoDup_filter.
  - now apply NoDup_filter.
  - intros x. unfold set_intersection.
    rewrite !filter_In, !mem_string_In. tauto.
Qed.

Lemma set_union_In (a b : list string) (x : string) :
  In x (set_union a b) <-> In x a \/ In x b.
Proof.
  unfold set_union. rewrite in_app_iff, filter_In, negb_true_iff.
  destruct (mem_string x a) eqn:Hm.
  - apply mem_string_In in Hm. split; [intros [H | [_ H]]; auto; discriminate | auto].
  - split; [tauto|]. intros [H | H]; [now left | right; auto].
Qed.

Lemma set_union_NoDup (a b : list string) :
  NoDup a -> NoDup b -> NoDup (set_union a b).
Proof.
  intros Ha Hb. unfold set_union. apply NoDup_app; [exact Ha | now apply NoDup_filter|].
  intros x Hx H. apply filter_In in H. destruct H as [_ H].
  apply negb_true_iff in H. apply mem_string_In in Hx. congruence.
Qed.

Lemma set_union_length (a b : list string) :
  NoDup a -> NoDup b ->
  List.length (set_union a b) = List.length (set_union b a).
Proof.
  intros Ha Hb. apply Permutation_length, NoDup_Permutation.
  - now apply set_union_NoDup.
  - now apply set_union_NoDup.
  - intros x. rewrite !set_union_In. tauto.
Qed.

(** X10. The word-overlap similarity is symmetric in its two queries, and
    it is 0.0 as soon as one of them has no word. *)
Theorem similarity_symmetric (query1 query2 : string) :
  _calculate_query_similarity query1 query2
  = _calculate_query_similarity query2 query1
  /\ (Py.split (Py.lower query1) = [] \/ Py.split (Py.lower query2) = [] ->
      _calculate_query_similarity query1 query2 = 0.0%float).
Proof.
  unfold _calculate_query_similarity. cbv zeta.
  pose proof (NoDup_nodup string_dec (Py.split (Py.lower query1))) as N1.
  pose proof (NoDup_nodup string_dec (Py.split (Py.lower query2))) as N2.
  fold (set_of (Py.split (Py.lower query1))) in N1 |- *.
  fold (set_of (Py.split (Py.lower query2))) in N2 |- *.
  split.
  - pose proof (set_intersection_length _ _ N1 N2) as Hi.
    pose proof (set_union_length _ _ N1 N2) as Hu.
    destruct (set_of (Py.split (Py.lower query1))) as [|x xs] eqn:E1;
      destruct (set_of (Py.split (Py.lower query2))) as [|y ys] eqn:E2;
      try reflexivity.
    rewrite Hi, Hu.
    destruct (set_union (x :: xs) (y :: ys)) eqn:U1; [discriminate|].
    destruct (set_union (y :: ys) (x :: xs)) eqn:U2; [discriminate|].
    reflexivity.
  - intros [H | H]; unfold set_of at 1 2; rewrite H; cbn [nodup];
      [reflexivity|].
    now destruct (nodup string_dec (Py.split (Py.lower query1))).
Qed.

Lemma similarity_symmetric_witness :
  Py.split (Py.lower "   ") = []
  /\ _calculate_query_similarity "   " "reset pump" = 0.0%float.
Proof.
  split; [reflexivity|].
  apply (proj2 (similarity_symmetric "   " "reset pump")). now left.
Defined.

Lemma prefix_scope (scope scope' rest : string) :
  colon_free scope -> colon_free scope' ->
  String.prefix (scope ++ ":") (scope' ++ String ":" rest) = true ->
  scope' = scope.
Proof.
  intros Hs Hs' Hp. apply prefix_spec in Hp. destruct Hp as [post Hp].
  assert (H : Py.split_on ":"%char (scope' ++ String ":" rest)
              = Py.split_on ":"%char (scope ++ String ":" post)).
  { rewrite Hp. now rewrite append_assoc. }
  rewrite !split_on_app, (split_on_free _ _ Hs), (split_on_free _ _ Hs') in H.
  now injection H.
Qed.

(** X11. A key returned by [_find_similar_cached_query] is a key of the
    cache that starts with the scope string asked for (the agent id, or
    "global") and a colon, has at least three parts, and whose query part
    reaches the similarity threshold 0.85 with the normalized query asked
    for. When the key was built by [cache_key] and the scope strings hold
    no colon, its scope string is the one asked for and its query part is
    the normalized query it was built from. Scope strings carry no user
    id, and the scope string of an agent named "global" is that of the
    global scope. *)
Theorem similar_key_stays_in_scope (cache : Cache) (query : string)
        (agent_id : option string) :
  (forall key,
      _find_similar_cached_query cache query agent_id = Some key ->
      In key (keys cache)
      /\ String.prefix (scope_of agent_id ++ ":") key = true
      /\ 3 <= List.length (Py.split_on ":"%char key)
      /\ PrimFloat.leb 0.85%float
           (_calculate_query_similarity (Py.strip (Py.lower query))
                                        (cached_query_of key)) = true)
  /\ (forall agent_id' query' top_k,
      colon_free (scope_of agent_id) -> colon_free (scope_of agent_id') ->
      _find_similar_cached_query cache query agent_id
      = Some (cache_key agent_id' query' top_k) ->
      scope_of agent_id' = scope_of agent_id
      /\ PrimFloat.leb 0.85%float
           (_calculate_query_similarity (Py.strip (Py.lower query))
                                        (Py.strip (Py.lower query'))) = true)
  /\ scope_of (Some "global") = scope_of None.
Proof.
  assert (Hkey : forall key,
             _find_similar_cached_query cache query agent_id = Some key ->
             In key (keys cache)
             /\ String.prefix (scope_of agent_id ++ ":") key = true
             /\ 3 <= List.length (Py.split_on ":"%char key)
             /\ PrimFloat.leb 0.85%float
                  (_calculate_query_similarity (Py.strip (Py.lower query))
                                               (cached_query_of key)) = true).
  { intros key Hfind. unfold _find_similar_cached_query in Hfind.
    fold (scope_of agent_id) in Hfind. cbv zeta in Hfind.
    apply find_some in Hfind. destruct Hfind as [Hin Hk].
    unfold similar_key in Hk. apply andb_true_iff in Hk.
    destruct Hk as [Hk Hsim]. apply andb_true_iff in Hk.
    destruct Hk as [Hp Hparts]. apply Nat.leb_le in Hparts.
    repeat split; assumption. }
  split; [exact Hkey|]. split; [|reflexivity].
  intros agent_id' query' top_k Hs Hs' Hfind.
  destruct (Hkey _ Hfind) as [_ [Hp [_ Hsim]]]. split.
  - unfold cache_key in Hp. fold (scope_of agent_id') in Hp.
    exact (prefix_scope _ _ _ Hs Hs' Hp).
  - rewrite (proj1 (cached_query_round_trip_parts agent_id' query' top_k Hs'))
      in Hsim. exact Hsim.
Qed.

Lemma similar_key_stays_in_scope_witness :
  _find_similar_cached_query
    [(cache_key (Some "lathe") "spindle speed" 3%Z, []);
     (cache_key (Some "pumps") "reset pump" 3%Z, [])]
    " Pump  RESET " (Some "pumps")
  = Some (cache_key (Some "pumps") "reset pump" 3%Z)
  /\ In (cache_key (Some "pumps") "reset pump" 3%Z)
        (keys [(cache_key (Some "lathe") "spindle speed" 3%Z, []);
               (cache_key (Some "pumps") "reset pump" 3%Z, [])])
  /\ scope_of (Some "pumps") = "pumps"
  /\ PrimFloat.leb 0.85%float
       (_calculate_query_similarity (Py.strip (Py.lower " Pump  RESET "))
                                    (Py.strip (Py.lower "reset pump")))
     = true.
Proof.
  assert (H : _find_similar_cached_query
                [(cache_key (Some "lathe") "spindle speed" 3%Z, []);
                 (cache_key (Some "pumps") "reset pump" 3%Z, [])]
                " Pump  RESET " (Some "pumps")
              = Some (cache_key (Some "pumps") "reset pump" 3%Z))
    by (vm_compute; reflexivity).
  destruct (similar_key_stays_in_scope
              [(cache_key (Some "lathe") "spindle speed" 3%Z, []);
               (cache_key (Some "pumps") "reset pump" 3%Z, [])]
              " Pump  RESET " (Some "pumps")) as [H1 [H2 _]].
  destruct (H1 _ H) as [Hin _].
  destruct (H2 (Some "pumps") "reset pump" 3%Z eq_refl eq_refl H)
    as [Hscope Hsim].
  split; [exact H|]. split; [exact Hin|]. split; [exact Hscope | exact Hsim].
Defined.

(* ================================================================= *)
(** ** The calls of a computation *)

Lemma Subseq_nil_l {A} (p : list A) : Subseq [] p.
Proof. induction p; [apply Subseq_nil | now apply Subseq_skip]. Qed.

Lemma Subseq_refl {A} (p : list A) : Subseq p p.
Proof. induction p; [apply Subseq_nil | now apply Subseq_take]. Qed.

Lemma Subseq_app {A} (l1 p1 l2 p2 : list A) :
  Subseq l1 p1 -> Subseq l2 p2 -> Subseq (l1 ++ l2) (p1 ++ p2).
Proof.
  intros H1 H2. induction H1; simpl;
    [exact H2 | now apply Subseq_skip | now apply Subseq_take].
Qed.

Lemma Subseq_app_l {A} (l p q : list A) : Subseq l p -> Subseq l (p ++ q).
Proof.
  intros H. rewrite <- (app_nil_r l). apply Subseq_app; [exact H|].
  apply Subseq_nil_l.
Qed.

Lemma Subseq_length_filter {A} (f : A -> bool) (l p : list A) :
  Subseq l p -> List.length (filter f l) <= List.length (filter f p).
Proof.
  intros H. induction H; simpl; [lia | |]; destruct (f x); simpl; lia.
Qed.

Section Within.

Lemma within_ret (p : list Kind) {A} (a : A) : calls_within p (M.ret a).
Proof.
  intros w. exists []. simpl. rewrite app_nil_r. split; [reflexivity|].
  apply Subseq_nil_l.
Qed.

Lemma within_raise (p : list Kind) {A} (e : exn) :
  calls_within p (@M.raise A e).
Proof.
  intros w. exists []. simpl. rewrite app_nil_r. split; [reflexivity|].
  apply Subseq_nil_l.
Qed.

Lemma within_get_cache (p : list Kind) : calls_within p M.get_cache.
Proof.
  intros w. exists []. simpl. rewrite app_nil_r. split; [reflexivity|].
  apply Subseq_nil_l.
Qed.

Lemma within_set_cache (p : list Kind) (c : Cache) :
  calls_within p (M.set_cache c).
Proof.
  intros w. exists []. simpl. rewrite app_nil_r. split; [reflexivity|].
  apply Subseq_nil_l.
Qed.

Lemma within_at_step (p : list Kind) {A} (E : Env) (s : Step) (v : A) :
  calls_within p (at_step E s v).
Proof.
  unfold at_step. destruct (fault E s); [apply within_raise | apply within_ret].
Qed.

Lemma within_call {A} (c : Call) (r : result A) :
  calls_within [kind_of c] (M.call c r).
Proof.
  intros w. exists [c]. split; [reflexivity | apply Subseq_refl].
Qed.

Lemma within_bind (p1 p2 : list Kind) {A B} (m : M.t A) (k : A -> M.t B) :
  calls_within p1 m -> (forall a, calls_within p2 (k a)) ->
  calls_within (p1 ++ p2) (M.bind m k).
Proof.
  intros Hm Hk w. unfold M.bind. destruct (Hm w) as [t1 [E1 S1]].
  destruct (m w) as [[a|e] w1]; simpl in *.
  - destruct (Hk a w1) as [t2 [E2 S2]]. exists (t1 ++ t2)%list.
    rewrite E2, E1, app_assoc, map_app. split; [reflexivity|].
    now apply Subseq_app.
  - exists t1. split; [exact E1 | now apply Subseq_app_l].
Qed.

Lemma within_try (p1 p2 : list Kind) {A} (m : M.t A) (h : exn -> M.t A) :
  calls_within p1 m -> (forall e, calls_within p2 (h e)) ->
  calls_within (p1 ++ p2) (M.try_except m h).
Proof.
  intros Hm Hh w. unfold M.try_except. destruct (Hm w) as [t1 [E1 S1]].
  destruct (m w) as [[a|e] w1]; simpl in *.
  - exists t1. split; [exact E1 | now apply Subseq_app_l].
  - destruct (Hh e w1) as [t2 [E2 S2]]. exists (t1 ++ t2)%list.
    rewrite E2, E1, app_assoc, map_app. split; [reflexivity|].
    now apply Subseq_app.
Qed.

End Within.

(** Computations that call no collaborator. *)
Ltac within_pure :=
  repeat first
    [ apply within_ret | apply within_raise | apply within_get_cache
    | apply within_set_cache | apply within_at_step
    | apply (within_bind [] []); [|intros ?]
    | match goal with
      | |- calls_within _ (match ?x with _ => _ end) => destruct x
      | |- calls_within _ (if ?b then _ else _) => destruct b
      end ].

Lemma kind_of_search_call query agent_id top_k user_id :
  kind_of (search_call query agent_id top_k user_id) = KSearch.
Proof.
  unfold search_call. destruct agent_id as [a|]; [destruct (Py.truthy a)|];
    reflexivity.
Qed.

Lemma within_load_history E conversation_id :
  calls_within [KMessages] (load_history E conversation_id).
Proof.
  unfold load_history, get_conversation_history.
  destruct conversation_id as [cid|]; [|apply within_ret].
  destruct (Py.truthy cid); [|apply within_ret].
  apply (within_bind [KMessages] []); [|intros ?; apply within_at_step].
  apply (within_try [KMessages] []); [apply within_call | intros ?; apply within_ret].
Qed.

Lemma within_search E query agent_id top_k user_id :
  calls_within [KSearch] (_search_knowledge_base E query agent_id top_k user_id).
Proof.
  unfold _search_knowledge_base.
  apply (within_try [KSearch] []); [|intros ?; apply within_ret].
  cbv zeta. apply (within_bind [] [KSearch]); [apply within_get_cache | intros cache].
  destruct (dict_get _ cache); [apply within_ret|].
  apply (within_bind [KSearch] []).
  - unfold perform_search.
    rewrite <- (kind_of_search_call query agent_id (depth_of query top_k) user_id).
    apply within_call.
  - intros results. unfold store. within_pure.
Qed.

Lemma within_search_web re E query :
  calls_within [KWeb] (_search_web re E query).
Proof.
  unfold _search_web. destruct (web_search_tool E); [|apply within_ret].
  apply (within_try [KWeb] []); [|intros ?; apply within_ret].
  cbv zeta. apply (within_bind [KWeb] []); [apply within_call | intros ?; apply within_ret].
Qed.

Lemma within_assemble re E message history chunks :
  calls_within [KWeb] (assemble re E message history chunks).
Proof.
  unfold assemble.
  apply (within_bind [] [KWeb]); [within_pure | intros kb_context].
  apply (within_bind [] [KWeb]); [within_pure | intros kb_confidence].
  apply (within_bind [KWeb] []); [|intros web; within_pure].
  destruct (should_search_web kb_confidence); [|apply within_ret].
  destruct (web_search_tool E); [|apply within_ret].
  apply (within_bind [KWeb] []); [apply within_search_web | intros ?; apply within_at_step].
Qed.

Lemma within_answer round3 template E g message agent_id :
  calls_within [KAgent; KLlm] (answer round3 template E g message agent_id).
Proof.
  unfold answer. destruct (negb (Py.truthy (g_context g))); [apply within_ret|].
  apply (within_bind [KAgent; KLlm] []).
  - destruct (llm E) as [invoke|]; [|apply within_ret].
    unfold llm_answer.
    apply (within_try [KAgent; KLlm] []); [|intros ?; apply within_ret].
    apply (within_bind [KAgent] [KLlm]).
    + unfold agent_instructions. destruct agent_id as [a|]; [|apply within_ret].
      destruct (Py.truthy a); [|apply within_ret].
      apply (within_bind [KAgent] []); [apply within_call | intros ?; apply within_ret].
    + intros instructions.
      apply (within_bind [] [KLlm]); [apply within_at_step | intros prompt].
      apply (within_bind [KLlm] []); [apply within_call | intros response_text].
      unfold respond_with. within_pure.
  - intros answered. unfold fallback_answer, respond_with. within_pure.
Qed.

(** X12. One call of [get_response] reaches its collaborators in a fixed
    order and each at most once: the message store, the vector search, the
    web search, the agent registry, the language model; whatever they
    answer and whichever step raises. *)
Theorem orchestrator_calls_once_in_order re round3 template E message
        conversation_id agent_id user_id (w : World) :
  exists t,
    trace (snd (get_response re round3 template E message conversation_id
                             agent_id user_id w)) = (trace w ++ t)%list
    /\ Subseq (map kind_of t) call_order
    /\ forall k, calls_of_kind k t <= 1.
Proof.
  assert (H : calls_within call_order
                (get_response re round3 template E message conversation_id
                              agent_id user_id)).
  { unfold get_response, get_response_body, gather.
    apply (within_try call_order []); [|intros ?; apply within_ret].
    apply (within_bind [KMessages; KSearch; KWeb] [KAgent; KLlm]);
      [|intros g; apply within_answer].
    apply (within_bind [KMessages] [KSearch; KWeb]);
      [apply within_load_history | intros history].
    apply (within_bind [KSearch] [KWeb]);
      [apply within_search | intros chunks; apply within_assemble]. }
  destruct (H w) as [t [Ht Hs]]. exists t. split; [exact Ht|]. split; [exact Hs|].
  intros k. unfold calls_of_kind.
  assert (Hf : forall (f : Kind -> bool),
             List.length (filter (fun c => f (kind_of c)) t)
             = List.length (filter f (map kind_of t))).
  { intros f. clear. induction t as [|c t IH]; simpl; [reflexivity|].
    destruct (f (kind_of c)); simpl; now rewrite IH. }
  pose proof (Subseq_length_filter
                (fun k' => match k', k with
                           | KMessages, KMessages | KSearch, KSearch
                           | KWeb, KWeb | KAgent, KAgent | KLlm, KLlm => true
                           | _, _ => false
                           end) _ _ Hs) as Hle.
  rewrite <- Hf in Hle. etransitivity; [exact Hle|].
  destruct k; simpl; lia.
Qed.

(* ================================================================= *)
(** ** What the orchestrator returns *)

Section Yields.

Context {A : Type} (Q : A -> Prop).

Lemma yields_ret (a : A) : Q a -> yields Q (M.ret a).
Proof. intros H w. exact H. Qed.

Lemma yields_raise (e : exn) : yields Q (@M.raise A e).
Proof. intros w. exact I. Qed.

Lemma yields_at_step (E : Env) (s : Step) (v : A) :
  Q v -> yields Q (at_step E s v).
Proof.
  intros H. unfold at_step. destruct (fault E s);
    [apply yields_raise | now apply yields_ret].
Qed.

Lemma yields_bind_post {B} (P : B -> Prop) (m : M.t B) (k : B -> M.t A) :
  yields P m -> (forall b, P b -> yields Q (k b)) -> yields Q (M.bind m k).
Proof.
  intros Hm Hk w. unfold M.bind. specialize (Hm w).
  destruct (m w) as [[b|e] w1]; simpl in *; [|exact I]. exact (Hk b Hm w1).
Qed.

Lemma yields_bind {B} (m : M.t B) (k : B -> M.t A) :
  (forall b, yields Q (k b)) -> yields Q (M.bind m k).
Proof.
  intros Hk. apply (yields_bind_post (fun _ => True)); [|auto].
  intros w. now destruct (fst (m w)).
Qed.

Lemma yields_try (m : M.t A) (h : exn -> M.t A) :
  yields Q m -> (forall e, yields Q (h e)) -> yields Q (M.try_except m h).
Proof.
  intros Hm Hh w. unfold M.try_except. specialize (Hm w).
  destruct (m w) as [[a|e] w1]; simpl in *; [exact Hm | exact (Hh e w1)].
Qed.

End Yields.

Lemma strip_starts_nonspace (c : ascii) (s : string) :
  Py.isspace c = false -> Py.strip (String c s) <> "".
Proof.
  intros Hc. unfold Py.strip, Py.strip_by. cbn [Py.lstrip_by]. rewrite Hc.
  destruct (rstrip_cons Py.isspace c s) as [[_ [H _]] | ->];
    [congruence | discriminate].
Qed.

Lemma fallback_not_blank (context query : string) (web_links : list Link) :
  Py.strip (_generate_fallback_response context query web_links) <> "".
Proof.
  unfold _generate_fallback_response.
  destruct (Py.truthy context); cbn [append];
    apply strip_starts_nonspace; reflexivity.
Qed.

Lemma extract_sources_documents round3 (chunks : list Chunk)
      (web_links : list Link) :
  filter (fun s => negb (is_web_source s))
         (_extract_sources round3 chunks web_links)
  = doc_sources round3 [] (Py.ltake 3 chunks).
Proof.
  unfold _extract_sources. rewrite filter_app.
  destruct (doc_sources_spec round3 [] (Py.ltake 3 chunks)) as [_ [Hd _]].
  assert (H1 : forall l, Forall (fun s => is_web_source s = false) l ->
                         filter (fun s => negb (is_web_source s)) l = l).
  { induction 1 as [|s l Hs _ IH]; simpl; [reflexivity|].
    now rewrite Hs, IH. }
  rewrite (H1 _ Hd).
  assert (H2 : forall l : list Link,
             filter (fun s => negb (is_web_source s))
                    (map (fun link => WebSource (title link) (url link)
                                                (snippet link)) l) = []).
  { induction l; simpl; auto. }
  now rewrite H2, app_nil_r.
Qed.

Lemma extract_sources_web round3 (chunks : list Chunk)
      (web_links : list Link) :
  filter is_web_source (_extract_sources round3 chunks web_links)
  = map (fun link => WebSource (title link) (url link) (snippet link))
        (Py.ltake 3 web_links).
Proof.
  unfold _extract_sources. rewrite filter_app.
  destruct (doc_sources_spec round3 [] (Py.ltake 3 chunks)) as [_ [Hd _]].
  assert (H1 : forall l, Forall (fun s => is_web_source s = false) l ->
                         filter is_web_source l = []).
  { induction 1 as [|s l Hs _ IH]; simpl; [reflexivity|]. now rewrite Hs. }
  rewrite (H1 _ Hd).
  assert (H2 : forall l : list Link,
             filter is_web_source
                    (map (fun link => WebSource (title link) (url link)
                                                (snippet link)) l)
             = map (fun link => WebSource (title link) (url link)
                                          (snippet link)) l).
  { induction l as [|x l IH]; simpl; [reflexivity | now rewrite IH]. }
  now rewrite H2.
Qed.

Lemma respond_with_answers round3 E (g : Gathered) (response_text : string) :
  Py.strip response_text <> "" ->
  yields (answers_from round3 g) (respond_with round3 E g response_text).
Proof.
  intros Ht. unfold respond_with.
  apply (yields_bind_post _
           (fun s => s = _extract_sources round3 (g_chunks g) (g_web_links g))).
  - now apply yields_at_step.
  - intros srcs ->. apply yields_at_step. repeat split; auto.
Qed.

Lemma blank_test (s : string) :
  negb (Py.truthy s) || (String.length (Py.strip s) =? 0) = false ->
  Py.strip s <> "".
Proof.
  intros H. apply orb_false_iff in H. destruct H as [_ H].
  apply Nat.eqb_neq in H. intros E0. now rewrite E0 in H.
Qed.

Lemma answer_answers round3 template E g message agent_id :
  yields (answers_from round3 g) (answer round3 template E g message agent_id).
Proof.
  unfold answer. destruct (negb (Py.truthy (g_context g))).
  { apply yields_ret. repeat split; auto. vm_compute. discriminate. }
  apply (yields_bind_post _
           (fun o => match o with
                     | Some r => answers_from round3 g r
                     | None => True
                     end)).
  - destruct (llm E) as [invoke|]; [|now apply yields_ret].
    unfold llm_answer. apply yields_try; [|intros ?; now apply yields_ret].
    apply yields_bind. intros instructions.
    apply yields_bind. intros prompt.
    apply yields_bind. intros response_text.
    apply (yields_bind_post _ (fun t => Py.strip t <> "")).
    + destruct (negb (Py.truthy response_text)
                || (String.length (Py.strip response_text) =? 0)) eqn:Hb.
      * apply yields_at_step, fallback_not_blank.
      * apply yields_ret. now apply blank_test.
    + intros t Ht.
      apply (yields_bind_post _ (answers_from round3 g)).
      * now apply respond_with_answers.
      * intros r Hr. now apply yields_ret.
  - intros [r|] Hr; [now apply yields_ret|].
    unfold fallback_answer.
    apply (yields_bind_post _ (fun t => Py.strip t <> "")).
    + apply yields_at_step, fallback_not_blank.
    + intros t Ht. now apply respond_with_answers.
Qed.

Lemma answers_well_formed round3 (g : Gathered) (r : ChatResponse) :
  answers_from round3 g r -> well_formed r.
Proof.
  intros [Ht [Hc [[Hs Hn] | [Hs Hn]]]].
  - split; auto; unfold document_sources, web_sources; rewrite Hs; simpl; lia.
  - split; auto.
    + unfold document_sources. rewrite Hs, extract_sources_documents, Hn.
      destruct (doc_sources_spec round3 [] (Py.ltake 3 (g_chunks g)))
        as [Hl _].
      unfold Py.ltake in *. rewrite length_firstn in Hl. exact Hl.
    + unfold web_sources. rewrite Hs, extract_sources_web, length_map.
      unfold Py.ltake. rewrite length_firstn. lia.
Qed.

Lemma apology_well_formed : well_formed apology_response.
Proof. split; auto; simpl; try lia. vm_compute. discriminate. Qed.

(** X13. Whatever the collaborators answer and whichever step raises,
    [get_response] returns a response a client can show: its text is not
    blank, it lists at most three documents and never more documents than
    chunks were found, at most three web links, and it leaves the
    conversation id to the endpoint. *)
Theorem response_is_well_formed re round3 template E message
        conversation_id agent_id user_id (w : World) :
  exists r w',
    get_response re round3 template E message conversation_id agent_id
                 user_id w = (Ok r, w')
    /\ well_formed r.
Proof.
  assert (H : yields well_formed
                (get_response_body re round3 template E message
                                   conversation_id agent_id user_id)).
  { unfold get_response_body. apply yields_bind. intros g.
    intros w0. pose proof (answer_answers round3 template E g message
                                          agent_id w0) as Ha.
    destruct (fst (answer round3 template E g message agent_id w0));
      [now apply (answers_well_formed round3 g) | exact I]. }
  unfold get_response, M.try_except. specialize (H w).
  destruct (get_response_body re round3 template E message conversation_id
                              agent_id user_id w) as [[r|e] w'].
  - exists r, w'. split; [reflexivity | exact H].
  - exists apology_response, w'. split; [reflexivity | apply apology_well_formed].
Qed.

(* ================================================================= *)
(** ** When the web is searched, and when nothing is found *)

Lemma calls_of_kind_subseq (k : Kind) (t : list Call) (p : list Kind) :
  Subseq (map kind_of t) p -> ~ In k p -> calls_of_kind k t = 0.
Proof.
  intros Hs Hk. unfold calls_of_kind.
  assert (Hin : forall c, In c t -> In (kind_of c) p).
  { clear Hk. remember (map kind_of t) as l eqn:El. revert t El.
    induction Hs as [|x l p Hs IH|x l p Hs IH]; intros t El c Hc.
    - destruct t; [destruct Hc | discriminate].
    - right. now apply (IH t).
    - destruct t as [|c0 t]; [discriminate|]. injection El as -> ->.
      destruct Hc as [<-|Hc]; [now left | right; now apply (IH t)]. }
  clear Hs. induction t as [|c t IH]; [reflexivity|]. cbn [filter].
  assert (Hc : kind_of c <> k).
  { intros <-. apply Hk, Hin. now left. }
  destruct (kind_of c), k; try congruence;
    apply IH; intros c' Hc'; apply Hin; now right.
Qed.

Lemma assemble_confident re E message history chunks (w : World) :
  should_search_web (_evaluate_kb_confidence chunks message) = false ->
  snd (assemble re E message history chunks w) = w
  /\ match fst (assemble re E message history chunks w) with
     | Ok g => g_web_links g = [] /\ g_chunks g = chunks
               /\ g_context g = _build_context chunks None
     | Raise _ => True
     end.
Proof.
  intros Hc. unfold assemble, at_step, M.bind, M.ret, M.raise.
  destruct chunks as [|c chunks].
  - destruct (fault E StepConfidence); [now split|]. rewrite Hc.
    destruct (fault E StepContext); now split.
  - destruct (fault E StepKbContext); [now split|].
    destruct (fault E StepConfidence); [now split|]. rewrite Hc.
    destruct (fault E StepContext); now split.
Qed.

(** X14. When the chunks the lookup of a call returns are judged
    sufficient ([should_search_web] is false), [get_response] does not
    call the web search, and its response lists no web link. *)
Theorem confident_lookup_skips_web re round3 template E message
        conversation_id agent_id user_id (w : World) (chunks : list Chunk) :
  fst (lookup_of E message conversation_id agent_id user_id w) = Ok chunks ->
  should_search_web (_evaluate_kb_confidence chunks message) = false ->
  exists r w' t,
    get_response re round3 template E message conversation_id agent_id
                 user_id w = (Ok r, w')
    /\ trace w' = (trace w ++ t)%list
    /\ calls_of_kind KWeb t = 0
    /\ web_sources r = [].
Proof.
  intros Hlook Hconf.
  assert (Hno : forall t, Subseq (map kind_of t)
                                 [KMessages; KSearch; KAgent; KLlm] ->
                          calls_of_kind KWeb t = 0).
  { intros t Ht. apply (calls_of_kind_subseq _ _ _ Ht).
    simpl. intuition discriminate. }
  unfold lookup_of in Hlook.
  unfold get_response, get_response_body, gather, M.try_except, M.bind.
  destruct (within_load_history E conversation_id w) as [t1 [E1 S1]].
  destruct (load_history E conversation_id w) as [[history|e] w1];
    simpl in Hlook, E1.
  2:{ exists apology_response, w1, t1. repeat split; auto.
      apply Hno. now apply (Subseq_app_l _ [KMessages] [KSearch; KAgent; KLlm]). }
  destruct (within_search E message agent_id None user_id w1) as [t2 [E2 S2]].
  destruct (_search_knowledge_base E message agent_id None user_id w1)
    as [[chunks'|e] w2]; simpl in Hlook, E2; [|discriminate].
  injection Hlook as ->.
  assert (S12 : Subseq (map kind_of (t1 ++ t2)) [KMessages; KSearch]).
  { rewrite map_app. now apply (Subseq_app _ [KMessages] _ [KSearch]). }
  destruct (assemble_confident re E message history chunks w2 Hconf)
    as [Hw Hg].
  destruct (assemble re E message history chunks w2) as [[g|e] w2'];
    simpl in Hw, Hg; subst w2'.
  2:{ exists apology_response, w2, (t1 ++ t2)%list. repeat split; auto.
      - now rewrite E2, E1, app_assoc.
      - apply Hno.
        now apply (Subseq_app_l _ [KMessages; KSearch] [KAgent; KLlm]). }
  destruct Hg as [Hlinks [Hchunks _]].
  destruct (within_answer round3 template E g message agent_id w2)
    as [t3 [E3 S3]].
  pose proof (answer_answers round3 template E g message agent_id w2) as Ha.
  assert (S123 : Subseq (map kind_of ((t1 ++ t2) ++ t3))
                        [KMessages; KSearch; KAgent; KLlm]).
  { rewrite map_app.
    now apply (Subseq_app _ [KMessages; KSearch] _ [KAgent; KLlm]). }
  destruct (answer round3 template E g message agent_id w2) as [[r|e] w3];
    simpl in E3, Ha.
  - exists r, w3, ((t1 ++ t2) ++ t3)%list. repeat split; auto.
    + now rewrite E3, E2, E1, !app_assoc.
    + destruct Ha as [_ [_ [[Hs _] | [Hs _]]]]; unfold web_sources;
        rewrite Hs; [reflexivity|].
      now rewrite extract_sources_web, Hlinks.
  - exists apology_response, w3, ((t1 ++ t2) ++ t3)%list. repeat split; auto.
    now rewrite E3, E2, E1, !app_assoc.
Qed.

Lemma confident_lookup_skips_web_witness :
  fst (lookup_of Sample.env_up "How do I reset the system?" None None None
                 init_world) = Ok (usable Sample.manual)
  /\ should_search_web (_evaluate_kb_confidence (usable Sample.manual)
                          "How do I reset the system?") = false
  /\ exists r w' t,
       get_response Sample.re_none Sample.round_id Sample.template
                    Sample.env_up "How do I reset the system?" None None None
                    init_world = (Ok r, w')
       /\ trace w' = (trace init_world ++ t)%list
       /\ calls_of_kind KWeb t = 0
       /\ web_sources r = [].
Proof.
  split; [vm_compute; reflexivity|]. split; [vm_compute; reflexivity|].
  apply (confident_lookup_skips_web Sample.re_none Sample.round_id
           Sample.template Sample.env_up "How do I reset the system?"
           None None None init_world (usable Sample.manual));
    vm_compute; reflexivity.
Defined.

(** X15. With no web search tool configured and no helper failing, a
    call whose lookup finds no chunk answers with the fixed
    no-information response right after the lookup: neither the agent
    registry nor the language model is called. *)
Theorem no_context_short_circuit re round3 template E message
        conversation_id agent_id user_id (w : World) :
  no_faults E ->
  web_search_tool E = None ->
  fst (lookup_of E message conversation_id agent_id user_id w) = Ok [] ->
  get_response re round3 template E message conversation_id agent_id
               user_id w
  = (Ok no_information_response,
     snd (lookup_of E message conversation_id agent_id user_id w)).
Proof.
  intros Hf Hweb Hlook. unfold lookup_of in *.
  assert (Hload : exists history, fst (load_history E conversation_id w)
                                  = Ok history).
  { unfold load_history. destruct conversation_id as [cid|]; [|now eexists].
    destruct (Py.truthy cid); [|now eexists].
    unfold get_conversation_history, M.bind, M.try_except, M.call, M.ret, at_step.
    rewrite (Hf StepHistory).
    destruct (messages_of E cid); now eexists. }
  destruct Hload as [history Hload].
  unfold get_response, get_response_body, gather, M.try_except, M.bind.
  destruct (load_history E conversation_id w) as [[h|e] w1];
    simpl in Hload, Hlook |- *; [|discriminate].
  destruct (_search_knowledge_base E message agent_id None user_id w1)
    as [[chunks|e] w2]; simpl in Hlook |- *; [|discriminate].
  injection Hlook as ->.
  unfold assemble, at_step, M.bind, M.ret.
  rewrite (Hf StepConfidence), (Hf StepContext), Hweb.
  destruct (should_search_web (_evaluate_kb_confidence [] message));
    reflexivity.
Qed.

Lemma no_context_short_circuit_witness :
  no_faults Sample.env_search_empty
  /\ web_search_tool Sample.env_search_empty = None
  /\ fst (lookup_of Sample.env_search_empty "reset pump" None None None
                    init_world) = Ok []
  /\ get_response Sample.re_none Sample.round_id Sample.template
                  Sample.env_search_empty "reset pump" None None None
                  init_world
     = (Ok no_information_response,
        snd (lookup_of Sample.env_search_empty "reset pump" None None None
                       init_world)).
Proof.
  assert (H1 : no_faults Sample.env_search_empty) by (intros s; reflexivity).
  assert (H3 : fst (lookup_of Sample.env_search_empty "reset pump" None None
                              None init_world) = Ok [])
    by (vm_compute; reflexivity).
  split; [exact H1|]. split; [reflexivity|]. split; [exact H3|].
  exact (no_context_short_circuit Sample.re_none Sample.round_id
           Sample.template Sample.env_search_empty "reset pump" None None None
           init_world H1 eq_refl H3).
Defined.

(* ================================================================= *)
(** ** The web search *)

Lemma parse_web_results_keys (data : RawResults) :
  exists text ls, web_text (_parse_web_results data) = Some text
                  /\ links (_parse_web_results data) = Some ls.
Proof.
  unfold _parse_web_results.
  destruct (answerBox data) as [answer|];
    destruct (knowledgeGraph data) as [kg|];
    try destruct (kg_title kg); try destruct (kg_description kg);
    cbn [web_text links]; eauto.
Qed.

Lemma search_query_nonempty re (message : string) :
  message <> "" -> _generate_search_query re message <> "".
Proof.
  intros Hm. unfold _generate_search_query.
  match goal with
  | |- (if Py.truthy ?s then _ else _) <> _ => destruct s eqn:Hs
  end; [exact Hm | discriminate].
Qed.

(** X16. [_search_web] never raises and leaves the cache alone. It calls
    the search tool at most once, with the query [_generate_search_query]
    makes of the message, which is not empty when the message is not; it
    returns a dict with both keys, and the empty result when the tool is
    not configured or raises. *)
Theorem web_search_never_raises re E (query : string) (w : World) :
  exists wr w' t,
    _search_web re E query w = (Ok wr, w')
    /\ _query_cache w' = _query_cache w
    /\ trace w' = (trace w ++ t)%list
    /\ (exists text ls, web_text wr = Some text /\ links wr = Some ls)
    /\ (query <> "" -> _generate_search_query re query <> "")
    /\ match web_search_tool E with
       | None => t = [] /\ wr = no_web_results
       | Some results =>
           t = [CallWebSearch (_generate_search_query re query)]
           /\ match results (_generate_search_query re query) with
              | Ok raw_results => wr = _parse_web_results raw_results
              | Raise _ => wr = no_web_results
              end
       end.
Proof.
  unfold _search_web.
  destruct (web_search_tool E) as [results|].
  - unfold M.try_except, M.bind, M.call, M.ret. cbv zeta.
    destruct (results (_generate_search_query re query)) as [raw|e].
    + exists (_parse_web_results raw). eexists. eexists.
      split; [reflexivity|]. repeat split; try reflexivity.
      * apply parse_web_results_keys.
      * apply search_query_nonempty.
    + exists no_web_results. eexists. eexists.
      split; [reflexivity|]. repeat split; try reflexivity.
      * exists "", []. now split.
      * apply search_query_nonempty.
  - exists no_web_results, w, []. split; [reflexivity|].
    repeat split; try reflexivity.
    + now rewrite app_nil_r.
    + exists "", []. now split.
    + apply search_query_nonempty.
Qed.

(* ================================================================= *)
(** ** The global vector search *)

Lemma format_matches_scored (i : nat) (matches : list Match) :
  Forall (fun m => match_score m <> None) matches ->
  exists out,
    KnowledgeBaseService.format_matches i matches = Ok out
    /\ map similarity_score out = map match_score matches
    /\ map rank out = map Some (seq (i + 1) (List.length matches))
    /\ map text out = map (fun m => Some (match_text m)) matches
    /\ Forall (fun c => metadata c <> None) out.
Proof.
  intros H. revert i. induction H as [|m matches Hm _ IH]; intros i.
  - exists []. repeat split; constructor.
  - cbn [KnowledgeBaseService.format_matches].
    destruct (match_score m) as [score|] eqn:Hs; [|congruence].
    destruct (IH (S i)) as [out [-> [H1 [H2 [H3 H4]]]]].
    eexists. split; [reflexivity|]. cbn [map List.length seq].
    rewrite H1, H3, Hs, H2. replace (S i + 1) with (S (i + 1)) by lia.
    repeat split.
    + unfold match_text. now destruct (match_metadata m).
    + constructor; [discriminate | exact H4].
Qed.

Lemma format_matches_unscored (i : nat) (matches : list Match) :
  Exists (fun m => match_score m = None) matches ->
  exists e, KnowledgeBaseService.format_matches i matches = Raise e.
Proof.
  intros H. revert i. induction H as [m matches Hm|m matches _ IH]; intros i;
    cbn [KnowledgeBaseService.format_matches].
  - rewrite Hm. now eexists.
  - destruct (match_score m); [|now eexists].
    destruct (IH (S i)) as [e ->]. now eexists.
Qed.

(** X17. [KnowledgeBaseService.search] answers all or nothing. When the
    embedding and the index answer and every match has a score, it
    returns one chunk per match, in the order of the index, ranked 1, 2,
    ... with the score and the stored text of its match; one match
    without a score, like a failing embedding or index, gives the empty
    list. *)
Theorem knowledge_base_search_all_or_nothing
        (generate_embedding : string -> result (list float))
        (index_query : list float -> Z -> result (list Match))
        (query : string) (top_k : Z) :
  (forall embedding matches,
      generate_embedding query = Ok embedding ->
      index_query embedding top_k = Ok matches ->
      (Forall (fun m => match_score m <> None) matches ->
       map similarity_score
           (KnowledgeBaseService.search generate_embedding index_query
                                        query top_k)
       = map match_score matches
       /\ map rank (KnowledgeBaseService.search generate_embedding
                                                index_query query top_k)
          = map Some (seq 1 (List.length matches))
       /\ map text (KnowledgeBaseService.search generate_embedding
                                                index_query query top_k)
          = map (fun m => Some (match_text m)) matches)
      /\ (Exists (fun m => match_score m = None) matches ->
          KnowledgeBaseService.search generate_embedding index_query
                                      query top_k = []))
  /\ (knowledge_base_down generate_embedding index_query query top_k ->
      KnowledgeBaseService.search generate_embedding index_query
                                  query top_k = []).
Proof.
  unfold KnowledgeBaseService.search. split.
  - intros embedding matches -> ->. split.
    + intros H. destruct (format_matches_scored 0 matches H)
        as [out [-> [H1 [H2 [H3 _]]]]]. auto.
    + intros H. now destruct (format_matches_unscored 0 matches H) as [e ->].
  - intros [[e ->] | [embedding [e [-> ->]]]]; reflexivity.
Qed.

Lemma knowledge_base_search_all_or_nothing_witness :
  embedding_up "reset pump" = Ok [0.5%float; 0.25%float]
  /\ index_two [0.5%float; 0.25%float] 5%Z
     = Ok [scored_match "Press reset" 0.9%float;
           scored_match "Hold 5 s" 0.4%float]
  /\ map similarity_score
         (KnowledgeBaseService.search embedding_up index_two "reset pump" 5%Z)
     = [Some 0.9%float; Some 0.4%float]
  /\ map rank
         (KnowledgeBaseService.search embedding_up index_two "reset pump" 5%Z)
     = [Some 1; Some 2]
  /\ map text
         (KnowledgeBaseService.search embedding_up index_two "reset pump" 5%Z)
     = [Some "Press reset"; Some "Hold 5 s"].
Proof.
  split; [reflexivity|]. split; [reflexivity|].
  apply (proj1 (knowledge_base_search_all_or_nothing embedding_up index_two
                  "reset pump" 5%Z)
               [0.5%float; 0.25%float]
               [scored_match "Press reset" 0.9%float;
                scored_match "Hold 5 s" 0.4%float] eq_refl eq_refl).
  repeat constructor; discriminate.
Defined.

Lemma knowledge_base_down_empty generate_embedding index_query query top_k :
  knowledge_base_down generate_embedding index_query query top_k ->
  KnowledgeBaseService.search generate_embedding index_query query top_k = [].
Proof.
  unfold KnowledgeBaseService.search.
  intros [[e ->] | [embedding [e [-> ->]]]]; reflexivity.
Qed.

(** X18. A failure of the knowledge base is remembered as an empty
    answer. When the embedding or the index query raises during a global
    lookup that is not cached, the lookup returns no chunk and stores the
    empty list under its key: the same lookup then keeps returning no
    chunk without searching again, whatever the knowledge base would
    answer by then. *)
Theorem knowledge_base_failure_is_cached
        generate_embedding index_query (E E' : Env) (query : string)
        (top_k : option Z) (user_id user_id' : option string) (w : World) :
  knowledge_base_down generate_embedding index_query query
                      (depth_of query top_k) ->
  dict_get (cache_key None query (depth_of query top_k)) (_query_cache w)
  = None ->
  exists w1,
    _search_knowledge_base
      (with_knowledge_base generate_embedding index_query E)
      query None top_k user_id w = (Ok [], w1)
    /\ dict_get (cache_key None query (depth_of query top_k))
                (_query_cache w1) = Some []
    /\ _search_knowledge_base E' query None top_k user_id' w1 = (Ok [], w1).
Proof.
  intros Hdown Hmiss.
  pose proof (search_miss_ok
                (with_knowledge_base generate_embedding index_query E)
                query None top_k user_id w [] Hmiss) as H.
  cbn [search_answer with_knowledge_base kb_search] in H.
  rewrite (knowledge_base_down_empty _ _ _ _ Hdown) in H.
  specialize (H eq_refl). cbn [usable filter] in H.
  eexists. split; [exact H|]. cbn [_query_cache].
  split; [apply dict_get_set|].
  apply search_hit. cbn [_query_cache]. apply dict_get_set.
Qed.

Lemma knowledge_base_failure_is_cached_witness :
  knowledge_base_down embedding_down index_empty "reset pump"
                      (depth_of "reset pump" None)
  /\ dict_get (cache_key None "reset pump" (depth_of "reset pump" None))
              (_query_cache init_world) = None
  /\ exists w1,
       _search_knowledge_base
         (with_knowledge_base embedding_down index_empty Sample.env_up)
         "reset pump" None None None init_world = (Ok [], w1)
       /\ dict_get (cache_key None "reset pump" (depth_of "reset pump" None))
                   (_query_cache w1) = Some []
       /\ _search_knowledge_base Sample.env_up "reset pump" None None None w1
          = (Ok [], w1).
Proof.
  assert (H1 : knowledge_base_down embedding_down index_empty "reset pump"
                                   (depth_of "reset pump" None))
    by (left; exists Sample.timeout; reflexivity).
  split; [exact H1|]. split; [reflexivity|].
  exact (knowledge_base_failure_is_cached embedding_down index_empty
           Sample.env_up Sample.env_up "reset pump" None None None init_world
           H1 eq_refl).
Defined.

(* ================================================================= *)
(** ** Clearing the cache *)

(** X19. After [clear_cache], which empties the cache and calls no
    collaborator, every lookup reaches the vector search again, once; when
    the search answers, the cache then holds that lookup alone, and when
    it raises the cache stays empty. *)
Theorem clear_cache_forces_refetch (E : Env) (query : string)
        (agent_id : option string) (top_k : option Z)
        (user_id : option string) (w : World) :
  _query_cache (snd (clear_cache w)) = []
  /\ trace (snd (clear_cache w)) = trace w
  /\ exists chunks w1,
       _search_knowledge_base E query agent_id top_k user_id
                              (snd (clear_cache w)) = (Ok chunks, w1)
       /\ trace w1
          = (trace w ++ [search_call query agent_id (depth_of query top_k)
                                     user_id])%list
       /\ match search_answer E query agent_id (depth_of query top_k)
                              user_id with
          | Ok results =>
              chunks = usable results
              /\ _query_cache w1
                 = [(cache_key agent_id query (depth_of query top_k),
                     usable results)]
          | Raise _ => chunks = [] /\ _query_cache w1 = []
          end.
Proof.
  split; [reflexivity|]. split; [reflexivity|].
  unfold clear_cache, M.set_cache. cbn [snd].
  destruct (search_answer E query agent_id (depth_of query top_k) user_id)
    as [results|e] eqn:Ha.
  - eexists. eexists. split.
    + apply (search_miss_ok E query agent_id top_k user_id _ results);
        [reflexivity | exact Ha].
    + cbn [trace _query_cache]. repeat split.
  - eexists. eexists. split.
    + apply (search_miss_raise E query agent_id top_k user_id _ e);
        [reflexivity | exact Ha].
    + cbn [trace _query_cache]. repeat split.
Qed.

(* ================================================================= *)
(** ** The message list of [_create_prompt] *)

Lemma length_flat_map_le {A B} (f : A -> list B) (n : nat) (l : list A) :
  (forall a, List.length (f a) <= n) ->
  List.length (flat_map f l) <= n * List.length l.
Proof.
  intros Hf. induction l as [|a l IH]; simpl; [lia|].
  rewrite length_app. specialize (Hf a). lia.
Qed.

Lemma length_llast {A} (n : nat) (l : list A) :
  List.length (Py.llast n l) <= n.
Proof. unfold Py.llast. rewrite length_skipn. lia. Qed.

Lemma truthy_eqb (s : string) : Py.truthy s = negb (String.eqb s "").
Proof. now destruct s. Qed.

Lemma flat_map_answered (l : list Exchange) :
  flat_map exchange_messages l
  = flat_map (fun e => [HumanMessage (ex_message e);
                        SystemMessage (ex_response e)])
             (filter answered l).
Proof.
  induction l as [|e l IH]; [reflexivity|].
  cbn [flat_map filter]. unfold exchange_messages at 1, answered at 1.
  rewrite !truthy_eqb.
  destruct (negb (String.eqb (ex_message e) "")
            && negb (String.eqb (ex_response e) ""));
    cbn [flat_map app]; now rewrite IH.
Qed.

(** X20. [_create_prompt] builds the system prompt first, then, for each
    of the last five exchanges that has a non-empty message and a
    non-empty response, in order, the message as a human message and the
    response as a system message, then the user prompt, which contains
    the query, last: at most twelve messages. *)
Theorem prompt_messages_bounded (system_prompt query context : string)
        (conversation_history : list Exchange) :
  _create_prompt system_prompt query context conversation_history
  = ([SystemMessage system_prompt]
     ++ flat_map (fun e => [HumanMessage (ex_message e);
                            SystemMessage (ex_response e)])
                 (filter answered
                         (skipn (List.length conversation_history - 5)
                                conversation_history))
     ++ [HumanMessage (user_prompt query context)])%list
  /\ List.length (_create_prompt system_prompt query context
                                 conversation_history) <= 12
  /\ hd_error (_create_prompt system_prompt query context
                              conversation_history)
     = Some (SystemMessage system_prompt)
  /\ last (_create_prompt system_prompt query context conversation_history)
          (SystemMessage "")
     = HumanMessage (user_prompt query context)
  /\ Py.contains query (user_prompt query context) = true.
Proof.
  unfold _create_prompt. split; [|repeat split].
  - rewrite flat_map_answered. reflexivity.
  - cbn [List.length]. rewrite length_app. cbn [List.length].
    pose proof (length_flat_map_le exchange_messages 2
                  (Py.llast 5 conversation_history)) as H.
    pose proof (length_llast 5 conversation_history).
    assert (Hf : forall a, List.length (exchange_messages a) <= 2).
    { intros a. unfold exchange_messages.
      destruct (Py.truthy (ex_message a) && Py.truthy (ex_response a));
        simpl; lia. }
    specialize (H Hf). lia.
  - rewrite app_comm_cons. apply last_last.
  - unfold user_prompt. destruct (Py.truthy context).
    + do 7 apply contains_app_r. apply contains_prefix.
    + apply contains_app_r. apply contains_prefix.
Qed.

(* ================================================================= *)
(** ** The conversation block of the prompt *)

Lemma append_nil_r (s : string) : s ++ "" = s.
Proof. induction s; simpl; congruence. Qed.

Lemma history_lines_pending (i : nat) (l : list Exchange) (x : Exchange) :
  ex_response x = "" -> history_lines i (l ++ [x]) = history_lines i l.
Proof.
  intros Hx. revert i; induction l as [|e l IH]; intros i.
  - cbn [app history_lines]. rewrite Hx, andb_false_r. reflexivity.
  - cbn [app history_lines]. now rewrite IH.
Qed.

Lemma llast_snoc {A} (n : nat) (l : list A) (x : A) :
  Py.llast (S n) (l ++ [x]) = (Py.llast n l ++ [x])%list.
Proof.
  unfold Py.llast. rewrite length_app. cbn [List.length].
  replace (List.length l + 1 - S n) with (List.length l - n) by lia.
  rewrite skipn_app.
  replace (List.length l - n - List.length l) with 0 by lia.
  reflexivity.
Qed.

Lemma convert_history_user (rows : list MessageRow) (u : MessageRow) :
  sender u = Some "user" ->
  convert_history (rows ++ [u])
  = (convert_history rows
     ++ [{| ex_message := opt_str (row_text u) ""; ex_response := "" |}])%list.
Proof.
  intros Hu. unfold convert_history. rewrite fold_left_app. cbn [fold_left].
  unfold add_row at 1. now rewrite Hu.
Qed.

(** X21. When the stored rows end with a row of the user, as they do when
    an endpoint has stored the current message before it asks for the
    response, the conversation block of the prompt is not empty, leaves
    that message out, and shows at most the last two earlier exchanges,
    not three: the pending message takes one of the three places. *)
Theorem pending_message_takes_a_history_place (rows : list MessageRow)
        (u : MessageRow) :
  sender u = Some "user" ->
  history_context (convert_history (rows ++ [u]))
  = Py.nl ++ Py.nl ++ "CONVERSATION CONTEXT (recent exchanges):" ++ Py.nl
    ++ history_lines 1 (Py.llast 2 (convert_history rows)).
Proof.
  intros Hu. rewrite (convert_history_user rows u Hu).
  unfold history_context.
  destruct (convert_history rows ++ _)%list eqn:Hc at 1.
  - destruct (convert_history rows); discriminate.
  - rewrite llast_snoc, history_lines_pending; reflexivity.
Qed.

Lemma pending_message_takes_a_history_place_witness :
  sender (user_row "And the filter?") = Some "user"
  /\ history_context
       (convert_history
          ([user_row "q1"; bot_row "a1"; user_row "q2"; bot_row "a2";
            user_row "q3"; bot_row "a3"] ++ [user_row "And the filter?"]))
     = Py.nl ++ Py.nl ++ "CONVERSATION CONTEXT (recent exchanges):" ++ Py.nl
       ++ history_lines 1
            (Py.llast 2
               (convert_history
                  [user_row "q1"; bot_row "a1"; user_row "q2"; bot_row "a2";
                   user_row "q3"; bot_row "a3"])).
Proof.
  split; [reflexivity|].
  apply (pending_message_takes_a_history_place
           [user_row "q1"; bot_row "a1"; user_row "q2"; bot_row "a2";
            user_row "q3"; bot_row "a3"] (user_row "And the filter?")).
  reflexivity.
Defined.

(* ================================================================= *)
(** ** The documents a response cites *)

Lemma lookup_above E query agent_id top_k user_id (w : World) :
  cache_ok (_query_cache w) ->
  exists chunks w',
    _search_knowledge_base E query agent_id top_k user_id w = (Ok chunks, w')
    /\ Forall above_threshold chunks.
Proof.
  intros H0.
  destruct (search_cases E query agent_id top_k user_id w)
    as [[c [Hget ->]] | [[e [_ [_ ->]]] | [r [_ [_ ->]]]]].
  - exists c, w. split; [reflexivity|].
    assert (Hin : In (cache_key agent_id query (depth_of query top_k), c)
                     (_query_cache w)).
    { clear H0. induction (_query_cache w) as [|[k v] d IH];
        simpl in *; [discriminate|].
      destruct (String.eqb_spec k (cache_key agent_id query
                                             (depth_of query top_k)));
        [left; congruence | right; auto]. }
    exact (proj1 (Forall_forall _ _) (ok_values _ H0) _ Hin).
  - eexists _, _. split; [reflexivity | constructor].
  - eexists _, _. split; [reflexivity | apply usable_above].
Qed.

Lemma assemble_chunks re E message history chunks :
  yields (fun g => g_chunks g = chunks)
         (assemble re E message history chunks).
Proof.
  unfold assemble.
  do 4 (apply yields_bind; intros ?). now apply yields_ret.
Qed.

(** X22. In every world a service can reach, each document a response of
    [get_response] cites is the file of one of the first three chunks the
    lookup of that call returned, and that chunk carries a similarity
    score of at least 0.3. *)
Theorem cited_documents_are_retrieved re round3 template E message
        conversation_id agent_id user_id (w : World) :
  reachable w ->
  exists r w' chunks,
    get_response re round3 template E message conversation_id agent_id
                 user_id w = (Ok r, w')
    /\ fst (lookup_of E message conversation_id agent_id user_id w)
       = Ok chunks
    /\ forall s, In s (document_sources r) ->
                 exists c, In c (firstn 3 chunks)
                           /\ above_threshold c
                           /\ source_name s = filename_of c.
Proof.
  intros Hw. pose proof (reachable_ok w Hw) as Hok.
  pose proof (load_history_keeps cache_ok E conversation_id w Hok) as H1.
  unfold lookup_of.
  unfold get_response, get_response_body, gather, M.try_except, M.bind.
  destruct (load_history E conversation_id w) as [[history|e] w1];
    simpl in H1 |- *;
    destruct (lookup_above E message agent_id None user_id w1 H1)
      as [chunks [w2 [Hs Hall]]]; rewrite Hs; cbn [fst].
  2:{ exists apology_response, w1, chunks. repeat split; auto.
      intros s []. }
  pose proof (assemble_chunks re E message history chunks w2) as Hg.
  destruct (assemble re E message history chunks w2) as [[g|e] w3];
    simpl in Hg.
  2:{ exists apology_response, w3, chunks. repeat split; auto.
      intros s []. }
  pose proof (answer_answers round3 template E g message agent_id w3) as Ha.
  destruct (answer round3 template E g message agent_id w3) as [[r|e] w4];
    simpl in Ha.
  2:{ exists apology_response, w4, chunks. repeat split; auto.
      intros s []. }
  exists r, w4, chunks. split; [reflexivity|]. split; [reflexivity|].
  intros s Hin. unfold document_sources in Hin.
  destruct Ha as [_ [_ [[Hsrc _] | [Hsrc _]]]]; rewrite Hsrc in Hin;
    [destruct Hin|].
  rewrite extract_sources_documents, Hg in Hin.
  destruct (doc_sources_spec round3 [] (Py.ltake 3 chunks))
    as [_ [_ [_ Hspec]]].
  destruct (Hspec (source_name s) (in_map _ _ _ Hin)) as [_ [_ [c [Hc Hn]]]].
  exists c. split; [exact Hc|]. split; [|exact Hn].
  apply (proj1 (Forall_forall _ _) Hall).
  unfold Py.ltake in Hc. rewrite <- (firstn_skipn 3 chunks).
  apply in_or_app. now left.
Qed.

Lemma cited_documents_are_retrieved_witness :
  reachable Sample.full_world
  /\ exists r w' chunks,
       get_response Sample.re_none Sample.round_id Sample.template
                    Sample.env_up "How do I reset the system?" None None None
                    Sample.full_world = (Ok r, w')
       /\ fst (lookup_of Sample.env_up "How do I reset the system?" None None
                         None Sample.full_world) = Ok chunks
       /\ forall s, In s (document_sources r) ->
                    exists c, In c (firstn 3 chunks)
                              /\ above_threshold c
                              /\ source_name s = filename_of c.
Proof.
  assert (Hr : reachable Sample.full_world) by (exists Sample.fill; reflexivity).
  split; [exact Hr|].
  exact (cited_documents_are_retrieved Sample.re_none Sample.round_id
           Sample.template Sample.env_up "How do I reset the system?"
           None None None Sample.full_world Hr).
Defined.
